(** * mistral_ocr.py: a shallow embedding and its specification

    The script [mistral_ocr.py] submits a document (a local file or a URL) to
    the Mistral OCR service and serialises the answer: one Markdown file and
    the images of the pages next to it.

    The script is a sequence of effectful calls, so it is embedded in a small
    monad of its own: a state (what the process has emitted and written so
    far) threaded through computations that return, raise a Python exception,
    or leave through [sys.exit].  The files the process writes, the Markdown
    file and the images alike, live in one store keyed by file: a path is
    turned into the file it names when it is opened, so that two paths that
    the operating system takes to the same file ([out/report.md] and
    [out/../out/report.md], a link and its target) share one entry.  The
    Markdown file is written through a buffered handle that stays open while
    the images of the pages are saved.  Everything the script does not
    implement itself (the command line as [argparse] reads it, the
    environment, pathlib, the file system's verdicts, the Mistral client, the
    [datauri] package) is a field of the record [World] or an argument of
    [main]. *)

From Stdlib Require Import ZArith String List Bool Lia.
From Stdlib Require Import Strings.Byte.
From stdpp Require Import base option gmap strings.

Import ListNotations.
Local Open Scope string_scope.
Local Open Scope list_scope.

(** ** Data of the OCR response

    The script reads [ocr_response.pages], and on a page [markdown] and
    [images]; on an image [id] and [image_base64].  [images] and
    [image_base64] may be [None] (or, for [images], missing). *)

Abbreviation bytes := (list byte).

Record OcrImage := mkImage {
  id : string;
  image_base64 : option string
}.

Record OcrPage := mkPage {
  markdown : string;
  images : option (list OcrImage)
}.

Record OcrResponse := mkResponse {
  pages : list OcrPage
}.

(** [argparse.Namespace] as [parse_args] builds it. *)
Record Namespace := mkArgs {
  input_source : string;
  output_file : string;
  url : bool
}.

(** What [parser.parse_args()] makes of the command line: the namespace; or,
    for a command line the parser rejects (an argument missing, an unknown
    option), the usage and the error on standard error and [sys.exit(2)]; or,
    for [-h] and [--help], the help on standard output and [sys.exit(0)]. *)
Inductive Cmdline :=
  | Parsed (ns : Namespace)
  | ArgError
  | ArgHelp.

(** A namespace stands for a command line that parses to it: [main w ns] is
    [main] on such a command line. *)
Coercion Parsed : Namespace >-> Cmdline.

(** ** Exceptions

    The handlers of the script tell apart [KeyError], [IOError],
    [datauri.DataURIError] and, last, [Exception]. *)
Inductive exn := KeyError | IOError | DataURIError | OtherException.

(** ** Constants *)
Definition MISTRAL_API_KEY_ENV_VAR : string := "MISTRAL_API_KEY".
Definition OCR_MODEL : string := "mistral-ocr-latest".

(** Python's ["\n\n"]. *)
Definition nl : string := String (Ascii.ascii_of_nat 10) EmptyString.
Definition blank_line : string := String.append nl nl.

(** ** The world around the script *)
Record World := mkWorld {
  (* os.environ *)
  environ : string -> option string;
  (* Mistral(api_key=...): None when the constructor returns *)
  mistral_init : string -> option exn;
  (* pathlib *)
  mk_path : string -> string;              (* str(Path(s)) *)
  path_parent : string -> string;          (* p.parent *)
  path_name : string -> string;            (* p.name *)
  path_join : string -> string -> string;  (* p / s *)
  (* p.exists() and p.is_file(): the answer, or the OSError of the stat call
     that pathlib lets through (a name too long, a directory that may not be
     searched) *)
  path_exists : string -> exn + bool;
  path_is_file : string -> exn + bool;
  (* the file a path names when the operating system opens it: [..], absolute
     paths, links and the case of letters are resolved; two paths name the
     same file when [file_of] agrees on them *)
  file_of : string -> string;
  (* p.open("rb") and the bytes read through the handle *)
  open_rb : string -> exn + bytes;
  (* output_dir.mkdir(parents=True, exist_ok=True) *)
  mkdir_parents : string -> option exn;
  (* open(output_file, "wt", encoding="utf-8") on a path; then, on the file
     that was opened, f.write(s) and the close at the end of the with block *)
  open_wt : string -> option exn;
  write_text : string -> string -> option exn;
  close_wt : string -> option exn;
  (* the buffers of a text file: how many of the bytes that wait in them are
     handed to the operating system after a write *)
  text_flush : string -> bytes -> nat;
  (* a write that raises: how many of the bytes that waited, followed by
     those of the text, are still in the buffers afterwards *)
  text_kept : string -> bytes -> string -> nat;
  (* a close that raises: how many of the bytes that wait reach the file
     before it does *)
  close_flush : string -> bytes -> nat;
  (* open(output_path, "wb"); file.write(data) with the close at the end of
     the with block; for a write that raises, how many bytes of the data
     reach the file before it does *)
  open_wb : string -> option exn;
  write_bytes : string -> bytes -> option exn;
  write_bytes_done : string -> bytes -> nat;
  (* the Mistral client *)
  files_upload : string -> bytes -> exn + string;
  files_get_signed_url : string -> exn + string;
  ocr_process : string -> string -> bool -> exn + OcrResponse;
  (* datauri.parse(s).data *)
  datauri_parse : string -> exn + bytes
}.

(** ** What the process emits *)
Inductive level := DEBUG | INFO | WARNING | ERROR.

Definition level_rank (l : level) : nat :=
  match l with DEBUG => 10 | INFO => 20 | WARNING => 30 | ERROR => 40 end%nat.

(** [logging.basicConfig(level=logging.INFO, ...)] *)
Definition LOG_LEVEL : level := INFO.

(** One constructor per logging call of the script, with the values its
    f-string formats. *)
Inductive log_msg :=
  (* parse_args *)
  | MsgArgsParsed (src out : string) (flag : bool)
  (* save_image *)
  | MsgImagePath (p : string)
  | MsgImageEmpty (i : string)
  | MsgImageWriting (p : string)
  | MsgImageSaved (name : string)
  | MsgImageParseError (i : string) (e : exn)
  | MsgImageWriteError (p : string) (e : exn)
  | MsgImageUnexpected (i : string) (e : exn)
  (* create_markdown_file *)
  | MsgMarkdownWriting (p : string)
  | MsgPageWriting (i n : nat)
  | MsgPageNoImages (i : nat)
  | MsgMarkdownDone (p : string)
  | MsgMarkdownIOError (p : string) (e : exn)
  | MsgMarkdownUnexpected (e : exn)
  (* main *)
  | MsgStart
  | MsgKeyLoaded
  | MsgClientReady
  | MsgEnvMissing (var : string)
  | MsgClientError (e : exn)
  | MsgNotUrlLike (s : string)
  | MsgUsingUrl (s : string)
  | MsgUsingFile (p : string)
  | MsgNotAFile (p : string)
  | MsgUploading (p : string)
  | MsgUploaded (p i : string)
  | MsgGettingSignedUrl (i : string)
  | MsgGotSignedUrl (prefix50 : string)
  | MsgReadError (p : string) (e : exn)
  | MsgFileUnexpected (e : exn)
  | MsgNoDocumentUrl
  | MsgOcrStart (model : string)
  | MsgOcrDone (n : nat)
  | MsgOcrError (e : exn)
  | MsgSaveError (e : exn)
  | MsgAllDone.

(** One constructor per [print(..., file=sys.stderr)] of the script, and one
    for the usage and error that [argparse] writes there. *)
Inductive err_msg :=
  | ErrUsage
  | ErrSetEnv (var : string)
  | ErrNotAFile (p : string)
  | ErrReadFailed (p : string).

(** [Log]: a record of the logger; the handler that [logging.basicConfig]
    installs writes it to standard output.  [PrintErr]: a line on standard
    error.  [PrintOut]: a [print] of the script on standard output.
    [PrintHelp]: the help of [argparse] on standard output. *)
Inductive event :=
  | Log (l : level) (m : log_msg)
  | PrintErr (m : err_msg)
  | PrintOut (s : string)
  | PrintHelp
  (* calls to the remote service *)
  | CallUpload (file_name : string) (content : bytes)
  | CallSignedUrl (file_id : string)
  | CallOcr (model : string) (document_url : string) (include_image_base64 : bool).

(** ** Files

    A file holds bytes; a Python [str] is held as the string of its UTF-8
    bytes, so that writing it with [encoding="utf-8"] writes these bytes.
    (The text layer translates no newline: [os.linesep] is a line feed, as on
    POSIX systems.  A text that cannot be encoded makes [f.write] raise, which
    is an answer of [write_text].) *)
Definition encode_utf8 (s : string) : bytes := list_byte_of_string s.

(** A text file open for writing, as [open(p, "wt")] returns it: the file it
    was opened on, the offset of its file descriptor, and the bytes written
    to it that still wait in its buffers. *)
Record TextFile := mkTextFile {
  f_file : string;
  f_pos : nat;
  f_pending : bytes
}.

(** What the operating system does with [data] written at offset [pos] of a
    file that holds [c]: a gap between the end of the file and [pos] reads
    as zero bytes. *)
Definition pwrite (c : bytes) (pos : nat) (data : bytes) : bytes :=
  take pos (c ++ replicate (pos - length c) x00) ++ data
  ++ drop (pos + length data) c.

(** ** State of the process

    [trace]: the events so far, oldest first.  [files]: the files of the
    machine, the Markdown file and the images alike, each under the name
    [file_of] gives it.
    [md_handle]: the text file that is open for writing, [f] in
    [create_markdown_file], if there is one. *)
Record State := mkState {
  trace : list event;
  files : gmap string bytes;
  md_handle : option TextFile
}.

Definition init_state (fs : gmap string bytes) : State :=
  mkState [] fs None.

(** ** The monad: state, exceptions and [sys.exit] *)
Inductive outcome (A : Type) :=
  | Ret (a : A)
  | Raise (e : exn)
  | Exit (code : Z).
Arguments Ret {A} a.
Arguments Raise {A} e.
Arguments Exit {A} code.

Definition M (A : Type) := State -> outcome A * State.

Definition ret {A} (a : A) : M A := fun s => (Ret a, s).

Definition bind {A B} (m : M A) (k : A -> M B) : M B :=
  fun s =>
    match m s with
    | (Ret a, s') => k a s'
    | (Raise e, s') => (Raise e, s')
    | (Exit c, s') => (Exit c, s')
    end.

Declare Scope py_scope.
Delimit Scope py_scope with py.
Bind Scope py_scope with M.
Notation "x <- m ;; k" := (bind m (fun x => k))
  (at level 90, m at level 80, right associativity) : py_scope.
Notation "m ;;; k" := (bind m (fun _ => k))
  (at level 90, right associativity) : py_scope.
Local Open Scope py_scope.

Definition raise {A} (e : exn) : M A := fun s => (Raise e, s).

(** [sys.exit(code)]: [SystemExit] is not an [Exception], so no handler of the
    script catches it. *)
Definition sys_exit {A} (code : Z) : M A := fun s => (Exit code, s).

(** [try: m except ...: h e] where the handlers together catch every
    [Exception], as each [try] of the script does. *)
Definition try_except {A} (m : M A) (h : exn -> M A) : M A :=
  fun s =>
    match m s with
    | (Raise e, s') => h e s'
    | r => r
    end.

Definition emit (e : event) : M unit :=
  fun s => (Ret tt, mkState (trace s ++ [e]) (files s) (md_handle s)).

(** A logging call: dropped below the configured level. *)
Definition log (l : level) (m : log_msg) : M unit :=
  if (level_rank LOG_LEVEL <=? level_rank l)%nat then emit (Log l m) else ret tt.

(** An operation that raises what the world says, or returns. *)
Definition check (r : option exn) : M unit :=
  match r with Some e => raise e | None => ret tt end.

Definition lift {A} (r : exn + A) : M A :=
  match r with inl e => raise e | inr a => ret a end.

(** [open(path, "wb")] creates or truncates the file the path names. *)
Definition do_open_wb (w : World) (p : string) : M unit :=
  check (open_wb w p) ;;;
  fun s => (Ret tt,
            mkState (trace s) (<[file_of w p := []]> (files s)) (md_handle s)).

(** [file.write(data)] on the handle just opened, and its close: the file
    holds the data, or, when the write raises, the part of them that reached
    it. *)
Definition do_write_bytes (w : World) (p : string) (data : bytes) : M unit :=
  fun s =>
    match write_bytes w p data with
    | Some e =>
        (Raise e,
         mkState (trace s)
           (<[file_of w p := take (write_bytes_done w p data) data]> (files s))
           (md_handle s))
    | None =>
        (Ret tt, mkState (trace s) (<[file_of w p := data]> (files s)) (md_handle s))
    end.

(** The first [k] bytes that wait in the buffers of [h] go to the file, at
    the offset of [h]. *)
Definition flush_bytes (fs : gmap string bytes) (h : TextFile) (k : nat)
    : gmap string bytes * TextFile :=
  match take k (f_pending h) with
  | [] => (fs, h)
  | data =>
      (<[f_file h := pwrite (default [] (fs !! f_file h)) (f_pos h) data]> fs,
       mkTextFile (f_file h) (f_pos h + length data) (drop k (f_pending h)))
  end.

(** [open(path, "wt", encoding="utf-8")] creates or truncates the file the
    path names; the handle starts at offset 0 with nothing in its buffers. *)
Definition do_open_wt (w : World) (p : string) : M unit :=
  check (open_wt w p) ;;;
  fun s => (Ret tt,
            mkState (trace s) (<[file_of w p := []]> (files s))
              (Some (mkTextFile (file_of w p) 0 []))).

(** The bytes that wait in the buffers of [h] once [f.write(text)] is
    through: those of [text] have joined them; when the write raised, a
    beginning of all these is left. *)
Definition waiting (w : World) (h : TextFile) (text : string)
    (r : option exn) : bytes :=
  let all := f_pending h ++ encode_utf8 text in
  match r with
  | Some _ => take (text_kept w (f_file h) (f_pending h) text) all
  | None => all
  end.

(** [f.write(text)] on the open text file: the bytes of [text] join those
    that wait, and the buffers hand some of them on; the write returns or
    raises as the world says.  (Writing to a closed file is a
    [ValueError].) *)
Definition do_write_text (w : World) (text : string) : M unit :=
  fun s =>
    match md_handle s with
    | None => (Raise OtherException, s)
    | Some h =>
        let r := write_text w (f_file h) text in
        let h1 := mkTextFile (f_file h) (f_pos h) (waiting w h text r) in
        let (fs, h2) :=
          flush_bytes (files s) h1 (text_flush w (f_file h) (f_pending h1)) in
        (match r with Some e => Raise e | None => Ret tt end,
         mkState (trace s) fs (Some h2))
    end.

(** [f.close()]: what waits in the buffers goes to the file; when the close
    raises, the part of it that got there before. *)
Definition do_close_text (w : World) : M unit :=
  fun s =>
    match md_handle s with
    | None => (Ret tt, s)
    | Some h =>
        match close_wt w (f_file h) with
        | Some e =>
            (Raise e,
             mkState (trace s)
               (flush_bytes (files s) h (close_flush w (f_file h) (f_pending h))).1
               None)
        | None =>
            (Ret tt,
             mkState (trace s)
               (flush_bytes (files s) h (length (f_pending h))).1 None)
        end
    end.

(** ** save_image *)

(** Python's truth value of [image.image_base64]: [None] and [""] are false. *)
Definition payload_truthy (p : option string) : bool :=
  match p with
  | None => false
  | Some s => negb (String.eqb s "")
  end.

Definition payload_text (p : option string) : string :=
  match p with Some s => s | None => "" end.

Definition save_image (w : World) (image : OcrImage) (output_dir : string) : M unit :=
  let output_path := path_join w output_dir (id image) in
  log DEBUG (MsgImagePath output_path) ;;;
  try_except
    (if negb (payload_truthy (image_base64 image)) then
       log WARNING (MsgImageEmpty (id image)) ;;;
       ret tt
     else
       image_data <- lift (datauri_parse w (payload_text (image_base64 image))) ;;
       log INFO (MsgImageWriting output_path) ;;;
       do_open_wb w output_path ;;;
       do_write_bytes w output_path image_data ;;;
       log DEBUG (MsgImageSaved (path_name w output_path)))
    (fun e =>
       match e with
       | DataURIError => log ERROR (MsgImageParseError (id image) e)
       | IOError => log ERROR (MsgImageWriteError output_path e)
       | _ => log ERROR (MsgImageUnexpected (id image) e)
       end).

(** ** create_markdown_file *)

(** [for image in page.images: save_image(image, output_dir)] *)
Fixpoint save_images (w : World) (imgs : list OcrImage) (output_dir : string) : M unit :=
  match imgs with
  | [] => ret tt
  | image :: rest => save_image w image output_dir ;;; save_images w rest output_dir
  end.

(** [hasattr(page, "images") and page.images]: a missing attribute, [None]
    and the empty list are false. *)
Definition images_truthy (o : option (list OcrImage)) : bool :=
  match o with
  | Some (_ :: _) => true
  | _ => false
  end.

Definition images_list (o : option (list OcrImage)) : list OcrImage :=
  match o with Some l => l | None => [] end.

(** The body of the loop over [enumerate(pages)] for the page at index [i];
    [n] is [len(pages)], and [f] is the text file open in the state.  The
    test [i < len(pages) - 1] is on Python integers. *)
Definition write_page (w : World) (output_dir : string)
    (n i : nat) (page : OcrPage) : M unit :=
  log DEBUG (MsgPageWriting (i + 1) n) ;;;
  do_write_text w (markdown page) ;;;
  (if (Z.of_nat i <? Z.of_nat n - 1)%Z
   then do_write_text w blank_line
   else ret tt) ;;;
  (if images_truthy (images page)
   then save_images w (images_list (images page)) output_dir
   else log DEBUG (MsgPageNoImages (i + 1))).

(** The loop, from index [i] on. *)
Fixpoint write_pages (w : World) (output_dir : string)
    (n i : nat) (ps : list OcrPage) : M unit :=
  match ps with
  | [] => ret tt
  | page :: rest =>
      write_page w output_dir n i page ;;;
      write_pages w output_dir n (S i) rest
  end.

(** [with open(p, "wt", encoding="utf-8") as f: body].  The file is closed
    when the block is left, also by an exception; an exception of the close
    replaces the one of the block. *)
Definition with_open_wt {A} (w : World) (p : string) (body : M A) : M A :=
  do_open_wt w p ;;;
  fun s =>
    match body s with
    | (Ret a, s') => (do_close_text w ;;; ret a) s'
    | (Raise e, s') =>
        match do_close_text w s' with
        | (Raise e', s'') => (Raise e', s'')
        | (_, s'') => (Raise e, s'')
        end
    | (Exit c, s') =>
        match do_close_text w s' with
        | (Raise e', s'') => (Raise e', s'')
        | (_, s'') => (Exit c, s'')
        end
    end.

Definition create_markdown_file (w : World) (ocr_response : OcrResponse)
    (output_file : string) : M unit :=
  log INFO (MsgMarkdownWriting output_file) ;;;
  let output_dir := path_parent w output_file in
  check (mkdir_parents w output_dir) ;;;
  try_except
    (with_open_wt w output_file
       (let pages := pages ocr_response in
        write_pages w output_dir (length pages) 0 pages) ;;;
     log INFO (MsgMarkdownDone output_file))
    (fun e =>
       match e with
       | IOError => log ERROR (MsgMarkdownIOError output_file e) ;;; sys_exit 1
       | _ => log ERROR (MsgMarkdownUnexpected e) ;;; sys_exit 1
       end).

(** ** main *)

(** [parse_args]: [a] is what [parser.parse_args()] makes of the command
    line. *)
Definition parse_args (a : Cmdline) : M Namespace :=
  match a with
  | Parsed ns =>
      log INFO (MsgArgsParsed (input_source ns) (output_file ns) (url ns)) ;;;
      ret ns
  | ArgError => emit (PrintErr ErrUsage) ;;; sys_exit 2
  | ArgHelp => emit PrintHelp ;;; sys_exit 0
  end.

(** [not p.exists() or not p.is_file()]: [is_file] is asked only of a path
    that exists. *)
Definition not_a_file (w : World) (p : string) : M bool :=
  there <- lift (path_exists w p) ;;
  if negb there then ret true
  else
    regular <- lift (path_is_file w p) ;;
    ret (negb regular).

(** [s.startswith(("http://", "https://"))] *)
Definition startswith_http (s : string) : bool :=
  String.prefix "http://" s || String.prefix "https://" s.

Definition main (w : World) (a : Cmdline) : M unit :=
  log INFO MsgStart ;;;
  args <- parse_args a ;;
  let input_source := input_source args in
  let output_file_path := mk_path w (output_file args) in
  let use_url := url args in
  (* the API key and the client *)
  try_except
    (api_key <- match environ w MISTRAL_API_KEY_ENV_VAR with
                | Some k => ret k
                | None => raise KeyError
                end ;;
     log INFO MsgKeyLoaded ;;;
     check (mistral_init w api_key) ;;;
     log INFO MsgClientReady)
    (fun e =>
       match e with
       | KeyError =>
           log ERROR (MsgEnvMissing MISTRAL_API_KEY_ENV_VAR) ;;;
           emit (PrintErr (ErrSetEnv MISTRAL_API_KEY_ENV_VAR)) ;;;
           sys_exit 1
       | _ => log ERROR (MsgClientError e) ;;; sys_exit 1
       end) ;;;
  (* the source of the document and document_url *)
  document_url <-
    (if use_url then
       let document_url := input_source in
       (if negb (startswith_http document_url)
        then log WARNING (MsgNotUrlLike document_url)
        else ret tt) ;;;
       log INFO (MsgUsingUrl document_url) ;;;
       ret document_url
     else
       let pdf_file_path := mk_path w input_source in
       log INFO (MsgUsingFile pdf_file_path) ;;;
       missing <- not_a_file w pdf_file_path ;;
       (if missing
        then log ERROR (MsgNotAFile pdf_file_path) ;;;
             emit (PrintErr (ErrNotAFile pdf_file_path)) ;;;
             sys_exit 1
        else ret tt) ;;;
       (* upload and signed URL *)
       try_except
         (log INFO (MsgUploading pdf_file_path) ;;;
          content <- lift (open_rb w pdf_file_path) ;;
          emit (CallUpload (path_name w pdf_file_path) content) ;;;
          uploaded_pdf_id <- lift (files_upload w (path_name w pdf_file_path) content) ;;
          log INFO (MsgUploaded pdf_file_path uploaded_pdf_id) ;;;
          log INFO (MsgGettingSignedUrl uploaded_pdf_id) ;;;
          emit (CallSignedUrl uploaded_pdf_id) ;;;
          document_url <- lift (files_get_signed_url w uploaded_pdf_id) ;;
          log INFO (MsgGotSignedUrl (String.substring 0 50 document_url)) ;;;
          ret document_url)
         (fun e =>
            match e with
            | IOError =>
                log ERROR (MsgReadError pdf_file_path e) ;;;
                emit (PrintErr (ErrReadFailed pdf_file_path)) ;;;
                sys_exit 1
            | _ => log ERROR (MsgFileUnexpected e) ;;; sys_exit 1
            end)) ;;
  (* if not document_url *)
  (if String.eqb document_url ""
   then log ERROR MsgNoDocumentUrl ;;; sys_exit 1
   else ret tt) ;;;
  (* the OCR call *)
  ocr_response <-
    try_except
      (log INFO (MsgOcrStart OCR_MODEL) ;;;
       emit (CallOcr OCR_MODEL document_url true) ;;;
       r <- lift (ocr_process w OCR_MODEL document_url true) ;;
       log INFO (MsgOcrDone (length (pages r))) ;;;
       ret r)
      (fun e => log ERROR (MsgOcrError e) ;;; sys_exit 1) ;;
  (* the results *)
  try_except
    (create_markdown_file w ocr_response output_file_path)
    (fun e => log ERROR (MsgSaveError e) ;;; sys_exit 1) ;;;
  log INFO MsgAllDone ;;;
  emit (PrintOut "Finished all!").

(** ** The process

    The exit status: 0 when [main] returns, the argument of [sys.exit], and 1
    for an exception nobody caught (the interpreter prints the traceback). *)
Definition exit_status {A} (o : outcome A) : Z :=
  match o with
  | Ret _ => 0
  | Raise _ => 1
  | Exit c => c
  end.

Definition run (w : World) (a : Cmdline) (fs : gmap string bytes) : Z * State :=
  let (o, s) := main w a (init_state fs) in (exit_status o, s).

(** The calls to the remote service among the events of a trace. *)
Definition is_network_call (e : event) : bool :=
  match e with
  | CallUpload _ _ | CallSignedUrl _ | CallOcr _ _ _ => true
  | _ => false
  end.

Definition network_calls (t : list event) : list event :=
  List.filter is_network_call t.

(** * Notions used in the statements *)

(** ** The text of the Markdown file *)

(** What the loop of [create_markdown_file] writes through [f] from index [i]
    on, read off [write_pages]. *)
Fixpoint written (n i : nat) (ps : list OcrPage) : string :=
  match ps with
  | [] => ""
  | page :: rest =>
      String.append (markdown page)
        (String.append
           (if (Z.of_nat i <? Z.of_nat n - 1)%Z then blank_line else "")
           (written n (S i) rest))
  end.

(** The text a page adds to the file. *)
Definition page_text (n i : nat) (page : OcrPage) : string :=
  String.append (markdown page)
    (if (Z.of_nat i <? Z.of_nat n - 1)%Z then blank_line else "").

(** The Markdown text in the words of the specification: the texts of the
    pages, in order, one blank-line separator between two consecutive ones. *)
Definition spec_markdown_text (ps : list OcrPage) : string :=
  String.concat blank_line (map markdown ps).

(** The file system lets the Markdown file be written: the directory can be
    made, the path opened, and the file it names written and closed. *)
Record markdown_io_ok (w : World) (out : string) : Prop := {
  mkdir_ok : mkdir_parents w (path_parent w out) = None;
  open_ok : open_wt w out = None;
  write_ok : forall t, write_text w (file_of w out) t = None;
  close_ok : close_wt w (file_of w out) = None
}.

(** ** Frames: what a computation leaves as it is

    [frame R m]: the state [m] ends in is related by [R] to the one it
    started from. *)
Definition frame {A} (R : relation State) (m : M A) : Prop :=
  forall s, R s (m s).2.

(** The open text file is as it was. *)
Definition same_handle (s s' : State) : Prop := md_handle s' = md_handle s.

(** The file [f] and the open text file are as they were. *)
Definition same_file (f : string) (s s' : State) : Prop :=
  files s' !! f = files s !! f /\ md_handle s' = md_handle s.

(** Events were added to the trace, no call to the remote service among
    them. *)
Definition quiet (s s' : State) : Prop :=
  exists l, trace s' = trace s ++ l /\ network_calls l = [].

(** [R] goes through the writing of the file of [image]. *)
Definition writes_framed (R : relation State) (w : World) (dir : string)
    (image : OcrImage) : Prop :=
  frame R (do_open_wb w (path_join w dir (id image)))
  /\ forall d, frame R (do_write_bytes w (path_join w dir (id image)) d).

(** ** Two runs that agree on the Markdown file

    [same_view f s1 s2]: the two states have the same file [f] and the same
    open text file, which is on [f] if there is one. *)
Definition same_view (f : string) (s1 s2 : State) : Prop :=
  files s1 !! f = files s2 !! f
  /\ md_handle s1 = md_handle s2
  /\ (forall h, md_handle s1 = Some h -> f_file h = f).

(** [agree f r1 r2]: two computations ended the same way (returned the same
    value, raised the same exception or left with the same status) in states
    with the same view of [f]. *)
Definition agree {A} (f : string) (r1 r2 : outcome A * State) : Prop :=
  r1.1 = r2.1 /\ same_view f r1.2 r2.2.

(** A computation that returns and leaves the file [f] and the open text
    file alone. *)
Definition silent (f : string) (m : M unit) : Prop :=
  forall s, exists s1, m s = (Ret tt, s1) /\ same_file f s s1.

(** No image id of the list, joined to the directory [dir], names the file
    [f]: the comparison is on the files the paths name, so that an id like
    [../out/report.md] clashes with [out/report.md]. *)
Definition no_clash_images (w : World) (dir f : string) (imgs : list OcrImage)
    : Prop :=
  forall image, In image imgs -> file_of w (path_join w dir (id image)) <> f.

(** No image of the response is saved to the file of the Markdown
    document. *)
Definition no_clash (w : World) (r : OcrResponse) (out : string) : Prop :=
  forall page, In page (pages r) ->
    no_clash_images w (path_parent w out) (file_of w out)
      (images_list (images page)).

(** The text [t] has been written to the open text file on [f], and nobody
    else has touched the file: the file holds the bytes of [t] that left the
    buffers, the offset of the handle is at its end, and the rest of [t]
    waits in the buffers. *)
Definition stream_inv (f : string) (s : State) (t : string) : Prop :=
  exists (h : TextFile) (flushed : bytes),
    md_handle s = Some h
    /\ f_file h = f
    /\ files s !! f = Some flushed
    /\ f_pos h = length flushed
    /\ flushed ++ f_pending h = encode_utf8 t.

(** A text file is open on [f]. *)
Definition open_on (f : string) (s : State) : Prop :=
  exists h, md_handle s = Some h /\ f_file h = f.

(** The worlds agree on the file the path of the Markdown document names and
    on what the file system answers for it. *)
Record same_text_io (w1 w2 : World) (out : string) : Prop := {
  io_file : file_of w1 out = file_of w2 out;
  io_mkdir :
    mkdir_parents w1 (path_parent w1 out) = mkdir_parents w2 (path_parent w2 out);
  io_open : open_wt w1 out = open_wt w2 out;
  io_write : forall t,
    write_text w1 (file_of w1 out) t = write_text w2 (file_of w1 out) t;
  io_close : close_wt w1 (file_of w1 out) = close_wt w2 (file_of w1 out);
  io_flush : forall b,
    text_flush w1 (file_of w1 out) b = text_flush w2 (file_of w1 out) b;
  io_kept : forall b t,
    text_kept w1 (file_of w1 out) b t = text_kept w2 (file_of w1 out) b t;
  io_close_flush : forall b,
    close_flush w1 (file_of w1 out) b = close_flush w2 (file_of w1 out) b
}.

(** ** The stages of main *)

(** The last part of [main]: the results are saved and the run ends. *)
Definition main_save (w : World) (ocr_response : OcrResponse)
    (output_file_path : string) : M unit :=
  try_except
    (create_markdown_file w ocr_response output_file_path)
    (fun e => log ERROR (MsgSaveError e) ;;; sys_exit 1) ;;;
  log INFO MsgAllDone ;;;
  emit (PrintOut "Finished all!").

(** The part of [main] that follows once [document_url] is known: the test
    [if not document_url], the OCR call, the results. *)
Definition main_from_locator (w : World) (output_file_path document_url : string)
    : M unit :=
  (if String.eqb document_url ""
   then log ERROR MsgNoDocumentUrl ;;; sys_exit 1
   else ret tt) ;;;
  ocr_response <-
    try_except
      (log INFO (MsgOcrStart OCR_MODEL) ;;;
       emit (CallOcr OCR_MODEL document_url true) ;;;
       r <- lift (ocr_process w OCR_MODEL document_url true) ;;
       log INFO (MsgOcrDone (length (pages r))) ;;;
       ret r)
      (fun e => log ERROR (MsgOcrError e) ;;; sys_exit 1) ;;
  main_save w ocr_response output_file_path.

(** The events of a run up to the point where [document_url] is known:
    with [--url] ... *)
Definition url_events (ns : Namespace) : list event :=
  [Log INFO MsgStart;
   Log INFO (MsgArgsParsed (input_source ns) (output_file ns) (url ns));
   Log INFO MsgKeyLoaded;
   Log INFO MsgClientReady]
  ++ (if startswith_http (input_source ns) then []
      else [Log WARNING (MsgNotUrlLike (input_source ns))])
  ++ [Log INFO (MsgUsingUrl (input_source ns))].

(** ... and with a file that is read as [content], uploaded as [file_id] and
    signed as [signed_url]. *)
Definition file_events (w : World) (ns : Namespace)
    (content : bytes) (file_id signed_url : string) : list event :=
  let p := mk_path w (input_source ns) in
  [Log INFO MsgStart;
   Log INFO (MsgArgsParsed (input_source ns) (output_file ns) (url ns));
   Log INFO MsgKeyLoaded;
   Log INFO MsgClientReady;
   Log INFO (MsgUsingFile p);
   Log INFO (MsgUploading p);
   CallUpload (path_name w p) content;
   Log INFO (MsgUploaded p file_id);
   Log INFO (MsgGettingSignedUrl file_id);
   CallSignedUrl file_id;
   Log INFO (MsgGotSignedUrl (String.substring 0 50 signed_url))].

(** The calls to the remote service from the test of [document_url] on. *)
Definition calls_from_locator (document_url : string) : list event :=
  if String.eqb document_url "" then []
  else [CallOcr OCR_MODEL document_url true].

(** The document is resolved to the locator [d]: the URL itself with
    [--url]; otherwise the file is there, can be read and uploaded, and [d]
    is the signed URL of the upload. *)
Definition resolves (w : World) (ns : Namespace) (d : string) : Prop :=
  if url ns then d = input_source ns
  else
    let p := mk_path w (input_source ns) in
    path_exists w p = inr true /\ path_is_file w p = inr true /\
    exists c fid,
      open_rb w p = inr c
      /\ files_upload w (path_name w p) c = inr fid
      /\ files_get_signed_url w fid = inr d.

(** The run reaches the OCR call with locator [d] and gets [r] back. *)
Record reaches_ocr (w : World) (ns : Namespace) (d : string) (r : OcrResponse)
  : Prop := {
  ro_key : exists k, environ w MISTRAL_API_KEY_ENV_VAR = Some k
                     /\ mistral_init w k = None;
  ro_resolves : resolves w ns d;
  ro_nonempty : d <> "";
  ro_ocr : ocr_process w OCR_MODEL d true = inr r
}.

(** The image [image] is on a page of the response. *)
Definition has_image (r : OcrResponse) (image : OcrImage) : Prop :=
  exists page, In page (pages r) /\ In image (images_list (images page)).

(** The error a payload that is no data URI leaves in the log. *)
Definition parse_error_logged (image : OcrImage) (t : list event) : Prop :=
  In (Log ERROR (MsgImageParseError (id image) DataURIError)) t.

(** ** Sample worlds

    The scenario of the specification: [report.pdf] has three pages, the
    second with the image [img-1] of ten bytes; the service also sends an
    image without payload and one whose payload is no data URI. *)

(** A stand-in for [datauri.parse]: the bytes after ["data:,"]. *)
Definition sample_parse (s : string) : exn + bytes :=
  if String.prefix "data:," s
  then inr (list_byte_of_string (String.substring 6 (String.length s - 6) s))
  else inl DataURIError.

Definition sample_image : OcrImage := mkImage "img-1" (Some "data:,0123456789").
Definition sample_empty_image : OcrImage := mkImage "img-2" (Some "").
Definition sample_bad_image : OcrImage := mkImage "img-3" (Some "not a data URI").

Definition sample_response : OcrResponse :=
  mkResponse
    [ mkPage "# Report" None;
      mkPage "Figure 1" (Some [sample_image; sample_empty_image; sample_bad_image]);
      mkPage "The end" (Some []) ].

Definition sample_environ (v : string) : option string :=
  if String.eqb v "MISTRAL_API_KEY" then Some "secret" else None.

(** Two ways the buffers of a text file can behave: nothing leaves them
    before the file is closed (Python, for a text shorter than its buffers),
    or every write goes through at once. *)
Definition at_close (pending : bytes) : nat := 0.
Definition write_through (pending : bytes) : nat := length pending.

(** A stand-in for the resolution of paths: [out/..] at the head of a path
    is the directory the script runs in. *)
Definition sample_file_of (p : string) : string :=
  if String.prefix "out/../" p
  then String.substring 7 (String.length p - 7) p
  else p.

Definition make_world (env : string -> option string)
    (image_io : string -> option exn) (parse : string -> exn + bytes)
    (flush : bytes -> nat)
    (signed_url : string) (response : OcrResponse) : World :=
  {| environ := env;
     mistral_init := fun _ => None;
     mk_path := fun s => s;
     path_parent := fun _ => "out";
     path_name := fun p => p;
     path_join := fun p s => String.append p (String.append "/" s);
     path_exists := fun p => inr (String.eqb p "report.pdf");
     path_is_file := fun p => inr (String.eqb p "report.pdf");
     file_of := sample_file_of;
     open_rb := fun _ => inr (list_byte_of_string "%PDF-1.7");
     mkdir_parents := fun _ => None;
     open_wt := fun _ => None;
     write_text := fun _ _ => None;
     close_wt := fun _ => None;
     text_flush := fun _ => flush;
     text_kept := fun _ pending _ => length pending;
     close_flush := fun _ _ => 0%nat;
     open_wb := image_io;
     write_bytes := fun p _ => image_io p;
     write_bytes_done := fun _ _ => 0%nat;
     files_upload := fun _ _ => inr "file-1";
     files_get_signed_url := fun _ => inr signed_url;
     ocr_process := fun _ _ _ => inr response;
     datauri_parse := parse |}.

Definition sample_world : World :=
  make_world sample_environ (fun _ => None) sample_parse at_close
    "https://files.example/file-1?sig=abc" sample_response.

(** The same service on a machine where no image can be written and no
    payload is understood. *)
Definition sample_response_other_images : OcrResponse :=
  mkResponse
    [ mkPage "# Report" (Some [sample_bad_image]);
      mkPage "Figure 1" None;
      mkPage "The end" (Some [sample_image]) ].

Definition hostile_world : World :=
  make_world sample_environ (fun _ => Some IOError) (fun _ => inl DataURIError)
    at_close "https://files.example/file-1?sig=abc" sample_response_other_images.

(** No API key in the environment. *)
Definition keyless_world : World :=
  make_world (fun _ => None) (fun _ => None) sample_parse at_close
    "https://files.example/file-1?sig=abc" sample_response.

(** The service answers with no page. *)
Definition empty_world : World :=
  make_world sample_environ (fun _ => None) sample_parse at_close
    "https://files.example/file-1?sig=abc" (mkResponse []).

(** The service names an image like the Markdown file the user asked for:
    one page with the text [ab] and the image [report.md] of ten bytes, to be
    written to [out/report.md]. *)
Definition clash_payload : string := "data:,0123456789".
Definition clash_payload_other : string := "data:,ABCDEFGHIJ".

Definition clash_image (payload : string) : OcrImage :=
  mkImage "report.md" (Some payload).

Definition clash_response (payload : string) : OcrResponse :=
  mkResponse [ mkPage "ab" (Some [clash_image payload]) ].

Definition clash_world (flush : bytes -> nat) (payload : string) : World :=
  make_world sample_environ (fun _ => None) sample_parse flush
    "https://files.example/file-1?sig=abc" (clash_response payload).

(** ... or by a detour to it, [../out/report.md]: joined to [out] this is
    another path and the same file. *)
Definition detour_image (payload : string) : OcrImage :=
  mkImage "../out/report.md" (Some payload).

Definition detour_response (payload : string) : OcrResponse :=
  mkResponse [ mkPage "ab" (Some [detour_image payload]) ].

Definition detour_world (flush : bytes -> nat) (payload : string) : World :=
  make_world sample_environ (fun _ => None) sample_parse flush
    "https://files.example/file-1?sig=abc" (detour_response payload).

Definition sample_file_args : Namespace := mkArgs "report.pdf" "out/report.md" false.
Definition sample_url_args : Namespace :=
  mkArgs "https://example.com/doc.pdf" "out/x.md" true.
Definition sample_odd_url_args : Namespace := mkArgs "ftp://example.com/doc.pdf" "out/x.md" true.
Definition sample_missing_args : Namespace := mkArgs "missing.pdf" "out/report.md" false.

(** * Tactics *)

(** Unfolds the combinators of the monad on a state, up to the calls of the
    world. *)
Ltac py_eval :=
  cbv beta iota zeta delta
    [bind try_except ret raise emit log check lift sys_exit parse_args
     not_a_file LOG_LEVEL level_rank Nat.leb init_state];
  cbn [trace files md_handle negb orb].

(** * Notions used for the rest of the code *)

(** Events were added to the trace, all of them with the property [P]. *)
Definition adds (P : event -> Prop) (s s' : State) : Prop :=
  exists l, trace s' = trace s ++ l /\ Forall P l.

(** A line of the log. *)
Definition is_log (e : event) : Prop :=
  match e with Log _ _ => True | _ => False end.

(** Any event but a [print] of the script on standard output.  (The lines of
    the log go to standard output too; they are the [Log] events.) *)
Definition not_a_print (e : event) : Prop :=
  match e with PrintOut _ => False | _ => True end.

(** A file [f], once there, is still there. *)
Definition keeps_file (f : string) (s s' : State) : Prop :=
  is_Some (files s !! f) -> is_Some (files s' !! f).

(** The only exit status a computation leaves with is 1. *)
Definition exit_one {A} (o : outcome A) : Prop :=
  match o with Exit c => c = 1%Z | _ => True end.

Definition exits_one {A} (m : M A) : Prop :=
  forall s, exit_one (m s).1.

(** The calls to the remote service a run can have made, in the order it
    made them: none; with [--url] the OCR call on the source of the command
    line; without it the upload of the bytes read, then the signed URL of the
    identifier the upload returned, then the OCR call on the signed URL.  The
    OCR call is on [OCR_MODEL] and asks for the images. *)
Inductive call_shape (w : World) (ns : Namespace) : list event -> Prop :=
  | shape_none : call_shape w ns []
  | shape_url_ocr :
      url ns = true ->
      input_source ns <> "" ->
      call_shape w ns [CallOcr OCR_MODEL (input_source ns) true]
  | shape_upload c :
      url ns = false ->
      open_rb w (mk_path w (input_source ns)) = inr c ->
      call_shape w ns
        [CallUpload (path_name w (mk_path w (input_source ns))) c]
  | shape_signed c fid :
      url ns = false ->
      open_rb w (mk_path w (input_source ns)) = inr c ->
      files_upload w (path_name w (mk_path w (input_source ns))) c = inr fid ->
      call_shape w ns
        [CallUpload (path_name w (mk_path w (input_source ns))) c;
         CallSignedUrl fid]
  | shape_file_ocr c fid d :
      url ns = false ->
      open_rb w (mk_path w (input_source ns)) = inr c ->
      files_upload w (path_name w (mk_path w (input_source ns))) c = inr fid ->
      files_get_signed_url w fid = inr d ->
      d <> "" ->
      call_shape w ns
        [CallUpload (path_name w (mk_path w (input_source ns))) c;
         CallSignedUrl fid;
         CallOcr OCR_MODEL d true].

(** The run has [document_url = d] when it gets to [if not document_url],
    and [calls] are the calls to the remote service it has made by then. *)
Definition located (w : World) (ns : Namespace) (d : string)
    (calls : list event) : Prop :=
  (url ns = true /\ d = input_source ns /\ calls = [])
  \/ (url ns = false
      /\ exists c fid,
           open_rb w (mk_path w (input_source ns)) = inr c
           /\ files_upload w (path_name w (mk_path w (input_source ns))) c = inr fid
           /\ files_get_signed_url w fid = inr d
           /\ calls = [CallUpload (path_name w (mk_path w (input_source ns))) c;
                       CallSignedUrl fid]).

(** [exists()] or [is_file()] raises [e] when [main] asks whether the input
    path is a file: there is no [--url], and [exists()] raises [e], or it
    answers yes and [is_file()] raises [e]. *)
Definition input_check_raises (w : World) (ns : Namespace) (e : exn) : Prop :=
  url ns = false
  /\ (path_exists w (mk_path w (input_source ns)) = inl e
      \/ (path_exists w (mk_path w (input_source ns)) = inr true
          /\ path_is_file w (mk_path w (input_source ns)) = inl e)).

(** The message [save_image] logs for an exception [e] of its [try] block:
    the handlers are tried in the order of the source. *)
Definition image_error_msg (w : World) (image : OcrImage) (dir : string)
    (e : exn) : log_msg :=
  match e with
  | DataURIError => MsgImageParseError (id image) e
  | IOError => MsgImageWriteError (path_join w dir (id image)) e
  | _ => MsgImageUnexpected (id image) e
  end.

(** The message [create_markdown_file] logs for an exception [e] of its
    [try] block. *)
Definition markdown_error_msg (out : string) (e : exn) : log_msg :=
  match e with
  | IOError => MsgMarkdownIOError out e
  | _ => MsgMarkdownUnexpected e
  end.

(** The image is written: its payload [P] is a data URI for the bytes [B] and
    the file system lets its file be opened and written. *)
Definition image_written (w : World) (dir : string) (image : OcrImage)
    (B : list byte) : Prop :=
  exists P,
    image_base64 image = Some P
    /\ P <> ""
    /\ datauri_parse w P = inr B
    /\ open_wb w (path_join w dir (id image)) = None
    /\ write_bytes w (path_join w dir (id image)) B = None.

(** [b1] is an initial segment of [b2]. *)
Definition byte_prefix (b1 b2 : list byte) : Prop :=
  exists rest, b2 = b1 ++ rest.

(** What has reached the file [f] and what waits in the buffers of the text
    file open on it, one after the other, are a beginning of [B]; the offset
    of the handle is at the end of the file. *)
Definition stream_part (f : string) (s : State) (B : list byte) : Prop :=
  exists (h : TextFile) (flushed : list byte),
    md_handle s = Some h
    /\ f_file h = f
    /\ files s !! f = Some flushed
    /\ f_pos h = length flushed
    /\ byte_prefix (flushed ++ f_pending h) B.

(** ** More sample worlds *)

(** The sample world with the answers of the client, of the file system for
    the input and the Markdown file, and of the service replaced. *)
Definition world_where (init : option exn) (read : exn + list byte)
    (upload sign : exn + string) (ocr : exn + OcrResponse)
    (mkdir open_text : option exn) (write : string -> option exn)
    (close : option exn) (image_io : string -> option exn) : World :=
  {| environ := sample_environ;
     mistral_init := fun _ => init;
     mk_path := fun s => s;
     path_parent := fun _ => "out";
     path_name := fun p => p;
     path_join := fun p s => String.append p (String.append "/" s);
     path_exists := fun p => inr (String.eqb p "report.pdf");
     path_is_file := fun p => inr (String.eqb p "report.pdf");
     file_of := sample_file_of;
     open_rb := fun _ => read;
     mkdir_parents := fun _ => mkdir;
     open_wt := fun _ => open_text;
     write_text := fun _ t => write t;
     close_wt := fun _ => close;
     text_flush := fun _ => at_close;
     text_kept := fun _ pending _ => length pending;
     close_flush := fun _ _ => 0%nat;
     open_wb := image_io;
     write_bytes := fun p _ => image_io p;
     write_bytes_done := fun _ _ => 0%nat;
     files_upload := fun _ _ => upload;
     files_get_signed_url := fun _ => sign;
     ocr_process := fun _ _ _ => ocr;
     datauri_parse := sample_parse |}.

Definition sample_pdf : list byte := list_byte_of_string "%PDF-1.7".
Definition sample_signed_url : string := "https://files.example/file-1?sig=abc".

(** Two images with the same id and different payloads. *)
Definition sample_image_again : OcrImage := mkImage "img-1" (Some "data:,ABC").

(** ** Failures of a run *)

(** The events of a run without [--url] up to the [try] block of the upload. *)
Definition file_start_events (w : World) (ns : Namespace) : list event :=
  [Log INFO MsgStart;
   Log INFO (MsgArgsParsed (input_source ns) (output_file ns) (url ns));
   Log INFO MsgKeyLoaded;
   Log INFO MsgClientReady;
   Log INFO (MsgUsingFile (mk_path w (input_source ns)));
   Log INFO (MsgUploading (mk_path w (input_source ns)))].

(** What the handlers of the upload block do with an exception [e]: an
    [IOError] is reported as a failure to read the file [p], on the log and
    on the standard error; anything else on the log only. *)
Definition upload_error_events (p : string) (e : exn) : list event :=
  match e with
  | IOError => [Log ERROR (MsgReadError p e); PrintErr (ErrReadFailed p)]
  | _ => [Log ERROR (MsgFileUnexpected e)]
  end.

(** What the handlers of the client block do with an exception [e] of the
    constructor of the client. *)
Definition client_error_events (e : exn) : list event :=
  match e with
  | KeyError =>
      [Log ERROR (MsgEnvMissing MISTRAL_API_KEY_ENV_VAR);
       PrintErr (ErrSetEnv MISTRAL_API_KEY_ENV_VAR)]
  | _ => [Log ERROR (MsgClientError e)]
  end.

(** The events [t] of a run up to the test of [document_url], for a document
    that resolves to [d]: those of [url_events] with [--url]; otherwise those
    of [file_events] for the bytes read, the identifier of the upload and
    [d]. *)
Definition locator_events (w : World) (ns : Namespace) (d : string)
    (t : list event) : Prop :=
  if url ns then t = url_events ns
  else
    exists c fid,
      open_rb w (mk_path w (input_source ns)) = inr c
      /\ files_upload w (path_name w (mk_path w (input_source ns))) c = inr fid
      /\ files_get_signed_url w fid = inr d
      /\ t = file_events w ns c fid d.

(** No OCR call among the events. *)
Definition no_ocr_call (t : list event) : Prop :=
  forall m d b, ~ In (CallOcr m d b) t.

(** The file system refuses the Markdown file with [e]: when its path is
    opened, when something is written to the file, or when it is closed. *)
Definition text_io_failure (w : World) (out : string) (e : exn) : Prop :=
  open_wt w out = Some e
  \/ (exists x, write_text w (file_of w out) x = Some e)
  \/ close_wt w (file_of w out) = Some e.

(** A disk that is full once the first page is written: the separator is
    refused. *)
Definition full_disk_world : World :=
  world_where None (inr sample_pdf) (inr "file-1") (inr sample_signed_url)
    (inr sample_response) None None
    (fun t => if String.eqb t blank_line then Some IOError else None)
    None (fun _ => None).

(** The output directory cannot be made. *)
Definition no_dir_world : World :=
  world_where None (inr sample_pdf) (inr "file-1") (inr sample_signed_url)
    (inr sample_response) (Some IOError) None (fun _ => None) None
    (fun _ => None).

(** The Markdown file cannot be opened. *)
Definition read_only_world : World :=
  world_where None (inr sample_pdf) (inr "file-1") (inr sample_signed_url)
    (inr sample_response) None (Some IOError) (fun _ => None) None
    (fun _ => None).

(** The sample world on a machine where the input path cannot be examined:
    [exists()] raises the [OSError] of its [stat] call ([IOError] is the same
    class in Python 3). *)
Definition unsearchable_world : World :=
  {| environ := environ sample_world;
     mistral_init := mistral_init sample_world;
     mk_path := mk_path sample_world;
     path_parent := path_parent sample_world;
     path_name := path_name sample_world;
     path_join := path_join sample_world;
     path_exists := fun _ => inl IOError;
     path_is_file := path_is_file sample_world;
     file_of := file_of sample_world;
     open_rb := open_rb sample_world;
     mkdir_parents := mkdir_parents sample_world;
     open_wt := open_wt sample_world;
     write_text := write_text sample_world;
     close_wt := close_wt sample_world;
     text_flush := text_flush sample_world;
     text_kept := text_kept sample_world;
     close_flush := close_flush sample_world;
     open_wb := open_wb sample_world;
     write_bytes := write_bytes sample_world;
     write_bytes_done := write_bytes_done sample_world;
     files_upload := files_upload sample_world;
     files_get_signed_url := files_get_signed_url sample_world;
     ocr_process := ocr_process sample_world;
     datauri_parse := datauri_parse sample_world |}.

(** A file the run has no business with. *)
Definition sample_notes : gmap string (list byte) :=
  {[ "out/notes.txt" := list_byte_of_string "keep me" ]}.

(** * Reasoning about computations *)

(** ** Frames through the combinators *)

Section Frame.
Context (R : relation State) `{!PreOrder R}.

Lemma frame_ret {A} (a : A) : frame R (ret a).
Proof. intros s. cbn. reflexivity. Qed.

Lemma frame_raise {A} (e : exn) : frame R (raise (A := A) e).
Proof. intros s. cbn. reflexivity. Qed.

Lemma frame_sys_exit {A} (c : Z) : frame R (sys_exit (A := A) c).
Proof. intros s. cbn. reflexivity. Qed.

Lemma frame_check (r : option exn) : frame R (check r).
Proof. destruct r; [apply frame_raise | apply frame_ret]. Qed.

Lemma frame_lift {A} (r : exn + A) : frame R (lift r).
Proof. destruct r; [apply frame_raise | apply frame_ret]. Qed.

Lemma frame_bind {A B} (m : M A) (k : A -> M B) :
  frame R m -> (forall a, frame R (k a)) -> frame R (bind m k).
Proof.
  intros Hm Hk s. unfold bind. specialize (Hm s).
  destruct (m s) as [[a | e | c] s1]; cbn in *; auto.
  etransitivity; [exact Hm | apply Hk].
Qed.

Lemma frame_try_except {A} (m : M A) (h : exn -> M A) :
  frame R m -> (forall e, frame R (h e)) -> frame R (try_except m h).
Proof.
  intros Hm Hh s. unfold try_except. specialize (Hm s).
  destruct (m s) as [[a | e | c] s1]; cbn in *; auto.
  etransitivity; [exact Hm | apply Hh].
Qed.

Lemma frame_if {A} (b : bool) (m1 m2 : M A) :
  frame R m1 -> frame R m2 -> frame R (if b then m1 else m2).
Proof. destruct b; auto. Qed.

(** A logging call is framed as soon as emitting its event is. *)
Lemma frame_log (l : level) (m : log_msg) :
  frame R (emit (Log l m)) -> frame R (log l m).
Proof. intros H. unfold log. apply frame_if; [exact H | apply frame_ret]. Qed.
End Frame.

#[local] Instance same_handle_preorder : PreOrder same_handle.
Proof. split; unfold same_handle; [intros s | intros s1 s2 s3 H1 H2]; congruence. Qed.

#[local] Instance same_file_preorder f : PreOrder (same_file f).
Proof.
  split; unfold same_file.
  - intros s. split; reflexivity.
  - intros s1 s2 s3 [F1 H1] [F2 H2]. split; congruence.
Qed.

Lemma network_calls_app (t1 t2 : list event) :
  network_calls (t1 ++ t2) = network_calls t1 ++ network_calls t2.
Proof. unfold network_calls. apply List.filter_app. Qed.

#[local] Instance quiet_preorder : PreOrder quiet.
Proof.
  split.
  - intros s. exists []. split; [now rewrite app_nil_r | reflexivity].
  - intros s1 s2 s3 (l1 & H1 & N1) (l2 & H2 & N2). exists (l1 ++ l2). split.
    + rewrite H2, H1. now rewrite <- app_assoc.
    + rewrite network_calls_app, N1, N2. reflexivity.
Qed.

Lemma emit_same_handle e : frame same_handle (emit e).
Proof. intros s. reflexivity. Qed.

Lemma emit_same_file f e : frame (same_file f) (emit e).
Proof. intros s. split; reflexivity. Qed.

Lemma emit_quiet e : is_network_call e = false -> frame quiet (emit e).
Proof.
  intros H s. exists [e]. split; [reflexivity |].
  unfold network_calls. cbn. now rewrite H.
Qed.

Lemma log_same_handle l m : frame same_handle (log l m).
Proof. apply frame_log; [apply _ | apply emit_same_handle]. Qed.

Lemma log_same_file f l m : frame (same_file f) (log l m).
Proof. apply frame_log; [apply _ | apply emit_same_file]. Qed.

Lemma log_quiet l m : frame quiet (log l m).
Proof. apply frame_log; [apply _ | now apply emit_quiet]. Qed.

(** Closes a goal [R s s'] where [s'] has the trace of [s]. *)
Ltac unchanged :=
  unfold same_handle, quiet; cbn;
  first [ reflexivity
        | exists []; split; [now rewrite app_nil_r | reflexivity] ].

(** Writing a file in binary mode touches neither the trace nor the open text
    file, and no file but its own. *)
Lemma do_open_wb_frames w p :
  frame same_handle (do_open_wb w p) /\ frame quiet (do_open_wb w p).
Proof.
  unfold do_open_wb, frame, bind, check.
  split; intros s; destruct (open_wb w p); unchanged.
Qed.

Lemma do_write_bytes_frames w p d :
  frame same_handle (do_write_bytes w p d) /\ frame quiet (do_write_bytes w p d).
Proof.
  unfold do_write_bytes, frame.
  split; intros s; destruct (write_bytes w p d); unchanged.
Qed.

Lemma do_open_wb_same_file w p f :
  file_of w p <> f -> frame (same_file f) (do_open_wb w p).
Proof.
  intros Hp s. unfold do_open_wb, bind, check.
  destruct (open_wb w p); split; cbn; try reflexivity.
  now apply lookup_insert_ne.
Qed.

Lemma do_write_bytes_same_file w p d f :
  file_of w p <> f -> frame (same_file f) (do_write_bytes w p d).
Proof.
  intros Hp s. unfold do_write_bytes.
  destruct (write_bytes w p d); split; cbn; try reflexivity;
    now apply lookup_insert_ne.
Qed.

(** Writing text leaves the trace as it is. *)
Lemma do_open_wt_quiet w p : frame quiet (do_open_wt w p).
Proof.
  unfold do_open_wt, frame, bind, check.
  intros s; destruct (open_wt w p); unchanged.
Qed.

Lemma do_write_text_quiet w t : frame quiet (do_write_text w t).
Proof.
  unfold do_write_text, frame.
  intros s. destruct (md_handle s) as [h |]; [| unchanged].
  cbv zeta. destruct (flush_bytes _ _ _). unchanged.
Qed.

Lemma do_close_text_quiet w : frame quiet (do_close_text w).
Proof.
  unfold do_close_text, frame.
  intros s. destruct (md_handle s) as [h |]; [| unchanged].
  destruct (close_wt w (f_file h)); unchanged.
Qed.

(** A computation that returns hands its state to what follows. *)
Lemma bind_returns {A B} (m : M A) (k : A -> M B) s a s1 :
  m s = (Ret a, s1) -> bind m k s = k a s1.
Proof. intros H. unfold bind. now rewrite H. Qed.

(** ** save_image never fails

    Every exception raised inside [save_image] is caught by one of its three
    handlers, and no handler raises or exits. *)
Lemma save_image_returns w image dir s :
  (save_image w image dir s).1 = Ret tt.
Proof.
  unfold save_image, try_except, bind, lift, do_open_wb, do_write_bytes, check, bind.
  cbn.
  destruct (payload_truthy (image_base64 image)); cbn; [|reflexivity].
  destruct (datauri_parse w _) as [e | data]; cbn.
  { destruct e; reflexivity. }
  destruct (open_wb w _) as [e |]; cbn.
  { destruct e; reflexivity. }
  destruct (write_bytes w _ _) as [e |]; cbn.
  { destruct e; reflexivity. }
  reflexivity.
Qed.

Section SaveImageFrames.
Context (R : relation State) `{!PreOrder R}.
Context (w : World).
Hypothesis R_log : forall l m, frame R (log l m).

Lemma save_image_frame image dir :
writes_framed R w dir image -> frame R (save_image w image dir).
Proof.
intros [Hop Hwr]. unfold save_image.
apply frame_bind; [apply _ | apply R_log |]. intros _.
apply frame_try_except; [apply _ | |].
- apply frame_if; [|].
  + apply frame_bind; [apply _ | apply R_log |]. intros _. now apply frame_ret.
  + apply frame_bind; [apply _ | now apply frame_lift |]. intros data.
    repeat (apply frame_bind; [apply _ | auto | intros _]).
    apply R_log.
- intros e. destruct e; apply R_log.
Qed.

Lemma save_images_frame imgs dir :
(forall image, In image imgs -> writes_framed R w dir image) ->
frame R (save_images w imgs dir).
Proof.
induction imgs as [| image rest IH]; intros H; cbn.
- now apply frame_ret.
- apply frame_bind; [apply _ | | intros _].
  + apply save_image_frame, H. now left.
  + apply IH. intros i Hi. apply H. now right.
Qed.
End SaveImageFrames.

Lemma save_images_returns w imgs dir s :
  (save_images w imgs dir s).1 = Ret tt.
Proof.
  revert s. induction imgs as [| image rest IH]; intros s; cbn; [reflexivity|].
  unfold bind. pose proof (save_image_returns w image dir s) as H.
  destruct (save_image w image dir s) as [o s1]. cbn in H. subst o. apply IH.
Qed.

Lemma save_images_same_handle w imgs dir :
  frame same_handle (save_images w imgs dir).
Proof.
  apply save_images_frame; [apply _ | apply log_same_handle |].
  split; intros; [apply do_open_wb_frames | apply do_write_bytes_frames].
Qed.

Lemma save_images_quiet w imgs dir : frame quiet (save_images w imgs dir).
Proof.
  apply save_images_frame; [apply _ | apply log_quiet |].
  split; intros; [apply do_open_wb_frames | apply do_write_bytes_frames].
Qed.

(** Images saved to other files leave the file [f] alone. *)
Lemma save_images_same_file w imgs dir f :
  no_clash_images w dir f imgs ->
  frame (same_file f) (save_images w imgs dir).
Proof.
  intros Hn. apply save_images_frame; [apply _ | apply log_same_file |].
  intros image Hi. specialize (Hn image Hi). split; intros.
  - now apply do_open_wb_same_file.
  - now apply do_write_bytes_same_file.
Qed.

(** The images of a page are saved: the step returns, the open text file is
    as it was, and no call to the remote service was made. *)
Lemma save_images_run w imgs dir s :
  exists s1,
    save_images w imgs dir s = (Ret tt, s1)
    /\ md_handle s1 = md_handle s /\ quiet s s1.
Proof.
  pose proof (save_images_returns w imgs dir s) as Hr.
  pose proof (save_images_same_handle w imgs dir s) as Hm.
  pose proof (save_images_quiet w imgs dir s) as Hq.
  destruct (save_images w imgs dir s) as [o s1]. cbn in *. subst o.
  exists s1. repeat split; [exact Hm | exact Hq].
Qed.

(** ** Strings and bytes *)

Lemma append_nil_r (s : string) : String.append s "" = s.
Proof.
  induction s as [| c s' IH]; [reflexivity |].
  change (String c (String.append s' "") = String c s'). now rewrite IH.
Qed.

Lemma append_assoc (s1 s2 s3 : string) :
  String.append (String.append s1 s2) s3 = String.append s1 (String.append s2 s3).
Proof.
  induction s1 as [| c s1' IH]; [reflexivity |].
  change (String c (String.append (String.append s1' s2) s3)
          = String c (String.append s1' (String.append s2 s3))).
  now rewrite IH.
Qed.

Lemma length_append (s1 s2 : string) :
  String.length (String.append s1 s2) = (String.length s1 + String.length s2)%nat.
Proof.
  induction s1 as [| c s1' IH]; [reflexivity |].
  change (S (String.length (String.append s1' s2))
          = S (String.length s1' + String.length s2)).
  now rewrite IH.
Qed.

(** A list of strings joined by [sep] holds [sep] once less than it has
    strings. *)
Lemma length_concat (sep : string) (ls : list string) :
  String.length (String.concat sep ls)
  = (list_sum (map String.length ls) + (length ls - 1) * String.length sep)%nat.
Proof.
  induction ls as [| x ls IH]; [reflexivity |].
  destruct ls as [| y ls].
  - cbn. lia.
  - change (String.concat sep (x :: y :: ls))
      with (String.append x (String.append sep (String.concat sep (y :: ls)))).
    rewrite !length_append, IH. cbn. rewrite Nat.sub_0_r. lia.
Qed.

Lemma encode_utf8_app (s1 s2 : string) :
  encode_utf8 (String.append s1 s2) = encode_utf8 s1 ++ encode_utf8 s2.
Proof.
  unfold encode_utf8, list_byte_of_string.
  induction s1 as [| c s1' IH]; [reflexivity |].
  change (Ascii.byte_of_ascii c
            :: map Ascii.byte_of_ascii (list_ascii_of_string (String.append s1' s2))
          = Ascii.byte_of_ascii c
            :: map Ascii.byte_of_ascii (list_ascii_of_string s1')
            ++ map Ascii.byte_of_ascii (list_ascii_of_string s2)).
  now rewrite IH.
Qed.

(** Written at the end of a file, the bytes are appended to it. *)
Lemma pwrite_at_end (c data : bytes) : pwrite c (length c) data = c ++ data.
Proof.
  unfold pwrite. rewrite Nat.sub_diag. cbn [replicate]. rewrite app_nil_r.
  rewrite firstn_all.
  rewrite (skipn_all2 c) by lia. now rewrite app_nil_r.
Qed.

(** ** The open text file *)

(** When the file of the handle holds what left its buffers, flushing moves
    bytes from the buffers to the end of the file and touches nothing
    else. *)
Lemma flush_bytes_stream fs h k flushed :
  fs !! f_file h = Some flushed ->
  f_pos h = length flushed ->
  exists flushed1,
    (flush_bytes fs h k).1 !! f_file h = Some flushed1
    /\ f_file (flush_bytes fs h k).2 = f_file h
    /\ f_pos (flush_bytes fs h k).2 = length flushed1
    /\ flushed1 ++ f_pending (flush_bytes fs h k).2 = flushed ++ f_pending h
    /\ flushed1 = flushed ++ take k (f_pending h).
Proof.
  intros Hf Hp. unfold flush_bytes.
  destruct (take k (f_pending h)) as [| b data] eqn:Et.
  - exists flushed. cbn. repeat split; auto. now rewrite app_nil_r.
  - exists (flushed ++ b :: data). cbn [fst snd f_file f_pos f_pending].
    rewrite Hf. cbn [default]. rewrite Hp, pwrite_at_end.
    rewrite lookup_insert_eq. repeat split.
    + now rewrite length_app.
    + rewrite <- app_assoc, <- Et. now rewrite take_drop.
Qed.

Lemma stream_inv_open_on f s t : stream_inv f s t -> open_on f s.
Proof. intros (h & fl & Hh & Hp & _). now exists h. Qed.

Lemma same_file_stream_inv f s s1 t :
  same_file f s s1 -> stream_inv f s t -> stream_inv f s1 t.
Proof.
  intros [Hf Hh] (h & fl & H1 & H2 & H3 & H4 & H5).
  exists h, fl. split; [congruence |]. split; [exact H2 |].
  split; [etransitivity; [exact Hf | exact H3] |]. auto.
Qed.

Lemma same_handle_open_on f s s1 :
  md_handle s1 = md_handle s -> open_on f s -> open_on f s1.
Proof. intros Hh (h & H1 & H2). exists h. now rewrite Hh. Qed.

(** [f.write(x)] on a file system that lets it: the call returns, the text
    file stays open on its path, the trace is as it was, and the text written
    so far has grown by [x]. *)
Lemma do_write_text_ok w f x s :
  write_text w f x = None ->
  open_on f s ->
  exists s1,
    do_write_text w x s = (Ret tt, s1)
    /\ open_on f s1
    /\ trace s1 = trace s
    /\ forall t, stream_inv f s t -> stream_inv f s1 (String.append t x).
Proof.
  intros Hw (h & Hh & Hp). unfold do_write_text, waiting. rewrite Hh, Hp, Hw.
  cbv zeta.
  set (h1 := mkTextFile f (f_pos h) (f_pending h ++ encode_utf8 x)).
  set (k := text_flush w f (f_pending h1)).
  destruct (flush_bytes (files s) h1 k) as [fs2 h2] eqn:Ef.
  eexists. split; [reflexivity |]. split; [| split; [reflexivity |]].
  - exists h2. split; [reflexivity |]. unfold flush_bytes in Ef.
    destruct (take k (f_pending h1)); inversion Ef; reflexivity.
  - intros t (h' & fl & H1 & H2 & H3 & H4 & H5).
    rewrite Hh in H1. injection H1 as <-.
    destruct (flush_bytes_stream (files s) h1 k fl H3 H4)
      as (fl1 & F1 & F2 & F3 & F4 & _).
    rewrite Ef in F1, F2, F3, F4. cbn [fst snd] in *.
    exists h2, fl1. cbn [md_handle files]. repeat split; auto.
    rewrite F4. subst h1. cbn [f_pending].
    now rewrite app_assoc, H5, encode_utf8_app.
Qed.

(** ** The text written by the loop of create_markdown_file *)

(** The loop writes the text of the specification. *)
Lemma written_spec (n i : nat) (ps : list OcrPage) :
  (i + length ps)%nat = n -> written n i ps = spec_markdown_text ps.
Proof.
  revert i. induction ps as [| p ps IH]; intros i Hn; [reflexivity |].
  cbn [written]. destruct ps as [| q rest].
  - cbn in *. replace (Z.of_nat i <? Z.of_nat n - 1)%Z with false
      by (symmetry; apply Z.ltb_ge; lia).
    cbn. apply append_nil_r.
  - replace (Z.of_nat i <? Z.of_nat n - 1)%Z with true
      by (symmetry; apply Z.ltb_lt; cbn in Hn; lia).
    rewrite IH by (cbn in *; lia). reflexivity.
Qed.

Lemma save_image_malformed w image dir s :
  payload_truthy (image_base64 image) = true ->
  datauri_parse w (payload_text (image_base64 image)) = inl DataURIError ->
  save_image w image dir s
  = (Ret tt,
     mkState (trace s ++ [Log ERROR (MsgImageParseError (id image) DataURIError)])
             (files s) (md_handle s)).
Proof.
  intros Ht Hp. unfold save_image. rewrite Ht, Hp. py_eval. reflexivity.
Qed.

Lemma quiet_In s s' e : quiet s s' -> In e (trace s) -> In e (trace s').
Proof. intros (l & -> & _) H. apply in_or_app. now left. Qed.

Lemma save_images_logs w imgs dir image s :
  In image imgs ->
  payload_truthy (image_base64 image) = true ->
  datauri_parse w (payload_text (image_base64 image)) = inl DataURIError ->
  parse_error_logged image (trace (save_images w imgs dir s).2).
Proof.
  intros Hin Ht Hp. revert s.
  induction imgs as [| i0 rest IH]; intros s; [destruct Hin |].
  cbn [save_images]. destruct Hin as [-> | Hin].
  - erewrite bind_returns by (now apply save_image_malformed).
    eapply quiet_In; [apply save_images_quiet |].
    cbn. apply in_or_app. right. now left.
  - pose proof (save_image_returns w i0 dir s) as Hr.
    destruct (save_image w i0 dir s) as [o s1] eqn:E. cbn in Hr. subst o.
    erewrite bind_returns by exact E. now apply IH.
Qed.

(** When no write fails, the body of the loop returns with the text file
    still open; the parse errors of the images of the page are in the log;
    and when no image of the page is saved to [f], the text written so
    far has grown by the text of the page, and by the separator unless the
    page is the last. *)
Lemma write_page_ok w f dir n i page s :
  (forall t, write_text w f t = None) ->
  open_on f s ->
  exists s1,
    write_page w dir n i page s = (Ret tt, s1)
    /\ open_on f s1
    /\ quiet s s1
    /\ (forall image,
          In image (images_list (images page)) ->
          payload_truthy (image_base64 image) = true ->
          datauri_parse w (payload_text (image_base64 image)) = inl DataURIError ->
          parse_error_logged image (trace s1))
    /\ (no_clash_images w dir f (images_list (images page)) ->
        forall t, stream_inv f s t ->
                  stream_inv f s1 (String.append t (page_text n i page))).
Proof.
  intros Hw Ho. unfold write_page.
  rewrite (bind_returns _ _ s tt s) by reflexivity.
  destruct (do_write_text_ok w f (markdown page) s (Hw _) Ho)
    as (s1 & E1 & Ho1 & Ht1 & Hs1).
  rewrite (bind_returns _ _ s tt s1 E1).
  assert (Hq1 : quiet s s1).
  { exists []. split; [now rewrite app_nil_r | reflexivity]. }
  (* the separator *)
  assert (exists s2,
    (if (Z.of_nat i <? Z.of_nat n - 1)%Z
     then do_write_text w blank_line else ret tt) s1 = (Ret tt, s2)
    /\ open_on f s2
    /\ quiet s1 s2
    /\ forall t, stream_inv f s t ->
                 stream_inv f s2 (String.append t (page_text n i page)))
    as (s2 & E2 & Ho2 & Hq2 & Hs2).
  { unfold page_text. destruct (Z.of_nat i <? Z.of_nat n - 1)%Z.
    - destruct (do_write_text_ok w f blank_line s1 (Hw _) Ho1)
        as (s2 & E2 & Ho2 & Ht2 & Hs2).
      exists s2. split; [exact E2 |]. split; [exact Ho2 |]. split.
      + exists []. split; [now rewrite app_nil_r | reflexivity].
      + intros t Ht. rewrite <- append_assoc. auto.
    - exists s1. split; [reflexivity |]. split; [exact Ho1 |].
      split; [reflexivity |]. intros t Ht. rewrite append_nil_r. auto. }
  rewrite (bind_returns _ _ s1 tt s2 E2).
  assert (Hq : quiet s s2) by (now transitivity s1).
  (* the images *)
  destruct (images page) as [[| i0 imgs] |] eqn:Ei; cbn [images_truthy images_list].
  - exists s2. split; [reflexivity |]. split; [exact Ho2 |].
    split; [exact Hq |]. split; [intros image [] | auto].
  - destruct (save_images_run w (i0 :: imgs) dir s2) as (s3 & E3 & Hh3 & Hq3).
    exists s3. split; [exact E3 |].
    split; [now apply (same_handle_open_on f s2) |].
    split; [now transitivity s2 |]. split.
    + intros image Hin Ht Hp.
      pose proof (save_images_logs w (i0 :: imgs) dir image s2 Hin Ht Hp) as Hl.
      now rewrite E3 in Hl.
    + intros Hn t Hst.
      pose proof (save_images_same_file w (i0 :: imgs) dir f Hn s2) as Hf.
      rewrite E3 in Hf. cbn in Hf.
      apply (same_file_stream_inv f s2); auto.
  - exists s2. split; [reflexivity |]. split; [exact Ho2 |].
    split; [exact Hq |]. split; [intros image [] | auto].
Qed.

(** The same for the whole loop. *)
Lemma write_pages_ok w f dir n ps :
  (forall t, write_text w f t = None) ->
  forall i s,
    open_on f s ->
    exists s1,
      write_pages w dir n i ps s = (Ret tt, s1)
      /\ open_on f s1
      /\ quiet s s1
      /\ (forall page image,
            In page ps ->
            In image (images_list (images page)) ->
            payload_truthy (image_base64 image) = true ->
            datauri_parse w (payload_text (image_base64 image)) = inl DataURIError ->
            parse_error_logged image (trace s1))
      /\ ((forall page, In page ps ->
             no_clash_images w dir f (images_list (images page))) ->
          forall t, stream_inv f s t ->
                    stream_inv f s1 (String.append t (written n i ps))).
Proof.
  intros Hw. induction ps as [| page rest IH]; intros i s Ho.
  - exists s. split; [reflexivity |]. split; [exact Ho |].
    split; [reflexivity |]. split; [intros page image [] |].
    intros _ t Ht. cbn. now rewrite append_nil_r.
  - cbn [write_pages written].
    destruct (write_page_ok w f dir n i page s Hw Ho)
      as (s1 & E1 & Ho1 & Hq1 & Hl1 & Hs1).
    rewrite (bind_returns _ _ s tt s1 E1).
    destruct (IH (S i) s1 Ho1) as (s2 & E2 & Ho2 & Hq2 & Hl2 & Hs2).
    exists s2. split; [exact E2 |]. split; [exact Ho2 |].
    split; [now transitivity s1 |]. split.
    + intros p image [<- | Hin] Himg Ht Hp.
      * eapply quiet_In; [exact Hq2 |]. now apply Hl1.
      * now apply (Hl2 p).
    + intros Hn t Ht.
      match goal with
      | |- stream_inv _ _ (String.append _ (String.append _ (String.append _ ?W))) =>
          replace (String.append t
                     (String.append (markdown page)
                        (String.append
                           (if (Z.of_nat i <? Z.of_nat n - 1)%Z
                            then blank_line else "") W)))
            with (String.append (String.append t (page_text n i page)) W)
            by (unfold page_text; now rewrite !append_assoc)
      end.
      apply Hs2; [intros p Hp; apply Hn; now right |].
      apply Hs1; [apply Hn; now left | exact Ht].
Qed.

(** [create_markdown_file] on a file system that lets the Markdown file be
    written: it returns, the text file is closed, the parse errors of the
    images are in the log; and when no image is saved to the file that [out]
    names, that file holds the text of the specification. *)
Lemma create_markdown_file_ok w r out s :
  markdown_io_ok w out ->
  exists s1 t,
    create_markdown_file w r out s = (Ret tt, s1)
    /\ md_handle s1 = None
    /\ trace s1 = t ++ [Log INFO (MsgMarkdownDone out)]
    /\ (forall image,
          has_image r image ->
          payload_truthy (image_base64 image) = true ->
          datauri_parse w (payload_text (image_base64 image)) = inl DataURIError ->
          parse_error_logged image (trace s1))
    /\ (no_clash w r out ->
        files s1 !! file_of w out
        = Some (encode_utf8 (spec_markdown_text (pages r)))).
Proof.
  intros [Hmk Hop Hwr Hcl].
  unfold create_markdown_file.
  erewrite bind_returns by reflexivity.
  rewrite Hmk.
  erewrite bind_returns by reflexivity.
  unfold try_except, with_open_wt, do_open_wt. rewrite Hop.
  unfold bind at 1. unfold bind at 1. cbn [check ret bind].
  unfold bind at 1. cbn [ret].
  match goal with
  | |- context [write_pages w ?d ?n 0 ?ps ?s0] =>
      assert (Hinv : stream_inv (file_of w out) s0 "")
        by (exists (mkTextFile (file_of w out) 0 []), []; cbn;
            rewrite lookup_insert_eq; repeat split);
      destruct (write_pages_ok w (file_of w out) d n ps Hwr 0%nat s0
                  (stream_inv_open_on _ _ _ Hinv))
        as (s1 & E1 & Ho1 & Hq1 & Hl1 & Hs1)
  end.
  rewrite E1. destruct Ho1 as (h1 & Hh1 & Hp1).
  unfold bind at 1, do_close_text. rewrite Hh1, Hp1, Hcl. cbn [ret].
  py_eval. eexists. eexists. split; [reflexivity |]. cbn [md_handle trace files].
  split; [reflexivity |]. split; [reflexivity |]. split.
  - intros image (page & Hp & Hi) Ht Hpe.
    apply in_or_app. left. now apply (Hl1 page).
  - intros Hn. specialize (Hs1 Hn "" Hinv).
    destruct Hs1 as (h & fl & H1 & H2 & H3 & H4 & H5).
    rewrite Hh1 in H1. injection H1 as <-.
    destruct (flush_bytes_stream (files s1) h1 (length (f_pending h1)) fl)
      as (fl1 & F1 & _ & _ & _ & F5); [now rewrite Hp1 | exact H4 |].
    rewrite Hp1 in F1. etransitivity; [exact F1 |].
    f_equal. rewrite F5, firstn_all, H5.
    change (String.append "" ?x) with x. f_equal. now apply written_spec.
Qed.

(** ** Two runs that agree on the Markdown file *)

Lemma same_view_refl_None f s1 s2 :
  files s1 !! f = files s2 !! f ->
  md_handle s1 = None -> md_handle s2 = None ->
  same_view f s1 s2.
Proof.
  intros Hf H1 H2. split; [exact Hf |]. split; [congruence |].
  intros h Hh. congruence.
Qed.

Lemma silent_agree f (m1 m2 : M unit) s1 s2 :
  silent f m1 -> silent f m2 -> same_view f s1 s2 ->
  agree f (m1 s1) (m2 s2).
Proof.
  intros H1 H2 (Hf & Hh & Hp).
  destruct (H1 s1) as (s1' & E1 & F1 & M1), (H2 s2) as (s2' & E2 & F2 & M2).
  rewrite E1, E2. split; [reflexivity |]. cbn.
  split; [congruence |]. split; [congruence |].
  intros h Hs. apply Hp. congruence.
Qed.

Lemma silent_log f l m : silent f (log l m).
Proof.
  intros s. unfold log.
  destruct (_ <=? _)%nat; eexists; (split; [reflexivity | split; reflexivity]).
Qed.

Lemma silent_save_images w imgs dir f :
  no_clash_images w dir f imgs -> silent f (save_images w imgs dir).
Proof.
  intros Hn s.
  pose proof (save_images_returns w imgs dir s) as Hr.
  pose proof (save_images_same_file w imgs dir f Hn s) as Hf.
  destruct (save_images w imgs dir s) as [o s1]. cbn in *. subst o.
  now exists s1.
Qed.

(** The images of a page: saved or not, the step returns and the Markdown
    file stays. *)
Lemma silent_page_images w page dir f i :
  no_clash_images w dir f (images_list (images page)) ->
  silent f (if images_truthy (images page)
              then save_images w (images_list (images page)) dir
              else log DEBUG (MsgPageNoImages i)).
Proof.
  intros Hn.
  destruct (images_truthy _); [now apply silent_save_images | apply silent_log].
Qed.

Lemma agree_bind {A B} f (m1 m2 : M A) (k1 k2 : A -> M B) s1 s2 :
  agree f (m1 s1) (m2 s2) ->
  (forall a t1 t2, same_view f t1 t2 -> agree f (k1 a t1) (k2 a t2)) ->
  agree f (bind m1 k1 s1) (bind m2 k2 s2).
Proof.
  unfold agree, bind. intros [Ho Hm] Hk.
  destruct (m1 s1) as [o1 t1], (m2 s2) as [o2 t2]. cbn in *. subst o2.
  destruct o1; cbn; auto.
Qed.

Lemma agree_try_except {A} f (m1 m2 : M A) (h1 h2 : exn -> M A) s1 s2 :
  agree f (m1 s1) (m2 s2) ->
  (forall e t1 t2, same_view f t1 t2 -> agree f (h1 e t1) (h2 e t2)) ->
  agree f (try_except m1 h1 s1) (try_except m2 h2 s2).
Proof.
  unfold agree, try_except. intros [Ho Hm] Hh.
  destruct (m1 s1) as [o1 t1], (m2 s2) as [o2 t2]. cbn in *. subst o2.
  destruct o1; cbn; auto.
Qed.

Lemma agree_check f (r : option exn) s1 s2 :
  same_view f s1 s2 -> agree f (check r s1) (check r s2).
Proof. intros H. destruct r; split; cbn; auto. Qed.

Lemma agree_sys_exit {A} f c s1 s2 :
  same_view f s1 s2 ->
  agree f (sys_exit (A := A) c s1) (sys_exit (A := A) c s2).
Proof. intros H. split; cbn; auto. Qed.

(** Flushing looks at the file of the handle only. *)
Lemma flush_bytes_view (fs1 fs2 : gmap string bytes) h k :
  fs1 !! f_file h = fs2 !! f_file h ->
  (flush_bytes fs1 h k).2 = (flush_bytes fs2 h k).2
  /\ (flush_bytes fs1 h k).1 !! f_file h = (flush_bytes fs2 h k).1 !! f_file h
  /\ f_file (flush_bytes fs1 h k).2 = f_file h.
Proof.
  intros Hf. unfold flush_bytes.
  destruct (take k (f_pending h)); cbn; [auto |].
  rewrite !lookup_insert_eq, Hf. auto.
Qed.

Lemma agree_do_write_text w1 w2 f t s1 s2 :
  write_text w1 f t = write_text w2 f t ->
  (forall b, text_flush w1 f b = text_flush w2 f b) ->
  (forall b x, text_kept w1 f b x = text_kept w2 f b x) ->
  same_view f s1 s2 ->
  agree f (do_write_text w1 t s1) (do_write_text w2 t s2).
Proof.
  intros Hw Hfl Hk (Hf & Hh & Hp). unfold do_write_text. rewrite <- Hh.
  destruct (md_handle s1) as [h |] eqn:E1.
  - specialize (Hp h eq_refl). cbv zeta. unfold waiting. rewrite Hp, Hw, Hk, Hfl.
    set (h1 := mkTextFile f (f_pos h) _).
    set (k := text_flush w2 f (f_pending h1)).
    destruct (flush_bytes_view (files s1) (files s2) h1 k Hf) as (V1 & V2 & V3).
    destruct (flush_bytes (files s1) h1 k) as [fa ha].
    destruct (flush_bytes (files s2) h1 k) as [fb hb].
    cbn [fst snd] in *. subst hb.
    split; [reflexivity |]. cbn. split; [exact V2 |].
    split; [reflexivity |]. intros h' Hh'. injection Hh' as <-. exact V3.
  - split; [reflexivity |]. cbn. split; [exact Hf |].
    split; [congruence |]. intros h' Hh'. congruence.
Qed.

Lemma agree_do_open_wt w1 w2 out s1 s2 :
  file_of w1 out = file_of w2 out ->
  open_wt w1 out = open_wt w2 out ->
  same_view (file_of w1 out) s1 s2 ->
  agree (file_of w1 out) (do_open_wt w1 out s1) (do_open_wt w2 out s2).
Proof.
  intros Hfo Hw Hs. unfold do_open_wt, bind, check. rewrite Hw, <- Hfo.
  destruct (open_wt w2 out); [split; cbn; auto |].
  split; [reflexivity |]. unfold same_view. cbn. rewrite !lookup_insert_eq.
  split; [reflexivity |]. split; [reflexivity |].
  intros h Hh. injection Hh as <-. reflexivity.
Qed.

Lemma agree_do_close_text w1 w2 f s1 s2 :
  close_wt w1 f = close_wt w2 f ->
  (forall b, close_flush w1 f b = close_flush w2 f b) ->
  same_view f s1 s2 ->
  agree f (do_close_text w1 s1) (do_close_text w2 s2).
Proof.
  intros Hc Hcf (Hf & Hh & Hp). unfold do_close_text. rewrite <- Hh.
  destruct (md_handle s1) as [h |] eqn:E1.
  - specialize (Hp h eq_refl). rewrite Hp, Hc, Hcf.
    destruct (close_wt w2 f).
    + split; [reflexivity |]. cbn. split.
      * rewrite <- Hp in Hf |- *.
        now apply (flush_bytes_view (files s1) (files s2) h _ Hf).
      * split; [reflexivity |]. intros h' Hh'. discriminate.
    + split; [reflexivity |]. cbn. split.
      * rewrite <- Hp in Hf |- *.
        now apply (flush_bytes_view (files s1) (files s2) h _ Hf).
      * split; [reflexivity |]. intros h' Hh'. discriminate.
  - split; [reflexivity |]. cbn. split; [exact Hf |].
    split; [congruence |]. intros h' Hh'. congruence.
Qed.

Lemma agree_with_open_wt {A} w1 w2 out (b1 b2 : M A) s1 s2 :
  file_of w1 out = file_of w2 out ->
  open_wt w1 out = open_wt w2 out ->
  close_wt w1 (file_of w1 out) = close_wt w2 (file_of w1 out) ->
  (forall b, close_flush w1 (file_of w1 out) b = close_flush w2 (file_of w1 out) b) ->
  (forall t1 t2, same_view (file_of w1 out) t1 t2 ->
                 agree (file_of w1 out) (b1 t1) (b2 t2)) ->
  same_view (file_of w1 out) s1 s2 ->
  agree (file_of w1 out) (with_open_wt w1 out b1 s1) (with_open_wt w2 out b2 s2).
Proof.
  intros Hfo Ho Hc Hcf Hb Hs. unfold with_open_wt.
  apply agree_bind; [now apply agree_do_open_wt |].
  intros _ t1 t2 Ht. specialize (Hb t1 t2 Ht).
  destruct (b1 t1) as [o1 u1], (b2 t2) as [o2 u2].
  destruct Hb as [Hb Hu]. cbn in Hb, Hu. subst o2.
  pose proof (agree_do_close_text w1 w2 _ u1 u2 Hc Hcf Hu) as [Hco Hcv].
  destruct o1 as [a | e | c].
  - unfold bind.
    destruct (do_close_text w1 u1) as [oa va], (do_close_text w2 u2) as [ob vb].
    cbn in Hco, Hcv. subst ob. destruct oa; split; cbn; auto.
  - destruct (do_close_text w1 u1) as [oa va], (do_close_text w2 u2) as [ob vb].
    cbn in Hco, Hcv. subst ob. destruct oa; split; cbn; auto.
  - destruct (do_close_text w1 u1) as [oa va], (do_close_text w2 u2) as [ob vb].
    cbn in Hco, Hcv. subst ob. destruct oa; split; cbn; auto.
Qed.

Lemma agree_write_page w1 w2 f d1 d2 n i p1 p2 s1 s2 :
  (forall t, write_text w1 f t = write_text w2 f t) ->
  (forall b, text_flush w1 f b = text_flush w2 f b) ->
  (forall b x, text_kept w1 f b x = text_kept w2 f b x) ->
  markdown p1 = markdown p2 ->
  no_clash_images w1 d1 f (images_list (images p1)) ->
  no_clash_images w2 d2 f (images_list (images p2)) ->
  same_view f s1 s2 ->
  agree f (write_page w1 d1 n i p1 s1) (write_page w2 d2 n i p2 s2).
Proof.
  intros Hw Hfl Hk Hp Hn1 Hn2 Hs. unfold write_page.
  apply agree_bind; [apply silent_agree; auto using silent_log |].
  intros _ t1 t2 Ht.
  apply agree_bind; [rewrite Hp; now apply agree_do_write_text |].
  clear t1 t2 Ht. intros _ t1 t2 Ht.
  apply agree_bind.
  { destruct (_ <? _)%Z; [now apply agree_do_write_text | split; cbn; auto]. }
  clear t1 t2 Ht. intros _ t1 t2 Ht.
  apply silent_agree; auto using silent_page_images.
Qed.

Lemma agree_write_pages w1 w2 f d1 d2 n :
  (forall t, write_text w1 f t = write_text w2 f t) ->
  (forall b, text_flush w1 f b = text_flush w2 f b) ->
  (forall b x, text_kept w1 f b x = text_kept w2 f b x) ->
  forall ps1 ps2 i s1 s2,
    map markdown ps1 = map markdown ps2 ->
    (forall p, In p ps1 -> no_clash_images w1 d1 f (images_list (images p))) ->
    (forall p, In p ps2 -> no_clash_images w2 d2 f (images_list (images p))) ->
    same_view f s1 s2 ->
    agree f (write_pages w1 d1 n i ps1 s1) (write_pages w2 d2 n i ps2 s2).
Proof.
  intros Hw Hfl Hk.
  induction ps1 as [| p1 ps1 IH]; intros [| p2 ps2] i s1 s2 Hmap Hn1 Hn2 Hs;
    try discriminate.
  - split; cbn; auto.
  - cbn in Hmap. injection Hmap as Hp Hrest.
    cbn [write_pages].
    apply agree_bind.
    + apply agree_write_page; auto; [apply Hn1 | apply Hn2]; now left.
    + intros _ t1 t2 Ht.
      apply IH; auto; intros p Hin; [apply Hn1 | apply Hn2]; now right.
Qed.

(** Two runs of [create_markdown_file] on responses with the same page
    texts, no image of which is saved to the file of the Markdown document,
    on worlds that answer alike for that file, agree on it. *)
Lemma agree_create_markdown_file w1 w2 r1 r2 out s1 s2 :
  same_text_io w1 w2 out ->
  map markdown (pages r1) = map markdown (pages r2) ->
  no_clash w1 r1 out ->
  no_clash w2 r2 out ->
  same_view (file_of w1 out) s1 s2 ->
  agree (file_of w1 out)
    (create_markdown_file w1 r1 out s1) (create_markdown_file w2 r2 out s2).
Proof.
  intros [Hfo Hmk Hop Hwr Hcl Hfl Hk Hcf] Hmap Hn1 Hn2 Hs.
  unfold no_clash in Hn2. rewrite <- Hfo in Hn2.
  unfold create_markdown_file.
  apply agree_bind; [apply silent_agree; auto using silent_log |].
  intros _ t1 t2 Ht.
  apply agree_bind; [rewrite Hmk; now apply agree_check |].
  clear t1 t2 Ht. intros _ t1 t2 Ht.
  apply agree_try_except.
  - apply agree_bind.
    + apply agree_with_open_wt; auto.
      intros u1 u2 Hu.
      assert (Hlen : length (pages r1) = length (pages r2))
        by (rewrite <- (length_map markdown (pages r1)), Hmap; apply length_map).
      rewrite Hlen. now apply agree_write_pages.
    + intros _ u1 u2 Hu. apply silent_agree; auto using silent_log.
  - intros e u1 u2 Hu.
    destruct e;
      (apply agree_bind;
       [apply silent_agree; auto using silent_log
       | intros _ v1 v2 Hv; now apply agree_sys_exit]).
Qed.

(** ** No call to the remote service while the results are saved *)

Lemma with_open_wt_quiet {A} w p (body : M A) :
  frame quiet body -> frame quiet (with_open_wt w p body).
Proof.
  intros Hb. unfold with_open_wt.
  apply frame_bind; [apply _ | apply do_open_wt_quiet |]. intros _ s.
  specialize (Hb s). pose proof (do_close_text_quiet w (body s).2) as Hc.
  destruct (body s) as [[a | e | c] s1]; cbn in *.
  - unfold bind. destruct (do_close_text w s1) as [[[] | e | c] s2]; cbn in *;
      now transitivity s1.
  - destruct (do_close_text w s1) as [[[] | e' | c] s2]; cbn in *;
      now transitivity s1.
  - destruct (do_close_text w s1) as [[[] | e' | c'] s2]; cbn in *;
      now transitivity s1.
Qed.

Lemma write_page_quiet w dir n i page : frame quiet (write_page w dir n i page).
Proof.
  unfold write_page.
  apply frame_bind; [apply _ | apply log_quiet | intros _].
  apply frame_bind; [apply _ | apply do_write_text_quiet | intros _].
  apply frame_bind; [apply _ | | intros _].
  { apply frame_if; [apply do_write_text_quiet | apply frame_ret; apply _]. }
  apply frame_if; [apply save_images_quiet | apply log_quiet].
Qed.

Lemma write_pages_quiet w dir n i ps : frame quiet (write_pages w dir n i ps).
Proof.
  revert i. induction ps as [| page rest IH]; intros i; cbn [write_pages].
  - apply frame_ret; apply _.
  - apply frame_bind; [apply _ | apply write_page_quiet | intros _; apply IH].
Qed.

Lemma create_markdown_file_quiet w r out : frame quiet (create_markdown_file w r out).
Proof.
  unfold create_markdown_file.
  apply frame_bind; [apply _ | apply log_quiet | intros _].
  apply frame_bind; [apply _ | apply frame_check; apply _ | intros _].
  apply frame_try_except; [apply _ | |].
  - apply frame_bind; [apply _ | | intros _; apply log_quiet].
    apply with_open_wt_quiet, write_pages_quiet.
  - intros e.
    destruct e;
      (apply frame_bind;
       [apply _ | apply log_quiet | intros _; apply frame_sys_exit; apply _]).
Qed.

Lemma main_save_quiet w r out : frame quiet (main_save w r out).
Proof.
  unfold main_save.
  apply frame_bind; [apply _ | | intros _].
  - apply frame_try_except; [apply _ | apply create_markdown_file_quiet |].
    intros e. apply frame_bind; [apply _ | apply log_quiet |].
    intros _. apply frame_sys_exit; apply _.
  - apply frame_bind; [apply _ | apply log_quiet |].
    intros _. now apply emit_quiet.
Qed.

(** With a file system that lets the Markdown file be written, saving
    returns, whatever happens to the images. *)
Lemma main_save_ok w r out s :
  markdown_io_ok w out ->
  exists s1 s2 t,
    create_markdown_file w r out s = (Ret tt, s1)
    /\ main_save w r out s = (Ret tt, s2)
    /\ trace s1 = t ++ [Log INFO (MsgMarkdownDone out)]
    /\ trace s2 = trace s1 ++ [Log INFO MsgAllDone; PrintOut "Finished all!"]
    /\ files s2 = files s1
    /\ (forall image,
          has_image r image ->
          payload_truthy (image_base64 image) = true ->
          datauri_parse w (payload_text (image_base64 image)) = inl DataURIError ->
          parse_error_logged image (trace s1))
    /\ (no_clash w r out ->
        files s1 !! file_of w out
        = Some (encode_utf8 (spec_markdown_text (pages r)))).
Proof.
  intros Hio.
  destruct (create_markdown_file_ok w r out s Hio)
    as (s1 & t & E1 & Hh1 & Ht1 & Hl1 & Hf1).
  exists s1. eexists. exists t. split; [exact E1 |].
  unfold main_save, try_except, bind at 1. rewrite E1. cbn.
  split; [reflexivity |]. split; [exact Ht1 |]. cbn.
  split; [now rewrite <- app_assoc |]. split; [reflexivity |].
  split; [exact Hl1 | exact Hf1].
Qed.

(** ** Running main *)

(** With [--url], a key and a client, the run gets to the test of
    [document_url] with the URL of the command line. *)
Lemma main_url_mode w (ns : Namespace) fs k :
  url ns = true ->
  environ w MISTRAL_API_KEY_ENV_VAR = Some k ->
  mistral_init w k = None ->
  main w ns (init_state fs)
  = main_from_locator w (mk_path w (output_file ns)) (input_source ns)
      (mkState (url_events ns) fs None).
Proof.
  intros Hu He Hi. unfold main, main_from_locator, main_save, url_events.
  rewrite He. py_eval. rewrite Hi. py_eval. rewrite Hu. py_eval.
  destruct (startswith_http (input_source ns)); py_eval; reflexivity.
Qed.

(** Without [--url], with a key, a client and a file that is read, uploaded
    and signed, the run gets to the test of [document_url] with the signed
    URL. *)
Lemma main_file_mode w (ns : Namespace) fs k c fid u :
  url ns = false ->
  environ w MISTRAL_API_KEY_ENV_VAR = Some k ->
  mistral_init w k = None ->
  path_exists w (mk_path w (input_source ns)) = inr true ->
  path_is_file w (mk_path w (input_source ns)) = inr true ->
  open_rb w (mk_path w (input_source ns)) = inr c ->
  files_upload w (path_name w (mk_path w (input_source ns))) c = inr fid ->
  files_get_signed_url w fid = inr u ->
  main w ns (init_state fs)
  = main_from_locator w (mk_path w (output_file ns)) u
      (mkState (file_events w ns c fid u) fs None).
Proof.
  intros Hu He Hi Hex Hfi Hrd Hup Hsg.
  unfold main, main_from_locator, main_save, file_events.
  rewrite He. py_eval. rewrite Hi. py_eval. rewrite Hu. py_eval.
  rewrite Hex, Hfi. py_eval. rewrite Hrd. py_eval.
  rewrite Hup. py_eval. rewrite Hsg. py_eval. reflexivity.
Qed.

(** From the test of [document_url] on, the one call to the remote service is
    the OCR call on [document_url], and it is made unless [document_url] is
    empty. *)
Lemma main_from_locator_calls w out d s :
  exists l,
    trace (main_from_locator w out d s).2 = trace s ++ l
    /\ network_calls l = calls_from_locator d.
Proof.
  unfold main_from_locator, calls_from_locator.
  destruct (String.eqb d "") eqn:Hd.
  - py_eval. eexists. split; reflexivity.
  - destruct (ocr_process w OCR_MODEL d true) as [e | r] eqn:Ho.
    + py_eval. cbn [snd]. rewrite <- !app_assoc.
      eexists. split; reflexivity.
    + unfold bind at 1. cbn [ret]. unfold bind at 1, try_except.
      py_eval.
      match goal with
      | |- context [main_save w r out ?s0] =>
          destruct (main_save_quiet w r out s0) as (l & Hl & Nl)
      end.
      rewrite Hl. cbn [trace]. rewrite <- !app_assoc.
      eexists. split; [reflexivity |].
      rewrite !network_calls_app, Nl. reflexivity.
Qed.

Lemma main_from_locator_ocr w out d r s :
  d <> "" ->
  ocr_process w OCR_MODEL d true = inr r ->
  exists t, main_from_locator w out d s = main_save w r out (mkState t (files s) (md_handle s)).
Proof.
  intros Hn Ho. apply String.eqb_neq in Hn. unfold main_from_locator.
  rewrite Hn. unfold bind at 1. cbn [ret]. unfold bind at 1, try_except.
  py_eval. rewrite Ho. py_eval. eexists. reflexivity.
Qed.

Lemma main_reaches_save w (ns : Namespace) fs d r :
  reaches_ocr w ns d r ->
  exists t,
    main w ns (init_state fs)
    = main_save w r (mk_path w (output_file ns)) (mkState t fs None).
Proof.
  intros [(k & He & Hi) Hres Hn Ho]. unfold resolves in Hres.
  destruct (url ns) eqn:Hu.
  - subst d. rewrite (main_url_mode w ns fs k Hu He Hi).
    now apply main_from_locator_ocr.
  - destruct Hres as (Hex & Hfi & c & fid & Hrd & Hup & Hsg).
    rewrite (main_file_mode w ns fs k c fid d Hu He Hi Hex Hfi Hrd Hup Hsg).
    now apply main_from_locator_ocr.
Qed.

(** A run in which nothing but images can fail ends with status 0 and the
    closing message printed; when no image is saved to the file of the
    Markdown document, that file holds the text of the specification. *)
Lemma run_happy_path w (ns : Namespace) fs d r :
  reaches_ocr w ns d r ->
  markdown_io_ok w (mk_path w (output_file ns)) ->
  exists s t,
    run w ns fs = (0%Z, s)
    /\ trace s = t ++ [Log INFO (MsgMarkdownDone (mk_path w (output_file ns)));
                       Log INFO MsgAllDone; PrintOut "Finished all!"]
    /\ (forall image,
          has_image r image ->
          payload_truthy (image_base64 image) = true ->
          datauri_parse w (payload_text (image_base64 image)) = inl DataURIError ->
          parse_error_logged image (trace s))
    /\ (no_clash w r (mk_path w (output_file ns)) ->
        files s !! file_of w (mk_path w (output_file ns))
        = Some (encode_utf8 (spec_markdown_text (pages r)))).
Proof.
  intros Hr Hio.
  destruct (main_reaches_save w ns fs d r Hr) as (t & Hm).
  destruct (main_save_ok w r _ (mkState t fs None) Hio)
    as (s1 & s2 & t1 & E1 & E2 & Ht1 & Ht2 & Hf2 & Hl & Hc).
  exists s2, t1. unfold run. rewrite Hm, E2. cbn.
  split; [reflexivity |]. split; [| split].
  - rewrite Ht2, Ht1. now rewrite <- app_assoc.
  - intros image Hi Ht Hp. unfold parse_error_logged. rewrite Ht2.
    apply in_or_app. left. now apply Hl.
  - intros Hn. rewrite Hf2. now apply Hc.
Qed.

(** * The claims of the specification *)

(** ** Page Writer *)

(** C1, as the code has it.  For a response with pages p_0 .. p_{N-1} no
    image id of which, joined to the output directory, names the file of the
    Markdown document (the same path, or another path that the operating
    system takes to the same file), on a file system that lets the Markdown
    file be made, [create_markdown_file] returns and the Markdown file holds
    the text of each page as it is, in page order, with one blank-line
    separator between two consecutive pages and none after the last: N-1
    separators of two characters on top of the texts of the pages. *)
Theorem C1_markdown_is_pages_joined w r out s :
  markdown_io_ok w out ->
  no_clash w r out ->
  exists s1,
    create_markdown_file w r out s = (Ret tt, s1)
    /\ files s1 !! file_of w out
       = Some (encode_utf8 (spec_markdown_text (pages r)))
    /\ String.length (spec_markdown_text (pages r))
       = (list_sum (map String.length (map markdown (pages r)))
          + (length (pages r) - 1) * String.length blank_line)%nat
    /\ String.length blank_line = 2%nat.
Proof.
  intros Hio Hn.
  destruct (create_markdown_file_ok w r out s Hio) as (s1 & t & E & _ & _ & _ & Hf).
  exists s1. split; [exact E |]. split; [now apply Hf |]. split; [| reflexivity].
  unfold spec_markdown_text. rewrite length_concat. now rewrite length_map.
Qed.

Lemma sample_no_clash : no_clash sample_world sample_response "out/report.md".
Proof.
  intros page Hp image Hi. cbn in Hp.
  destruct Hp as [<- | [<- | [<- | []]]]; cbn in Hi;
    repeat (destruct Hi as [<- | Hi]; [vm_compute; discriminate |]); destruct Hi.
Qed.

Lemma C1_witness :
  markdown_io_ok sample_world "out/report.md"
  /\ no_clash sample_world sample_response "out/report.md"
  /\ exists s1,
       create_markdown_file sample_world sample_response "out/report.md"
         (init_state ∅) = (Ret tt, s1)
       /\ files s1 !! "out/report.md"
          = Some (encode_utf8 (spec_markdown_text (pages sample_response)))
       /\ String.length (spec_markdown_text (pages sample_response))
          = (list_sum (map String.length (map markdown (pages sample_response)))
             + (length (pages sample_response) - 1) * String.length blank_line)%nat
       /\ String.length blank_line = 2%nat.
Proof.
  assert (H : markdown_io_ok sample_world "out/report.md")
    by (constructor; reflexivity).
  split; [exact H |]. split; [exact sample_no_clash |].
  exact (C1_markdown_is_pages_joined sample_world sample_response
           "out/report.md" (init_state ∅) H sample_no_clash).
Defined.

(** C1 as it is stated fails for a response that names an image like the
    Markdown file: the page text is [ab], the image [report.md] is saved in
    the directory of [out/report.md] while that file is open, and at the end
    the file holds the image, its first two bytes overwritten by [ab]. *)
Lemma C1_counterexample :
  markdown_io_ok (clash_world at_close clash_payload) "out/report.md"
  /\ spec_markdown_text (pages (clash_response clash_payload)) = "ab"
  /\ (create_markdown_file (clash_world at_close clash_payload)
        (clash_response clash_payload) "out/report.md" (init_state ∅)).1 = Ret tt
  /\ files (create_markdown_file (clash_world at_close clash_payload)
              (clash_response clash_payload) "out/report.md" (init_state ∅)).2
       !! "out/report.md"
     = Some (encode_utf8 "ab23456789")
  /\ files (create_markdown_file (clash_world at_close clash_payload)
              (clash_response clash_payload) "out/report.md" (init_state ∅)).2
       !! "out/report.md"
     <> Some (encode_utf8
                (spec_markdown_text (pages (clash_response clash_payload)))).
Proof.
  split; [constructor; reflexivity |]. split; [reflexivity |].
  split; [reflexivity |]. split; [reflexivity |].
  vm_compute. discriminate.
Qed.

(** C10, as the code has it.  The Markdown file, and the way
    [create_markdown_file] ends, depend on the texts of the pages alone: two
    responses with the same page texts, no image id of which, joined to the
    output directory, names the file of the Markdown document (the same
    path, or another path that the operating system takes to the same file),
    give the same Markdown file, whatever their images are and whatever
    parsing and writing the images does, on worlds that answer alike for the
    Markdown file: its path names the same file, and opening, writing and
    closing it go the same way. *)
Theorem C10_markdown_independent_of_images w1 w2 r1 r2 out s1 s2 :
  same_text_io w1 w2 out ->
  map markdown (pages r1) = map markdown (pages r2) ->
  no_clash w1 r1 out ->
  no_clash w2 r2 out ->
  files s1 !! file_of w1 out = files s2 !! file_of w2 out ->
  md_handle s1 = None ->
  md_handle s2 = None ->
  (create_markdown_file w1 r1 out s1).1 = (create_markdown_file w2 r2 out s2).1
  /\ files (create_markdown_file w1 r1 out s1).2 !! file_of w1 out
     = files (create_markdown_file w2 r2 out s2).2 !! file_of w2 out.
Proof.
  intros Hio Hmap Hn1 Hn2 Hf Hh1 Hh2.
  rewrite <- (io_file _ _ _ Hio) in Hf |- *.
  destruct (agree_create_markdown_file w1 w2 r1 r2 out s1 s2 Hio Hmap Hn1 Hn2)
    as (Ho & Hv & _); [now apply same_view_refl_None |].
  split; [exact Ho | exact Hv].
Qed.

Lemma hostile_no_clash :
  no_clash hostile_world sample_response_other_images "out/report.md".
Proof.
  intros page Hp image Hi. cbn in Hp.
  destruct Hp as [<- | [<- | [<- | []]]]; cbn in Hi;
    repeat (destruct Hi as [<- | Hi]; [vm_compute; discriminate |]); destruct Hi.
Qed.

Lemma C10_witness :
  same_text_io sample_world hostile_world "out/report.md"
  /\ map markdown (pages sample_response)
     = map markdown (pages sample_response_other_images)
  /\ (create_markdown_file sample_world sample_response "out/report.md"
        (init_state ∅)).1
     = (create_markdown_file hostile_world sample_response_other_images
          "out/report.md" (init_state ∅)).1
  /\ files (create_markdown_file sample_world sample_response "out/report.md"
              (init_state ∅)).2 !! "out/report.md"
     = files (create_markdown_file hostile_world sample_response_other_images
                "out/report.md" (init_state ∅)).2 !! "out/report.md".
Proof.
  assert (H : same_text_io sample_world hostile_world "out/report.md")
    by (constructor; reflexivity).
  split; [exact H |]. split; [reflexivity |].
  exact (C10_markdown_independent_of_images sample_world hostile_world
           sample_response sample_response_other_images "out/report.md"
           (init_state ∅) (init_state ∅) H eq_refl
           sample_no_clash hostile_no_clash eq_refl eq_refl eq_refl).
Defined.

(** C10 as it is stated fails for two responses with the same page text
    [ab] whose image [report.md], saved over the open Markdown file
    [out/report.md], has different payloads: the two Markdown files
    differ. *)
Lemma C10_counterexample :
  same_text_io (clash_world at_close clash_payload)
    (clash_world at_close clash_payload_other) "out/report.md"
  /\ map markdown (pages (clash_response clash_payload))
     = map markdown (pages (clash_response clash_payload_other))
  /\ files (create_markdown_file (clash_world at_close clash_payload)
              (clash_response clash_payload) "out/report.md" (init_state ∅)).2
       !! "out/report.md"
     = Some (encode_utf8 "ab23456789")
  /\ files (create_markdown_file (clash_world at_close clash_payload_other)
              (clash_response clash_payload_other) "out/report.md"
              (init_state ∅)).2
       !! "out/report.md"
     = Some (encode_utf8 "abCDEFGHIJ")
  /\ files (create_markdown_file (clash_world at_close clash_payload)
              (clash_response clash_payload) "out/report.md" (init_state ∅)).2
       !! "out/report.md"
     <> files (create_markdown_file (clash_world at_close clash_payload_other)
                 (clash_response clash_payload_other) "out/report.md"
                 (init_state ∅)).2
          !! "out/report.md".
Proof.
  split; [constructor; reflexivity |]. split; [reflexivity |].
  split; [reflexivity |]. split; [reflexivity |].
  vm_compute. discriminate.
Qed.

(** ** Image Decoder *)

(** C4.  An image whose payload is absent ([None]) or empty: [save_image]
    returns without an exception, the files are as they were, the one event
    is the warning, and the images and statements after it run on. *)
Theorem C4_empty_payload_skipped w image dir s :
  image_base64 image = None \/ image_base64 image = Some "" ->
  let s1 := mkState (trace s ++ [Log WARNING (MsgImageEmpty (id image))])
                    (files s) (md_handle s) in
  save_image w image dir s = (Ret tt, s1)
  /\ files s1 = files s
  /\ (forall rest, save_images w (image :: rest) dir s = save_images w rest dir s1)
  /\ (forall B (k : M B), bind (save_image w image dir) (fun _ => k) s = k s1).
Proof.
  intros H s1.
  assert (Hf : payload_truthy (image_base64 image) = false)
    by (destruct H as [-> | ->]; reflexivity).
  assert (E : save_image w image dir s = (Ret tt, s1)).
  { unfold save_image. rewrite Hf. py_eval. reflexivity. }
  split; [exact E |]. split; [reflexivity |]. split.
  - intros rest. cbn [save_images]. now rewrite (bind_returns _ _ s tt s1 E).
  - intros B k. now rewrite (bind_returns _ _ s tt s1 E).
Qed.

Lemma C4_witness :
  image_base64 sample_empty_image = Some ""
  /\ save_image sample_world sample_empty_image "out" (init_state ∅)
     = (Ret tt, mkState [Log WARNING (MsgImageEmpty "img-2")] ∅ None).
Proof.
  split; [reflexivity |].
  exact (proj1 (C4_empty_payload_skipped sample_world sample_empty_image "out"
                  (init_state ∅) (or_intror eq_refl))).
Defined.

(** C5.  An image whose payload [P] is not a data URI ([datauri.parse]
    raises [DataURIError]): [save_image] logs the parse error and returns,
    the files are as they were, and the images and statements after it run
    on.  A run whose response holds such an image, and in which nothing else
    fails, goes through all pages to the end of the Markdown file, has the
    parse error in its log and ends with status 0. *)
Theorem C5_malformed_payload_logged w image dir s P :
  image_base64 image = Some P ->
  P <> "" ->
  datauri_parse w P = inl DataURIError ->
  let s1 := mkState (trace s ++ [Log ERROR (MsgImageParseError (id image) DataURIError)])
                    (files s) (md_handle s) in
  (save_image w image dir s = (Ret tt, s1)
   /\ files s1 = files s
   /\ (forall rest, save_images w (image :: rest) dir s = save_images w rest dir s1)
   /\ (forall B (k : M B), bind (save_image w image dir) (fun _ => k) s = k s1))
  /\ (forall (ns : Namespace) fs d r,
        reaches_ocr w ns d r ->
        markdown_io_ok w (mk_path w (output_file ns)) ->
        has_image r image ->
        exists s2 t,
          run w ns fs = (0%Z, s2)
          /\ parse_error_logged image (trace s2)
          /\ trace s2
             = t ++ [Log INFO (MsgMarkdownDone (mk_path w (output_file ns)));
                     Log INFO MsgAllDone; PrintOut "Finished all!"]).
Proof.
  intros HP Hne Hparse s1. apply String.eqb_neq in Hne.
  assert (Ht : payload_truthy (image_base64 image) = true)
    by (rewrite HP; cbn; now rewrite Hne).
  assert (Hp : datauri_parse w (payload_text (image_base64 image)) = inl DataURIError)
    by (now rewrite HP).
  assert (E : save_image w image dir s = (Ret tt, s1))
    by (now apply save_image_malformed).
  split.
  - split; [exact E |]. split; [reflexivity |]. split.
    + intros rest. cbn [save_images]. now rewrite (bind_returns _ _ s tt s1 E).
    + intros B k. now rewrite (bind_returns _ _ s tt s1 E).
  - intros ns fs d r Hr Hio Hi.
    destruct (run_happy_path w ns fs d r Hr Hio) as (s2 & t & E2 & Ht2 & Hl & _).
    exists s2, t. split; [exact E2 |]. split; [now apply Hl | exact Ht2].
Qed.

(** C6.  An image whose payload [P] is a data URI that decodes to the bytes
    [B], on a file system that lets the file be written: after [save_image]
    the file that [output_dir / image.id] names, nothing appended to the
    name, holds exactly [B], whatever it held before; no other file is
    touched.  (A data URI is not the empty string; [save_image] skips an
    empty payload before it parses.) *)
Theorem C6_image_written w image dir s P B :
  image_base64 image = Some P ->
  P <> "" ->
  datauri_parse w P = inr B ->
  let path := path_join w dir (id image) in
  open_wb w path = None ->
  write_bytes w path B = None ->
  exists s1,
    save_image w image dir s = (Ret tt, s1)
    /\ files s1 !! file_of w path = Some B
    /\ files s1 = <[file_of w path := B]> (files s)
    /\ (forall f, f <> file_of w path -> files s1 !! f = files s !! f).
Proof.
  intros HP Hne Hparse path Hop Hwr. apply String.eqb_neq in Hne.
  eexists. split.
  - unfold save_image, payload_truthy, payload_text, do_open_wb, do_write_bytes.
    rewrite HP, Hne. py_eval. rewrite Hparse. py_eval.
    fold path. rewrite Hop. py_eval. rewrite Hwr. py_eval. reflexivity.
  - cbn. rewrite insert_insert_eq. split; [apply lookup_insert_eq |].
    split; [reflexivity |]. intros p Hp. now apply lookup_insert_ne.
Qed.

Lemma sample_reaches_ocr :
  reaches_ocr sample_world sample_file_args
    "https://files.example/file-1?sig=abc" sample_response.
Proof.
  constructor.
  - exists "secret". split; reflexivity.
  - cbn. split; [reflexivity |]. split; [reflexivity |].
    exists (list_byte_of_string "%PDF-1.7"), "file-1". repeat split.
  - discriminate.
  - reflexivity.
Qed.

Lemma C5_witness :
  datauri_parse sample_world "not a data URI" = inl DataURIError
  /\ save_image sample_world sample_bad_image "out" (init_state ∅)
     = (Ret tt,
        mkState [Log ERROR (MsgImageParseError "img-3" DataURIError)] ∅ None)
  /\ exists s2 t,
       run sample_world sample_file_args ∅ = (0%Z, s2)
       /\ parse_error_logged sample_bad_image (trace s2)
       /\ trace s2
          = t ++ [Log INFO (MsgMarkdownDone "out/report.md");
                  Log INFO MsgAllDone; PrintOut "Finished all!"].
Proof.
  split; [reflexivity |].
  pose proof (C5_malformed_payload_logged sample_world sample_bad_image "out"
                (init_state ∅) "not a data URI" eq_refl ltac:(discriminate)
                eq_refl) as [[E _] Hrun].
  split; [exact E |].
  apply (Hrun sample_file_args ∅ "https://files.example/file-1?sig=abc"
           sample_response).
  - exact sample_reaches_ocr.
  - constructor; reflexivity.
  - exists (mkPage "Figure 1"
              (Some [sample_image; sample_empty_image; sample_bad_image])).
    split; cbn; tauto.
Defined.

Lemma C6_witness :
  datauri_parse sample_world "data:,0123456789"
  = inr (list_byte_of_string "0123456789")
  /\ exists s1,
       save_image sample_world sample_image "out"
         (init_state {[ "out/img-1" := list_byte_of_string "old" ]})
       = (Ret tt, s1)
       /\ files s1 !! "out/img-1" = Some (list_byte_of_string "0123456789").
Proof.
  split; [reflexivity |].
  destruct (C6_image_written sample_world sample_image "out"
              (init_state {[ "out/img-1" := list_byte_of_string "old" ]})
              "data:,0123456789" (list_byte_of_string "0123456789")
              eq_refl ltac:(discriminate) eq_refl eq_refl eq_refl)
    as (s1 & E & Hl & _).
  exists s1. split; [exact E | exact Hl].
Defined.

(** ** Orchestrator *)

Lemma run_state w (a : Cmdline) fs : (run w a fs).2 = (main w a (init_state fs)).2.
Proof. unfold run. now destruct (main w a (init_state fs)). Qed.

(** The trace of a run without the API key. *)
Lemma run_missing_key w (ns : Namespace) fs :
  environ w MISTRAL_API_KEY_ENV_VAR = None ->
  run w ns fs
  = (1%Z,
     mkState
       [Log INFO MsgStart;
        Log INFO (MsgArgsParsed (input_source ns) (output_file ns) (url ns));
        Log ERROR (MsgEnvMissing MISTRAL_API_KEY_ENV_VAR);
        PrintErr (ErrSetEnv MISTRAL_API_KEY_ENV_VAR)]
       fs None).
Proof. intros He. unfold run, main. rewrite He. py_eval. reflexivity. Qed.

(** A run whose client cannot be set up. *)
Lemma run_client_error w (ns : Namespace) fs k e :
  environ w MISTRAL_API_KEY_ENV_VAR = Some k ->
  mistral_init w k = Some e ->
  exists t, run w ns fs = (1%Z, mkState t fs None) /\ network_calls t = [].
Proof.
  intros He Hi. unfold run, main. rewrite He. py_eval. rewrite Hi.
  destruct e; py_eval; eexists; split; reflexivity.
Qed.

(** C7.  Without the API key in the environment the process ends with
    status 1; it has logged the error and printed a line on standard error;
    it has called the remote service not once. *)
Theorem C7_missing_key_exits w (ns : Namespace) fs :
  environ w MISTRAL_API_KEY_ENV_VAR = None ->
  run w ns fs
  = (1%Z,
     mkState
       [Log INFO MsgStart;
        Log INFO (MsgArgsParsed (input_source ns) (output_file ns) (url ns));
        Log ERROR (MsgEnvMissing MISTRAL_API_KEY_ENV_VAR);
        PrintErr (ErrSetEnv MISTRAL_API_KEY_ENV_VAR)]
       fs None)
  /\ network_calls (trace (run w ns fs).2) = [].
Proof.
  intros He. pose proof (run_missing_key w ns fs He) as E.
  split; [exact E |]. rewrite E. reflexivity.
Qed.

Lemma C7_witness :
  environ keyless_world MISTRAL_API_KEY_ENV_VAR = None
  /\ (run keyless_world sample_file_args ∅).1 = 1%Z
  /\ network_calls (trace (run keyless_world sample_file_args ∅).2) = [].
Proof.
  split; [reflexivity |].
  destruct (C7_missing_key_exits keyless_world sample_file_args ∅ eq_refl)
    as [E N].
  split; [now rewrite E | exact N].
Defined.

(** C8.  Without [--url], when the input path does not exist or is not a
    regular file, the process ends with status 1 and has called the remote
    service not once (no upload, no signed URL, no OCR); when the client was
    set up and [exists()] gave its answer, the last things the process did
    were to log the error and to print a line on standard error.  (Where
    [exists()] raises, the exception leaves [main]: the status is 1 and the
    interpreter prints the traceback.) *)
Theorem C8_missing_input_exits w (ns : Namespace) fs :
  url ns = false ->
  let p := mk_path w (input_source ns) in
  path_exists w p = inr false \/ path_is_file w p = inr false ->
  (run w ns fs).1 = 1%Z
  /\ network_calls (trace (run w ns fs).2) = []
  /\ (forall k b,
        environ w MISTRAL_API_KEY_ENV_VAR = Some k ->
        mistral_init w k = None ->
        path_exists w p = inr b ->
        run w ns fs
        = (1%Z,
           mkState
             [Log INFO MsgStart;
              Log INFO (MsgArgsParsed (input_source ns) (output_file ns) false);
              Log INFO MsgKeyLoaded;
              Log INFO MsgClientReady;
              Log INFO (MsgUsingFile p);
              Log ERROR (MsgNotAFile p);
              PrintErr (ErrNotAFile p)]
             fs None)).
Proof.
  intros Hu p Hp.
  assert (Hok : forall k b,
        environ w MISTRAL_API_KEY_ENV_VAR = Some k ->
        mistral_init w k = None ->
        path_exists w p = inr b ->
        run w ns fs
        = (1%Z,
           mkState
             [Log INFO MsgStart;
              Log INFO (MsgArgsParsed (input_source ns) (output_file ns) false);
              Log INFO MsgKeyLoaded;
              Log INFO MsgClientReady;
              Log INFO (MsgUsingFile p);
              Log ERROR (MsgNotAFile p);
              PrintErr (ErrNotAFile p)]
             fs None)).
  { intros k b He Hi Hex. unfold run, main. rewrite He. py_eval. rewrite Hi, Hu.
    py_eval. fold p. rewrite Hex. destruct b; py_eval; [| reflexivity].
    destruct Hp as [Hp | Hp]; [congruence |]. rewrite Hp. py_eval. reflexivity. }
  destruct (environ w MISTRAL_API_KEY_ENV_VAR) as [k |] eqn:He.
  - destruct (mistral_init w k) as [e |] eqn:Hi.
    + destruct (run_client_error w ns fs k e He Hi) as (t & E & N). rewrite E.
      split; [reflexivity |]. split; [exact N |].
      intros k' b Hk'. injection Hk' as <-. congruence.
    + destruct (path_exists w p) as [e | b] eqn:Hex.
      * assert (E : run w ns fs
                    = (1%Z,
                       mkState
                         [Log INFO MsgStart;
                          Log INFO (MsgArgsParsed (input_source ns)
                                      (output_file ns) false);
                          Log INFO MsgKeyLoaded;
                          Log INFO MsgClientReady;
                          Log INFO (MsgUsingFile p)]
                         fs None)).
        { unfold run, main. rewrite He. py_eval. rewrite Hi, Hu. py_eval.
          fold p. rewrite Hex. py_eval. reflexivity. }
        rewrite E. split; [reflexivity |]. split; [reflexivity |].
        intros k' b _ _ Hb. discriminate.
      * rewrite (Hok k b eq_refl Hi eq_refl).
        split; [reflexivity |]. split; [reflexivity |].
        intros k' b' _ _ _. reflexivity.
  - rewrite (run_missing_key w ns fs He).
    split; [reflexivity |]. split; [reflexivity |]. intros k' b Hk'. discriminate.
Qed.

Lemma C8_witness :
  path_exists sample_world (mk_path sample_world (input_source sample_missing_args))
  = inr false
  /\ (run sample_world sample_missing_args ∅).1 = 1%Z
  /\ network_calls (trace (run sample_world sample_missing_args ∅).2) = [].
Proof.
  split; [reflexivity |].
  destruct (C8_missing_input_exits sample_world sample_missing_args ∅ eq_refl
              (or_introl eq_refl)) as (E & N & _).
  split; [exact E | exact N].
Defined.

(** C9.  A response without pages is no error: on a file system that lets
    the Markdown file be made, the file that the output path names is made
    and holds nothing, no other file is touched, the closing message is
    printed and the process ends with status 0. *)
Theorem C9_empty_response_succeeds w (ns : Namespace) fs d r :
  reaches_ocr w ns d r ->
  pages r = [] ->
  let out := mk_path w (output_file ns) in
  mkdir_parents w (path_parent w out) = None ->
  open_wt w out = None ->
  close_wt w (file_of w out) = None ->
  exists s t,
    run w ns fs = (0%Z, s)
    /\ files s !! file_of w out = Some []
    /\ files s = <[file_of w out := []]> fs
    /\ trace s
       = t ++ [Log INFO (MsgMarkdownWriting out);
               Log INFO (MsgMarkdownDone out);
               Log INFO MsgAllDone;
               PrintOut "Finished all!"].
Proof.
  intros Hr Hp out Hmk Hop Hcl.
  destruct (main_reaches_save w ns fs d r Hr) as (t & Hm). fold out in Hm.
  exists (mkState (t ++ [Log INFO (MsgMarkdownWriting out);
                         Log INFO (MsgMarkdownDone out);
                         Log INFO MsgAllDone;
                         PrintOut "Finished all!"])
            (<[file_of w out := []]> fs) None), t.
  split; [| split; [apply lookup_insert_eq | split; reflexivity]].
  unfold run. rewrite Hm.
  unfold main_save, create_markdown_file, with_open_wt, do_open_wt, do_close_text.
  rewrite Hp, Hmk, Hop. cbn [length write_pages]. py_eval.
  cbn [f_file f_pending]. rewrite Hcl. py_eval. cbn [exit_status length flush_bytes take fst].
  rewrite <- !app_assoc. reflexivity.
Qed.

Lemma C9_witness :
  reaches_ocr empty_world sample_url_args "https://example.com/doc.pdf"
    (mkResponse [])
  /\ exists s t,
       run empty_world sample_url_args ∅ = (0%Z, s)
       /\ files s !! "out/x.md" = Some []
       /\ files s = <[ "out/x.md" := [] ]> ∅
       /\ trace s
          = t ++ [Log INFO (MsgMarkdownWriting "out/x.md");
                  Log INFO (MsgMarkdownDone "out/x.md");
                  Log INFO MsgAllDone;
                  PrintOut "Finished all!"].
Proof.
  assert (H : reaches_ocr empty_world sample_url_args
                "https://example.com/doc.pdf" (mkResponse [])).
  { constructor; [exists "secret"; split; reflexivity | reflexivity
                 | discriminate | reflexivity]. }
  split; [exact H |].
  exact (C9_empty_response_succeeds empty_world sample_url_args ∅ _ _ H
           eq_refl eq_refl eq_refl eq_refl).
Defined.

(** ** Document Submitter *)

Lemma network_calls_url_events (ns : Namespace) : network_calls (url_events ns) = [].
Proof. unfold url_events. now destruct (startswith_http (input_source ns)). Qed.

Lemma run_url_trace w (ns : Namespace) fs k :
  url ns = true ->
  environ w MISTRAL_API_KEY_ENV_VAR = Some k ->
  mistral_init w k = None ->
  exists l,
    trace (run w ns fs).2 = url_events ns ++ l
    /\ network_calls l = calls_from_locator (input_source ns).
Proof.
  intros Hu He Hi. rewrite run_state, (main_url_mode w ns fs k Hu He Hi).
  apply main_from_locator_calls.
Qed.

Lemma run_file_trace w (ns : Namespace) fs k c fid u :
  url ns = false ->
  environ w MISTRAL_API_KEY_ENV_VAR = Some k ->
  mistral_init w k = None ->
  path_exists w (mk_path w (input_source ns)) = inr true ->
  path_is_file w (mk_path w (input_source ns)) = inr true ->
  open_rb w (mk_path w (input_source ns)) = inr c ->
  files_upload w (path_name w (mk_path w (input_source ns))) c = inr fid ->
  files_get_signed_url w fid = inr u ->
  exists l,
    trace (run w ns fs).2 = file_events w ns c fid u ++ l
    /\ network_calls l = calls_from_locator u.
Proof.
  intros Hu He Hi Hex Hfi Hrd Hup Hsg.
  rewrite run_state, (main_file_mode w ns fs k c fid u Hu He Hi Hex Hfi Hrd Hup Hsg).
  apply main_from_locator_calls.
Qed.

(** C2.  With [--url] the only call to the remote service a run can make is
    the OCR call, with the source of the command line as it is for
    [document_url]: no upload and no signed URL come before it.  With a key
    and a client the call is made for every source but the empty string,
    which [if not document_url] turns down; a source that does not start with
    [http://] or [https://] adds a warning to the log and nothing else. *)
Theorem C2_url_passed_unchanged w (ns : Namespace) fs :
  url ns = true ->
  let t := trace (run w ns fs).2 in
  (network_calls t = []
   \/ network_calls t = [CallOcr OCR_MODEL (input_source ns) true])
  /\ (forall k,
        environ w MISTRAL_API_KEY_ENV_VAR = Some k ->
        mistral_init w k = None ->
        network_calls t
        = (if String.eqb (input_source ns) "" then []
           else [CallOcr OCR_MODEL (input_source ns) true])
        /\ (startswith_http (input_source ns) = false ->
            In (Log WARNING (MsgNotUrlLike (input_source ns))) t)).
Proof.
  intros Hu t.
  assert (Hok : forall k,
        environ w MISTRAL_API_KEY_ENV_VAR = Some k ->
        mistral_init w k = None ->
        network_calls t
        = (if String.eqb (input_source ns) "" then []
           else [CallOcr OCR_MODEL (input_source ns) true])
        /\ (startswith_http (input_source ns) = false ->
            In (Log WARNING (MsgNotUrlLike (input_source ns))) t)).
  { intros k He Hi.
    destruct (run_url_trace w ns fs k Hu He Hi) as (l & Ht & Nl).
    subst t. rewrite Ht. split.
    - rewrite network_calls_app, network_calls_url_events, Nl. reflexivity.
    - intros Hs. apply in_or_app. left. unfold url_events. rewrite Hs.
      cbn. tauto. }
  split; [| exact Hok].
  destruct (environ w MISTRAL_API_KEY_ENV_VAR) as [k |] eqn:He.
  - destruct (mistral_init w k) as [e |] eqn:Hi.
    + destruct (run_client_error w ns fs k e He Hi) as (t' & E & N).
      left. subst t. now rewrite E.
    + destruct (Hok k eq_refl Hi) as [-> _].
      destruct (String.eqb (input_source ns) ""); [now left | now right].
  - left. subst t. now rewrite (run_missing_key w ns fs He).
Qed.

Lemma C2_witness :
  url sample_odd_url_args = true
  /\ network_calls (trace (run sample_world sample_odd_url_args ∅).2)
     = [CallOcr OCR_MODEL "ftp://example.com/doc.pdf" true]
  /\ In (Log WARNING (MsgNotUrlLike "ftp://example.com/doc.pdf"))
       (trace (run sample_world sample_odd_url_args ∅).2).
Proof.
  split; [reflexivity |].
  destruct (C2_url_passed_unchanged sample_world sample_odd_url_args ∅ eq_refl)
    as [_ H].
  destruct (H "secret" eq_refl eq_refl) as [N W].
  split; [exact N | exact (W eq_refl)].
Defined.

(** C3.  Without [--url], with a key and a client, for a path that is an
    existing regular file that can be read, uploaded and signed: the run
    uploads once, under the name of the file and with the bytes read, asks
    once for the signed URL of the identifier the upload returned, and makes
    the OCR call with the signed URL as it was returned; these are all its
    calls to the remote service, in this order.  (A signed URL that is the
    empty string is turned down by [if not document_url] before the OCR
    call.) *)
Theorem C3_file_uploaded_and_signed w (ns : Namespace) fs k c fid u :
  url ns = false ->
  environ w MISTRAL_API_KEY_ENV_VAR = Some k ->
  mistral_init w k = None ->
  let p := mk_path w (input_source ns) in
  path_exists w p = inr true ->
  path_is_file w p = inr true ->
  open_rb w p = inr c ->
  files_upload w (path_name w p) c = inr fid ->
  files_get_signed_url w fid = inr u ->
  network_calls (trace (run w ns fs).2)
  = [CallUpload (path_name w p) c; CallSignedUrl fid]
    ++ (if String.eqb u "" then [] else [CallOcr OCR_MODEL u true]).
Proof.
  intros Hu He Hi p Hex Hfi Hrd Hup Hsg.
  destruct (run_file_trace w ns fs k c fid u Hu He Hi Hex Hfi Hrd Hup Hsg)
    as (l & Ht & Nl).
  rewrite Ht, network_calls_app, Nl. reflexivity.
Qed.

Lemma C3_witness :
  url sample_file_args = false
  /\ network_calls (trace (run sample_world sample_file_args ∅).2)
     = [CallUpload "report.pdf" (list_byte_of_string "%PDF-1.7");
        CallSignedUrl "file-1";
        CallOcr OCR_MODEL "https://files.example/file-1?sig=abc" true].
Proof.
  split; [reflexivity |].
  exact (C3_file_uploaded_and_signed sample_world sample_file_args ∅
           "secret" (list_byte_of_string "%PDF-1.7") "file-1"
           "https://files.example/file-1?sig=abc"
           eq_refl eq_refl eq_refl eq_refl eq_refl eq_refl eq_refl eq_refl).
Defined.

(** * The scenarios of the specification, run *)

(** [report.pdf], three pages, the image [img-1] of ten bytes on the second:
    [out/report.md] holds three blocks of text with two blank lines between
    them, [out/img-1] holds the ten bytes, and the process ends with
    status 0. *)
Example scenario_report_pdf :
  let r := run sample_world sample_file_args ∅ in
  r.1 = 0%Z
  /\ files r.2 !! "out/report.md"
     = Some (encode_utf8
               (String.concat blank_line ["# Report"; "Figure 1"; "The end"]))
  /\ files r.2 !! "out/img-1" = Some (list_byte_of_string "0123456789")
  /\ files r.2 !! "out/img-2" = None
  /\ files r.2 !! "out/img-3" = None.
Proof. vm_compute. repeat split. Qed.

(** [https://example.com/doc.pdf] with [--url]: no upload, and the OCR call
    with that URL. *)
Example scenario_url :
  network_calls (trace (run sample_world sample_url_args ∅).2)
  = [CallOcr "mistral-ocr-latest" "https://example.com/doc.pdf" true].
Proof. vm_compute. reflexivity. Qed.

(** With [--url] and the empty string the run stops at [if not document_url],
    status 1, before the OCR call. *)
Example scenario_empty_url :
  let r := run sample_world (mkArgs "" "out/x.md" true) ∅ in
  r.1 = 1%Z /\ network_calls (trace r.2) = [] /\ files r.2 = ∅.
Proof. vm_compute. repeat split. Qed.

(** Where no image can be written and no payload is understood, the Markdown
    file is the same and the status is still 0. *)
Example scenario_images_fail :
  let r := run hostile_world sample_file_args ∅ in
  r.1 = 0%Z
  /\ map_to_list (files r.2)
     = [("out/report.md",
         encode_utf8
           (String.concat blank_line ["# Report"; "Figure 1"; "The end"]))].
Proof. vm_compute. repeat split. Qed.

(** The image named like the Markdown file, on a machine where every write to
    the text file goes through at once: the image truncates what was written
    and the Markdown file ends as the image. *)
Example scenario_clash_write_through :
  files (run (clash_world write_through clash_payload) sample_file_args ∅).2
    !! "out/report.md"
  = Some (encode_utf8 "0123456789").
Proof. vm_compute. reflexivity. Qed.

(** The image [../out/report.md]: its path [out/../out/report.md] is not the
    path of the Markdown file, the file is, and the Markdown file ends as the
    image with its first two bytes overwritten by the text of the page. *)
Example scenario_clash_detour :
  let w := detour_world at_close clash_payload in
  let r := detour_response clash_payload in
  path_join w "out" (id (detour_image clash_payload)) = "out/../out/report.md"
  /\ ~ no_clash w r "out/report.md"
  /\ files (create_markdown_file w r "out/report.md" (init_state ∅)).2
       !! "out/report.md"
     = Some (encode_utf8 "ab23456789").
Proof.
  split; [reflexivity |]. split; [| reflexivity].
  intros H.
  apply (H (mkPage "ab" (Some [detour_image clash_payload])) (or_introl eq_refl)
           (detour_image clash_payload) (or_introl eq_refl)).
  reflexivity.
Qed.

(** * The rest of the code *)

(** ** Frames through the loop and the saving of the results *)

Section RunFrames.
Context (R : relation State) `{!PreOrder R}.
Context (w : World).
Hypothesis R_log : forall l m, frame R (log l m).
Hypothesis R_open_wb : forall p, frame R (do_open_wb w p).
Hypothesis R_write_bytes : forall p d, frame R (do_write_bytes w p d).
Hypothesis R_open_wt : forall p, frame R (do_open_wt w p).
Hypothesis R_write_text : forall t, frame R (do_write_text w t).
Hypothesis R_close : frame R (do_close_text w).

Lemma with_open_wt_frame {A} p (body : M A) :
frame R body -> frame R (with_open_wt w p body).
Proof.
intros Hb. unfold with_open_wt.
apply frame_bind; [apply _ | apply R_open_wt |]. intros _ s.
specialize (Hb s). pose proof (R_close (body s).2) as Hc.
destruct (body s) as [[a | e | c] s1]; cbn in *.
- unfold bind. destruct (do_close_text w s1) as [[[] | e | c] s2]; cbn in *;
    now transitivity s1.
- destruct (do_close_text w s1) as [[[] | e' | c] s2]; cbn in *;
    now transitivity s1.
- destruct (do_close_text w s1) as [[[] | e' | c'] s2]; cbn in *;
    now transitivity s1.
Qed.

Lemma write_page_frame dir n i page : frame R (write_page w dir n i page).
Proof.
unfold write_page.
apply frame_bind; [apply _ | apply R_log | intros _].
apply frame_bind; [apply _ | apply R_write_text | intros _].
apply frame_bind; [apply _ | | intros _].
{ apply frame_if; [apply R_write_text | now apply frame_ret]. }
apply frame_if; [| apply R_log].
apply save_images_frame; [apply _ | apply R_log |].
intros image _. split; auto.
Qed.

Lemma write_pages_frame dir n i ps : frame R (write_pages w dir n i ps).
Proof.
revert i. induction ps as [| page rest IH]; intros i; cbn [write_pages].
- now apply frame_ret.
- apply frame_bind; [apply _ | apply write_page_frame | intros _; apply IH].
Qed.

Lemma create_markdown_file_frame r out : frame R (create_markdown_file w r out).
Proof.
unfold create_markdown_file.
apply frame_bind; [apply _ | apply R_log | intros _].
apply frame_bind; [apply _ | now apply frame_check | intros _].
apply frame_try_except; [apply _ | |].
- apply frame_bind; [apply _ | | intros _; apply R_log].
  apply with_open_wt_frame, write_pages_frame.
- intros e.
  destruct e;
    (apply frame_bind;
     [apply _ | apply R_log | intros _; now apply frame_sys_exit]).
Qed.
End RunFrames.

#[local] Instance adds_preorder P : PreOrder (adds P).
Proof.
  split.
  - intros s. exists []. split; [now rewrite app_nil_r | constructor].
  - intros s1 s2 s3 (l1 & H1 & N1) (l2 & H2 & N2). exists (l1 ++ l2). split.
    + rewrite H2, H1. now rewrite <- app_assoc.
    + apply Forall_app. now split.
Qed.

#[local] Instance keeps_file_preorder out : PreOrder (keeps_file out).
Proof.
  split; unfold keeps_file; [intros s | intros s1 s2 s3 H1 H2]; auto.
Qed.

(** What leaves the trace as it is adds nothing to it. *)
Lemma adds_same_trace P (s s' : State) : trace s' = trace s -> adds P s s'.
Proof. intros H. exists []. split; [now rewrite app_nil_r | constructor]. Qed.

Lemma emit_adds (P : event -> Prop) e : P e -> frame (adds P) (emit e).
Proof. intros H s. exists [e]. split; [reflexivity | now repeat constructor]. Qed.

Lemma log_adds_log l m : frame (adds is_log) (log l m).
Proof. apply frame_log; [apply _ | now apply emit_adds]. Qed.

(** [create_markdown_file] adds nothing but lines of the log to the trace:
    it prints nothing and calls nobody. *)
Lemma create_markdown_file_adds_log w r out :
  frame (adds is_log) (create_markdown_file w r out).
Proof.
  apply create_markdown_file_frame; [apply _ | apply log_adds_log | ..].
  - intros p s. apply adds_same_trace. unfold do_open_wb, bind, check.
    now destruct (open_wb w p).
  - intros p d s. apply adds_same_trace. unfold do_write_bytes.
    now destruct (write_bytes w p d).
  - intros p s. apply adds_same_trace. unfold do_open_wt, bind, check.
    now destruct (open_wt w p).
  - intros t s. apply adds_same_trace. unfold do_write_text.
    destruct (md_handle s) as [h |]; [| reflexivity].
    cbv zeta. now destruct (flush_bytes _ _ _).
  - intros s. apply adds_same_trace. unfold do_close_text.
    destruct (md_handle s) as [h |]; [| reflexivity].
    now destruct (close_wt w (f_file h)).
Qed.

(** No step of [create_markdown_file] removes a file. *)
Lemma flush_bytes_keeps (fs : gmap string (list byte)) h k out :
  is_Some (fs !! out) -> is_Some ((flush_bytes fs h k).1 !! out).
Proof.
  intros H. unfold flush_bytes. destruct (take k (f_pending h)); [exact H |].
  cbn. apply lookup_insert_is_Some. destruct (decide (f_file h = out)); auto.
Qed.

(** ** How computations end *)

Lemma exits_one_ret {A} (a : A) : exits_one (ret a).
Proof. intros s. exact I. Qed.

Lemma exits_one_raise {A} e : exits_one (raise (A := A) e).
Proof. intros s. exact I. Qed.

Lemma exits_one_sys_exit {A} : exits_one (sys_exit (A := A) 1).
Proof. intros s. reflexivity. Qed.

Lemma exits_one_emit e : exits_one (emit e).
Proof. intros s. exact I. Qed.

Lemma exits_one_log l m : exits_one (log l m).
Proof. unfold log. destruct (_ <=? _)%nat; [apply exits_one_emit | apply exits_one_ret]. Qed.

Lemma exits_one_check r : exits_one (check r).
Proof. destruct r; [apply exits_one_raise | apply exits_one_ret]. Qed.

Lemma exits_one_bind {A B} (m : M A) (k : A -> M B) :
  exits_one m -> (forall a, exits_one (k a)) -> exits_one (bind m k).
Proof.
  intros Hm Hk s. unfold bind. specialize (Hm s).
  destruct (m s) as [[a | e | c] s1]; cbn in *; auto. apply Hk.
Qed.

Lemma exits_one_try_except {A} (m : M A) (h : exn -> M A) :
  exits_one m -> (forall e, exits_one (h e)) -> exits_one (try_except m h).
Proof.
  intros Hm Hh s. unfold try_except. specialize (Hm s).
  destruct (m s) as [[a | e | c] s1]; cbn in *; auto. apply Hh.
Qed.

Lemma exits_one_if {A} (b : bool) (m1 m2 : M A) :
  exits_one m1 -> exits_one m2 -> exits_one (if b then m1 else m2).
Proof. destruct b; auto. Qed.

Lemma exits_one_do_write_text w t : exits_one (do_write_text w t).
Proof.
  intros s. unfold do_write_text. destruct (md_handle s) as [h |]; [| exact I].
  cbv zeta. destruct (flush_bytes _ _ _).
  now destruct (write_text w (f_file h) t).
Qed.

Lemma exits_one_do_close_text w : exits_one (do_close_text w).
Proof.
  intros s. unfold do_close_text. destruct (md_handle s) as [h |]; [| exact I].
  destruct (close_wt w (f_file h)); exact I.
Qed.

Lemma exits_one_save_images w imgs dir : exits_one (save_images w imgs dir).
Proof. intros s. now rewrite save_images_returns. Qed.

Lemma exits_one_write_pages w dir n i ps : exits_one (write_pages w dir n i ps).
Proof.
  revert i. induction ps as [| page rest IH]; intros i; cbn [write_pages].
  - apply exits_one_ret.
  - apply exits_one_bind; [| intros _; apply IH]. unfold write_page.
    apply exits_one_bind; [apply exits_one_log | intros _].
    apply exits_one_bind; [apply exits_one_do_write_text | intros _].
    apply exits_one_bind; [| intros _].
    + apply exits_one_if; [apply exits_one_do_write_text | apply exits_one_ret].
    + apply exits_one_if; [apply exits_one_save_images | apply exits_one_log].
Qed.

Lemma exits_one_with_open_wt {A} w p (body : M A) :
  exits_one body -> exits_one (with_open_wt w p body).
Proof.
  intros Hb. unfold with_open_wt.
  apply exits_one_bind.
  { unfold do_open_wt. apply exits_one_bind; [apply exits_one_check |].
    intros _ s. exact I. }
  intros _ s. specialize (Hb s). pose proof (exits_one_do_close_text w (body s).2) as Hc.
  destruct (body s) as [[a | e | c] s1]; cbn in *.
  - unfold bind. destruct (do_close_text w s1) as [[[] | e | c] s2]; cbn in *; auto.
  - destruct (do_close_text w s1) as [[[] | e' | c] s2]; cbn in *; auto.
  - destruct (do_close_text w s1) as [[[] | e' | c'] s2]; cbn in *; auto.
Qed.

(** [create_markdown_file] returns, raises (when the directory cannot be
    made) or leaves with status 1. *)
Lemma exits_one_create_markdown_file w r out :
  exits_one (create_markdown_file w r out).
Proof.
  unfold create_markdown_file.
  apply exits_one_bind; [apply exits_one_log | intros _].
  apply exits_one_bind; [apply exits_one_check | intros _].
  apply exits_one_try_except.
  - apply exits_one_bind; [| intros _; apply exits_one_log].
    apply exits_one_with_open_wt, exits_one_write_pages.
  - intros e.
    destruct e;
      (apply exits_one_bind; [apply exits_one_log | intros _; apply exits_one_sys_exit]).
Qed.

(** When [create_markdown_file] returns, the Markdown file is there. *)
Lemma create_markdown_file_returns_file w r out s s1 :
  create_markdown_file w r out s = (Ret tt, s1) ->
  is_Some (files s1 !! file_of w out).
Proof.
  unfold create_markdown_file.
  erewrite bind_returns by reflexivity.
  destruct (mkdir_parents w (path_parent w out)) as [e |]; [discriminate |].
  erewrite bind_returns by reflexivity.
  unfold try_except, with_open_wt, do_open_wt.
  destruct (open_wt w out) as [e |] eqn:Hop.
  { py_eval. destruct e; py_eval; discriminate. }
  unfold bind at 1. unfold bind at 1. cbn [check ret bind].
  unfold bind at 1. cbn [ret].
  set (f := file_of w out).
  match goal with
  | |- context [write_pages w ?d ?n 0 ?ps ?s0] =>
      pose proof (write_pages_frame (keeps_file f) w) as Hk;
      specialize (Hk ltac:(intros l m; apply frame_log; [apply _ | intros ? H; exact H]));
      set (st0 := s0)
  end.
  assert (H0 : is_Some (files st0 !! f)).
  { subst st0. cbn. rewrite lookup_insert_eq. eauto. }
  assert (Hloop : forall d n i ps, frame (keeps_file f) (write_pages w d n i ps)).
  { intros d n i ps. apply Hk.
    - intros q s' H. unfold do_open_wb, bind, check.
      destruct (open_wb w q); cbn; [exact H |].
      apply lookup_insert_is_Some. destruct (decide (file_of w q = f)); auto.
    - intros q b s' H. unfold do_write_bytes.
      destruct (write_bytes w q b); cbn;
        (apply lookup_insert_is_Some; destruct (decide (file_of w q = f)); auto).
    - intros t s' H. unfold do_write_text.
      destruct (md_handle s') as [h |]; [| exact H]. cbv zeta.
      match goal with
      | |- context [flush_bytes ?fs ?h1 ?k] =>
          pose proof (flush_bytes_keeps fs h1 k f H) as K;
          destruct (flush_bytes fs h1 k)
      end.
      exact K. }
  clear Hk.
  match goal with
  | |- context [write_pages w ?d ?n 0 ?ps st0] =>
      pose proof (Hloop d n 0%nat ps st0 H0) as H1;
      destruct (write_pages w d n 0 ps st0) as [[[] | e | c] st1]
  end; cbn [snd] in H1.
  - unfold bind at 1, do_close_text.
    destruct (md_handle st1) as [h |].
    + destruct (close_wt w (f_file h)) as [e |].
      * destruct e; py_eval; discriminate.
      * py_eval. intros E. injection E as <-. cbn. now apply flush_bytes_keeps.
    + py_eval. intros E. injection E as <-. exact H1.
  - destruct (do_close_text w st1) as [[[] | e' | c] st2];
      [destruct e | destruct e' | destruct e]; py_eval; discriminate.
  - destruct (do_close_text w st1) as [[[] | e' | c'] st2];
      [| destruct e' |]; py_eval; discriminate.
Qed.

(** ** The ways through main *)

(** Saving the results ends in one of two ways: [main] returns, the Markdown
    file is there and the closing message is the last thing printed; or the
    process leaves with status 1 having printed nothing.  Either way it has
    added nothing but lines of the log in between. *)
Lemma main_save_cases w r out s :
  (exists s1 l,
     main_save w r out s = (Ret tt, s1)
     /\ trace s1 = trace s ++ l ++ [Log INFO MsgAllDone; PrintOut "Finished all!"]
     /\ Forall is_log l
     /\ is_Some (files s1 !! file_of w out))
  \/ (exists s1 l,
        main_save w r out s = (Exit 1%Z, s1)
        /\ trace s1 = trace s ++ l
        /\ Forall is_log l).
Proof.
  pose proof (create_markdown_file_adds_log w r out s) as (l & Hl & Fl).
  pose proof (exits_one_create_markdown_file w r out s) as Hx.
  unfold main_save. py_eval.
  destruct (create_markdown_file w r out s) as [[[] | e | c] s1] eqn:E;
    cbn [fst snd] in *.
  - left. py_eval. eexists. exists l. split; [reflexivity |]. cbn [trace files].
    split; [rewrite Hl; now rewrite <- !app_assoc |]. split; [exact Fl |].
    now apply (create_markdown_file_returns_file w r out s).
  - right. py_eval. eexists. exists (l ++ [Log ERROR (MsgSaveError e)]).
    split; [reflexivity |]. cbn [trace]. split; [rewrite Hl; now rewrite <- app_assoc |].
    apply Forall_app. split; [exact Fl | now repeat constructor].
  - right. cbn in Hx. subst c. exists s1, l. auto.
Qed.

(** From [if not document_url] on there are three ways: the locator is
    empty, the OCR call fails, or the results are saved. *)
Lemma main_from_locator_cases w out d s :
  (d = ""
   /\ main_from_locator w out d s
      = (Exit 1%Z,
         mkState (trace s ++ [Log ERROR MsgNoDocumentUrl]) (files s) (md_handle s)))
  \/ (d <> ""
      /\ exists e,
           ocr_process w OCR_MODEL d true = inl e
           /\ main_from_locator w out d s
              = (Exit 1%Z,
                 mkState (trace s ++ [Log INFO (MsgOcrStart OCR_MODEL);
                                      CallOcr OCR_MODEL d true;
                                      Log ERROR (MsgOcrError e)])
                         (files s) (md_handle s)))
  \/ (d <> ""
      /\ exists r,
           ocr_process w OCR_MODEL d true = inr r
           /\ main_from_locator w out d s
              = main_save w r out
                  (mkState (trace s ++ [Log INFO (MsgOcrStart OCR_MODEL);
                                        CallOcr OCR_MODEL d true;
                                        Log INFO (MsgOcrDone (length (pages r)))])
                           (files s) (md_handle s))).
Proof.
  unfold main_from_locator.
  destruct (String.eqb_spec d "") as [-> | Hd].
  - left. split; [reflexivity |]. py_eval. reflexivity.
  - right. destruct (ocr_process w OCR_MODEL d true) as [e | r] eqn:Ho.
    + left. split; [exact Hd |]. exists e. split; [reflexivity |].
      py_eval. now rewrite <- !app_assoc.
    + right. split; [exact Hd |]. exists r. split; [reflexivity |].
      unfold bind at 1. cbn [ret]. unfold bind at 1, try_except.
      py_eval. now rewrite <- !app_assoc.
Qed.

(** Up to [if not document_url], on a command line that parses, there are
    three ways: the process has left with status 1; or [exists()] or
    [is_file()] on the input path has raised and the exception leaves
    [main]; or [document_url] is set.  No file is written by then, the
    script has printed nothing on standard output, and the calls made are in
    the trace. *)
Lemma main_cases w (ns : Namespace) fs :
  (exists o t,
     main w ns (init_state fs) = (o, mkState t fs None)
     /\ (o = Exit 1%Z \/ exists e, o = Raise e /\ input_check_raises w ns e)
     /\ Forall not_a_print t
     /\ call_shape w ns (network_calls t))
  \/ (exists d t,
        main w ns (init_state fs)
        = main_from_locator w (mk_path w (output_file ns)) d (mkState t fs None)
        /\ Forall not_a_print t
        /\ located w ns d (network_calls t)).
Proof.
  destruct (environ w MISTRAL_API_KEY_ENV_VAR) as [k |] eqn:He.
  2:{ left. eexists _, _. split.
      - unfold main. rewrite He. py_eval. reflexivity.
      - split; [now left |]. split; [repeat constructor | constructor]. }
  destruct (mistral_init w k) as [e |] eqn:Hi.
  { left. unfold main. rewrite He. py_eval. rewrite Hi.
    destruct e; py_eval; eexists _, _; (split; [reflexivity |]);
      (split; [now left |]); (split; [repeat constructor | constructor]). }
  destruct (url ns) eqn:Hu.
  { right. exists (input_source ns), (url_events ns). split; [| split].
    - now apply (main_url_mode w ns fs k).
    - unfold url_events. destruct (startswith_http _); repeat constructor.
    - left. split; [exact Hu |]. split; [reflexivity |].
      apply network_calls_url_events. }
  set (p := mk_path w (input_source ns)).
  destruct (path_exists w p) as [e | [|]] eqn:Hex.
  { left. unfold main. rewrite He. py_eval. rewrite Hi, Hu. py_eval. fold p.
    rewrite Hex. py_eval. eexists _, _. split; [reflexivity |].
    split; [right; exists e; split; [reflexivity |]; split; [exact Hu | now left] |].
    split; [repeat constructor | constructor]. }
  2:{ left. unfold main. rewrite He. py_eval. rewrite Hi, Hu. py_eval. fold p.
      rewrite Hex. py_eval. eexists _, _. split; [reflexivity |].
      split; [now left |]. split; [repeat constructor | constructor]. }
  destruct (path_is_file w p) as [e | [|]] eqn:Hfi.
  { left. unfold main. rewrite He. py_eval. rewrite Hi, Hu. py_eval. fold p.
    rewrite Hex. py_eval. rewrite Hfi. py_eval.
    eexists _, _. split; [reflexivity |].
    split; [right; exists e; split; [reflexivity |]; split; [exact Hu | now right] |].
    split; [repeat constructor | constructor]. }
  2:{ left. unfold main. rewrite He. py_eval. rewrite Hi, Hu. py_eval. fold p.
      rewrite Hex. py_eval. rewrite Hfi. py_eval.
      eexists _, _. split; [reflexivity |].
      split; [now left |]. split; [repeat constructor | constructor]. }
  destruct (open_rb w p) as [e | c] eqn:Hrd.
  { left. unfold main. rewrite He. py_eval. rewrite Hi, Hu. py_eval. fold p.
    rewrite Hex. py_eval. rewrite Hfi. py_eval. rewrite Hrd.
    destruct e; py_eval; eexists _, _; (split; [reflexivity |]);
      (split; [now left |]); (split; [repeat constructor | constructor]). }
  destruct (files_upload w (path_name w p) c) as [e | fid] eqn:Hup.
  { left. unfold main. rewrite He. py_eval. rewrite Hi, Hu. py_eval. fold p.
    rewrite Hex. py_eval. rewrite Hfi. py_eval. rewrite Hrd. py_eval. rewrite Hup.
    destruct e; py_eval; eexists _, _; (split; [reflexivity |]);
      (split; [now left |]);
      (split; [repeat constructor | now apply (shape_upload w ns c)]). }
  destruct (files_get_signed_url w fid) as [e | d] eqn:Hsg.
  { left. unfold main. rewrite He. py_eval. rewrite Hi, Hu. py_eval. fold p.
    rewrite Hex. py_eval. rewrite Hfi. py_eval. rewrite Hrd. py_eval.
    rewrite Hup. py_eval. rewrite Hsg.
    destruct e; py_eval; eexists _, _; (split; [reflexivity |]);
      (split; [now left |]);
      (split; [repeat constructor | now apply (shape_signed w ns c fid)]). }
  right. exists d, (file_events w ns c fid d). split; [| split].
  - now apply (main_file_mode w ns fs k c fid d).
  - repeat constructor.
  - right. split; [exact Hu |]. exists c, fid. repeat split; auto.
Qed.

Lemma is_log_network_calls l : Forall is_log l -> network_calls l = [].
Proof.
  induction 1 as [| e l He Hl IH]; [reflexivity |].
  destruct e; try destruct He. exact IH.
Qed.

Lemma is_log_not_a_print l : Forall is_log l -> Forall not_a_print l.
Proof.
  intros H. eapply Forall_impl; [exact H |].
  intros e He. destruct e; try destruct He. exact I.
Qed.

Lemma located_shape w (ns : Namespace) d calls :
  located w ns d calls -> call_shape w ns calls.
Proof.
  intros [(Hu & -> & ->) | (Hu & c & fid & Hrd & Hup & Hsg & ->)].
  - constructor.
  - now apply (shape_signed w ns c fid).
Qed.

Lemma located_shape_ocr w (ns : Namespace) d calls :
  located w ns d calls -> d <> "" ->
  call_shape w ns (calls ++ [CallOcr OCR_MODEL d true]).
Proof.
  intros [(Hu & -> & ->) | (Hu & c & fid & Hrd & Hup & Hsg & ->)] Hd.
  - now apply shape_url_ocr.
  - now apply (shape_file_ocr w ns c fid d).
Qed.

(** Every run on a command line that parses, at a glance: the calls it made
    have the shape of [call_shape]; the script printed nothing on standard
    output and the run ended with status 1, having touched no file unless the
    OCR call had returned, or with an exception of [exists()] or [is_file()]
    and no file touched; or [main] returned after an OCR call that returned,
    with the Markdown file there and the closing message the one [print] on
    standard output. *)
Lemma main_all w (ns : Namespace) fs :
  exists o s,
    main w ns (init_state fs) = (o, s)
    /\ call_shape w ns (network_calls (trace s))
    /\ ((Forall not_a_print (trace s)
         /\ ((o = Exit 1%Z
              /\ (files s = fs
                  \/ exists d r,
                       ocr_process w OCR_MODEL d true = inr r
                       /\ In (CallOcr OCR_MODEL d true) (trace s)))
             \/ (exists e, o = Raise e /\ input_check_raises w ns e
                           /\ files s = fs)))
        \/ (o = Ret tt
            /\ (exists t, trace s = t ++ [PrintOut "Finished all!"]
                          /\ Forall not_a_print t)
            /\ is_Some (files s !! file_of w (mk_path w (output_file ns)))
            /\ exists d r,
                 ocr_process w OCR_MODEL d true = inr r
                 /\ In (CallOcr OCR_MODEL d true) (trace s))).
Proof.
  destruct (main_cases w ns fs)
    as [(o & t & E & Ho & Hp & Hc) | (d & t & E & Hp & Hc)].
  { exists o, (mkState t fs None). split; [exact E |].
    split; [exact Hc |]. left. split; [exact Hp |]. cbn.
    destruct Ho as [-> | (e & -> & He)]; [left; auto | right; eauto]. }
  set (out := mk_path w (output_file ns)) in *.
  destruct (main_from_locator_cases w out d (mkState t fs None))
    as [(Hd & E1) | [(Hd & e & Ho & E1) | (Hd & r & Ho & E1)]];
    cbn [trace files md_handle] in E1.
  - eexists _, _. split; [rewrite E; exact E1 |]. cbn [trace files].
    split; [| left; split; [| left; split; [reflexivity | now left]]].
    + rewrite network_calls_app. cbn. rewrite app_nil_r.
      now apply (located_shape w ns d).
    + apply Forall_app. split; [exact Hp | repeat constructor].
  - eexists _, _. split; [rewrite E; exact E1 |]. cbn [trace files].
    split; [| left; split; [| left; split; [reflexivity | now left]]].
    + rewrite network_calls_app. cbn. now apply located_shape_ocr.
    + apply Forall_app. split; [exact Hp | repeat constructor].
  - set (s0 := mkState (t ++ _) fs None) in E1.
    assert (Hs0 : call_shape w ns (network_calls (trace s0))).
    { subst s0. cbn [trace]. rewrite network_calls_app. cbn.
      now apply located_shape_ocr. }
    assert (Hin : In (CallOcr OCR_MODEL d true) (trace s0)).
    { subst s0. cbn [trace]. apply in_or_app. right. cbn. tauto. }
    assert (Hp0 : Forall not_a_print (trace s0)).
    { subst s0. cbn [trace]. apply Forall_app. split; [exact Hp | repeat constructor]. }
    destruct (main_save_cases w r out s0)
      as [(s1 & l & E2 & Ht & Fl & Hf) | (s1 & l & E2 & Ht & Fl)].
    + exists (Ret tt), s1. split; [rewrite E, E1; exact E2 |]. split.
      * rewrite Ht, !network_calls_app, (is_log_network_calls l Fl). cbn.
        now rewrite !app_nil_r.
      * right. split; [reflexivity |]. split; [| split; [exact Hf |]].
        -- exists (trace s0 ++ l ++ [Log INFO MsgAllDone]). split.
           ++ rewrite Ht. now rewrite <- !app_assoc.
           ++ apply Forall_app. split; [exact Hp0 |].
              apply Forall_app. split; [now apply is_log_not_a_print |].
              repeat constructor.
        -- exists d, r. split; [exact Ho |]. rewrite Ht. apply in_or_app. now left.
    + exists (Exit 1%Z), s1. split; [rewrite E, E1; exact E2 |]. split.
      * rewrite Ht, network_calls_app, (is_log_network_calls l Fl).
        now rewrite app_nil_r.
      * left. split.
        -- rewrite Ht. apply Forall_app. split; auto using is_log_not_a_print.
        -- left. split; [reflexivity |]. right. exists d, r.
           split; [exact Ho |]. rewrite Ht. apply in_or_app. now left.
Qed.

(** ** Properties of every run *)

(** How a run can end.  [main] returns, or leaves through [sys.exit] with
    status 1; the statuses 0 and 2 of [sys.exit] are those of [argparse], for
    the help and for a command line it turns down.  The one exception that
    leaves [main] is that of [exists()] or [is_file()] on the input path,
    which are outside every [try]: every other exception is caught ([mkdir]
    in [create_markdown_file], outside its [try], by the last [try] of
    [main]).  And when the key is there and the client is built, an exception
    of [exists()] or [is_file()] does leave [main].  So the status of the
    process is 0, 1 or 2. *)
Theorem main_ends_well w (a : Cmdline) fs :
  let o := (main w a (init_state fs)).1 in
  (o = Ret tt
   \/ o = Exit 1%Z
   \/ (o = Exit 0%Z /\ a = ArgHelp)
   \/ (o = Exit 2%Z /\ a = ArgError)
   \/ (exists e ns, o = Raise e /\ a = Parsed ns /\ input_check_raises w ns e))
  /\ (forall ns e k,
        a = Parsed ns ->
        environ w MISTRAL_API_KEY_ENV_VAR = Some k ->
        mistral_init w k = None ->
        input_check_raises w ns e ->
        o = Raise e)
  /\ ((run w a fs).1 = 0%Z \/ (run w a fs).1 = 1%Z \/ (run w a fs).1 = 2%Z).
Proof.
  intros o. subst o. split; [| split].
  - destruct a as [ns | |]; [| right; right; right; left; now split
                               | right; right; left; now split].
    destruct (main_all w ns fs)
      as (o & s & E & _ & [(_ & [(-> & _) | (e & -> & He & _)]) | (-> & _)]);
      rewrite E; cbn; auto.
    right. right. right. right. now exists e, ns.
  - intros ns e k -> He Hi (Hu & Hr). unfold main. rewrite He. py_eval.
    rewrite Hi, Hu. py_eval.
    destruct Hr as [Hex | (Hex & Hfi)]; rewrite Hex; py_eval;
      [reflexivity | rewrite Hfi; reflexivity].
  - unfold run. destruct a as [ns | |]; [| right; now right | now left].
    destruct (main_all w ns fs)
      as (o & s & E & _ & [(_ & [(-> & _) | (e & -> & _)]) | (-> & _)]);
      rewrite E; cbn; auto.
Qed.

(** [Finished all!] is printed exactly by the runs in which [main] returns.
    These end with status 0, and the one other way to status 0 is the help
    of [argparse].  When it is printed, it is the last event of the run and
    the one [print] of the script on standard output (the lines of the log,
    which the handler sends there too, come before it). *)
Theorem finished_iff_success w (a : Cmdline) fs :
  ((main w a (init_state fs)).1 = Ret tt
   <-> In (PrintOut "Finished all!") (trace (run w a fs).2))
  /\ ((run w a fs).1 = 0%Z
      <-> (main w a (init_state fs)).1 = Ret tt \/ a = ArgHelp)
  /\ ((main w a (init_state fs)).1 = Ret tt ->
      exists t, trace (run w a fs).2 = t ++ [PrintOut "Finished all!"]
                /\ Forall not_a_print t).
Proof.
  unfold run. destruct a as [ns | |].
  2:{ cbn. split; [split; [discriminate | intros [E | [E | []]]; discriminate] |].
      split; [split; [discriminate | intros [E | E]; discriminate] | discriminate]. }
  2:{ cbn. split; [split; [discriminate | intros [E | [E | []]]; discriminate] |].
      split; [split; [now right | reflexivity] | discriminate]. }
  destruct (main_all w ns fs) as (o & s & E & _ & H).
  rewrite E. cbn [fst snd].
  destruct H as [(Hp & [(-> & _) | (e & -> & _)]) | (-> & (t & Ht & Hp) & _)];
    cbn [exit_status].
  - split; [split; [discriminate |] |].
    + intros Hin. rewrite List.Forall_forall in Hp. destruct (Hp _ Hin).
    + split; [split; [discriminate | intros [E' | E']; discriminate]
             | discriminate].
  - split; [split; [discriminate |] |].
    + intros Hin. rewrite List.Forall_forall in Hp. destruct (Hp _ Hin).
    + split; [split; [discriminate | intros [E' | E']; discriminate]
             | discriminate].
  - split; [split |].
    + intros _. rewrite Ht. apply in_or_app. right. now left.
    + reflexivity.
    + split; [split; [now left | reflexivity] |]. intros _. now exists t.
Qed.

(** The calls of a run to the remote service: at most one upload, one
    request for a signed URL and one OCR call, in this order; the upload
    sends the bytes read under the name of the file, the signed URL is asked
    for the identifier the upload returned, and the OCR call is on the
    constant model, asks for the images, and takes the signed URL (or, with
    [--url], the source of the command line) as it is.  No call is
    repeated. *)
Theorem calls_in_order w (ns : Namespace) fs :
  call_shape w ns (network_calls (trace (run w ns fs).2)).
Proof.
  destruct (main_all w ns fs) as (o & s & E & Hc & _).
  unfold run. now rewrite E.
Qed.

(** A run on a command line that parses, when it ends with status 0, has
    left a Markdown file, the file that the output path names, and has made
    an OCR call that returned. *)
Theorem success_has_markdown w (ns : Namespace) fs :
  (run w ns fs).1 = 0%Z ->
  is_Some (files (run w ns fs).2 !! file_of w (mk_path w (output_file ns)))
  /\ exists d r,
       ocr_process w OCR_MODEL d true = inr r
       /\ In (CallOcr OCR_MODEL d true) (trace (run w ns fs).2).
Proof.
  destruct (main_all w ns fs) as (o & s & E & _ & H).
  unfold run. rewrite E. cbn [fst snd].
  destruct H as [(_ & [(-> & _) | (e & -> & _)]) | (-> & _ & Hf & Ho)];
    cbn [exit_status]; [discriminate | discriminate | auto].
Qed.

(** A run touches no file before the OCR call has returned: if the files are
    not as they were, the run made the OCR call and got a response. *)
Theorem files_written_only_after_ocr w (ns : Namespace) fs :
  files (run w ns fs).2 <> fs ->
  exists d r,
    ocr_process w OCR_MODEL d true = inr r
    /\ In (CallOcr OCR_MODEL d true) (trace (run w ns fs).2).
Proof.
  destruct (main_all w ns fs) as (o & s & E & _ & H).
  unfold run. rewrite E. cbn [fst snd]. intros Hne.
  destruct H as [(_ & [(_ & [Hf | Ho]) | (e & _ & _ & Hf)]) | (_ & _ & _ & Ho)];
    auto; contradiction.
Qed.

Lemma main_ends_well_witness :
  input_check_raises unsearchable_world sample_file_args IOError
  /\ (main unsearchable_world sample_file_args (init_state ∅)).1 = Raise IOError
  /\ (run unsearchable_world sample_file_args ∅).1 = 1%Z
  /\ (run sample_world ArgError ∅).1 = 2%Z.
Proof.
  assert (H : input_check_raises unsearchable_world sample_file_args IOError)
    by (split; [reflexivity | now left]).
  split; [exact H |]. split; [| split; reflexivity].
  exact (proj1 (proj2 (main_ends_well unsearchable_world sample_file_args ∅))
           sample_file_args IOError "secret" eq_refl eq_refl eq_refl H).
Defined.

Lemma success_has_markdown_witness :
  (run sample_world sample_file_args ∅).1 = 0%Z
  /\ is_Some (files (run sample_world sample_file_args ∅).2 !! "out/report.md").
Proof.
  assert (H : (run sample_world sample_file_args ∅).1 = 0%Z) by reflexivity.
  split; [exact H |].
  exact (proj1 (success_has_markdown sample_world sample_file_args ∅ H)).
Defined.

Lemma finished_iff_success_witness :
  (main sample_world sample_file_args (init_state ∅)).1 = Ret tt
  /\ In (PrintOut "Finished all!") (trace (run sample_world sample_file_args ∅).2)
  /\ (run sample_world ArgHelp ∅).1 = 0%Z.
Proof.
  assert (H : (main sample_world sample_file_args (init_state ∅)).1 = Ret tt)
    by reflexivity.
  split; [exact H |]. split.
  - exact (proj1 (proj1 (finished_iff_success sample_world sample_file_args ∅)) H).
  - exact (proj2 (proj1 (proj2 (finished_iff_success sample_world ArgHelp ∅)))
             (or_intror eq_refl)).
Defined.

Lemma files_written_only_after_ocr_witness :
  files (run sample_world sample_file_args ∅).2 <> ∅
  /\ exists d r,
       ocr_process sample_world OCR_MODEL d true = inr r
       /\ In (CallOcr OCR_MODEL d true)
            (trace (run sample_world sample_file_args ∅).2).
Proof.
  assert (H : files (run sample_world sample_file_args ∅).2 <> ∅).
  { intros E. apply (f_equal (fun m => m !! "out/img-1")) in E.
    vm_compute in E. discriminate. }
  split; [exact H |].
  exact (files_written_only_after_ocr sample_world sample_file_args ∅ H).
Defined.

(** ** save_image *)

Lemma flush_bytes_other (fs : gmap string (list byte)) h k p :
  p <> f_file h -> (flush_bytes fs h k).1 !! p = fs !! p.
Proof.
  intros Hp. unfold flush_bytes. destruct (take k (f_pending h)); [reflexivity |].
  cbn. now apply lookup_insert_ne.
Qed.

(** What [save_image] does for an image that is written. *)
Lemma save_image_written w image dir B s :
  image_written w dir image B ->
  save_image w image dir s
  = (Ret tt,
     mkState (trace s ++ [Log INFO (MsgImageWriting (path_join w dir (id image)))])
             (<[file_of w (path_join w dir (id image)) := B]> (files s))
             (md_handle s)).
Proof.
  intros (P & HP & Hne & Hparse & Hop & Hwr). apply String.eqb_neq in Hne.
  unfold save_image, payload_truthy, payload_text, do_open_wb, do_write_bytes.
  rewrite HP, Hne. py_eval. rewrite Hparse. py_eval.
  rewrite Hop. py_eval. rewrite Hwr. py_eval. now rewrite insert_insert_eq.
Qed.

(** [save_image] leaves the files of the others as they are. *)
Lemma save_image_other w image dir s f :
  f <> file_of w (path_join w dir (id image)) ->
  files (save_image w image dir s).2 !! f = files s !! f.
Proof.
  intros Hne.
  assert (Hn : no_clash_images w dir f [image])
    by (intros i [<- | []]; congruence).
  pose proof (save_images_same_file w [image] dir f Hn s) as [Hf _].
  cbn [save_images] in Hf. unfold bind in Hf.
  now destruct (save_image w image dir s) as [[[] | x | c] s1].
Qed.

(** [save_image] never fails and keeps to itself: whatever the image and the
    world, it returns; it adds nothing but lines of the log to the trace; it
    leaves the open text file alone, and every file but the one that the path
    of the image names.  (That file can be one the path does not look like:
    the comparison is on files, not on paths.) *)
Theorem save_image_never_fails w image dir s :
  exists s1 l,
    save_image w image dir s = (Ret tt, s1)
    /\ trace s1 = trace s ++ l
    /\ Forall is_log l
    /\ md_handle s1 = md_handle s
    /\ forall f, f <> file_of w (path_join w dir (id image)) ->
                 files s1 !! f = files s !! f.
Proof.
  unfold save_image, try_except, bind, lift, do_open_wb, do_write_bytes, check, bind.
  cbn.
  destruct (payload_truthy (image_base64 image)); cbn.
  2:{ eexists _, _. split; [reflexivity |]. cbn.
      split; [reflexivity |]. split; [repeat constructor | auto]. }
  destruct (datauri_parse w _) as [e | data]; cbn.
  { destruct e; eexists _, _; (split; [reflexivity |]); cbn;
      (split; [reflexivity |]); (split; [repeat constructor | auto]). }
  destruct (open_wb w _) as [e |]; cbn.
  { destruct e; eexists _, _; (split; [reflexivity |]); cbn;
      (split; [now rewrite <- app_assoc |]); (split; [repeat constructor | auto]). }
  destruct (write_bytes w _ _) as [e |]; cbn.
  { destruct e; eexists _, _; (split; [reflexivity |]); cbn;
      (split; [now rewrite <- app_assoc |]); (split; [repeat constructor |]);
      (split; [reflexivity |]); intros p Hp;
      (rewrite lookup_insert_ne by auto); now apply lookup_insert_ne. }
  eexists _, _. split; [reflexivity |]. cbn.
  split; [reflexivity |]. split; [repeat constructor |]. split; [reflexivity |].
  intros p Hp. rewrite lookup_insert_ne by auto. now apply lookup_insert_ne.
Qed.

(** A failure inside [save_image] is logged once, at the level ERROR, with
    the message of the first handler that fits, and changes no file: when
    [datauri.parse] raises [e], whatever [e] is, and when [open] raises
    [e]. *)
Theorem save_image_failure_logged w image dir s P e :
  image_base64 image = Some P ->
  P <> "" ->
  (datauri_parse w P = inl e ->
   save_image w image dir s
   = (Ret tt,
      mkState (trace s ++ [Log ERROR (image_error_msg w image dir e)])
              (files s) (md_handle s)))
  /\ (forall B,
        datauri_parse w P = inr B ->
        open_wb w (path_join w dir (id image)) = Some e ->
        save_image w image dir s
        = (Ret tt,
           mkState (trace s
                    ++ [Log INFO (MsgImageWriting (path_join w dir (id image)));
                        Log ERROR (image_error_msg w image dir e)])
                   (files s) (md_handle s))).
Proof.
  intros HP Hne. apply String.eqb_neq in Hne. split.
  - intros Hparse.
    unfold save_image, payload_truthy, payload_text. rewrite HP, Hne. py_eval.
    rewrite Hparse. destruct e; py_eval; reflexivity.
  - intros B Hparse Hop.
    unfold save_image, payload_truthy, payload_text, do_open_wb.
    rewrite HP, Hne. py_eval. rewrite Hparse. py_eval. rewrite Hop.
    destruct e; py_eval; now rewrite <- app_assoc.
Qed.

Lemma save_image_failure_logged_witness :
  image_base64 sample_image = Some "data:,0123456789"
  /\ save_image hostile_world sample_image "out" (init_state ∅)
     = (Ret tt,
        mkState [Log ERROR (MsgImageParseError "img-1" DataURIError)] ∅ None).
Proof.
  split; [reflexivity |].
  exact (proj1 (save_image_failure_logged hostile_world sample_image "out"
                  (init_state ∅) "data:,0123456789" DataURIError
                  eq_refl ltac:(discriminate)) eq_refl).
Defined.

Lemma save_images_app w l1 l2 dir s :
  save_images w (l1 ++ l2) dir s
  = bind (save_images w l1 dir) (fun _ => save_images w l2 dir) s.
Proof.
  revert s. induction l1 as [| i l1 IH]; intros s; [reflexivity |].
  change (bind (save_image w i dir) (fun _ => save_images w (l1 ++ l2) dir) s
          = bind (bind (save_image w i dir) (fun _ => save_images w l1 dir))
                 (fun _ => save_images w l2 dir) s).
  unfold bind.
  destruct (save_image w i dir s) as [[[] | e | c] s1]; auto.
Qed.

(** Of the images of a page that go to the same file, the last one that is
    written wins: when no image after [image] goes to the file that the path
    of [image] names, under whatever path, that file holds the bytes of
    [image] after [save_images]. *)
Theorem save_images_last_wins w dir before image after B s :
  image_written w dir image B ->
  (forall i, In i after ->
     file_of w (path_join w dir (id i)) <> file_of w (path_join w dir (id image))) ->
  files (save_images w (before ++ image :: after) dir s).2
    !! file_of w (path_join w dir (id image))
  = Some B.
Proof.
  intros Hw Hafter. rewrite save_images_app.
  destruct (save_images_run w before dir s) as (s1 & E1 & _ & _).
  rewrite (bind_returns _ _ s tt s1 E1). cbn [save_images].
  rewrite (bind_returns _ _ s1 tt _ (save_image_written w image dir B s1 Hw)).
  match goal with
  | |- files (save_images w after dir ?s2).2 !! ?p = _ =>
      pose proof (save_images_same_file w after dir p Hafter s2) as [Hf _];
      rewrite Hf
  end.
  cbn. apply lookup_insert_eq.
Qed.

Lemma save_images_last_wins_witness :
  image_written sample_world "out" sample_image_again (list_byte_of_string "ABC")
  /\ files (save_images sample_world
              ([sample_image] ++ sample_image_again :: [sample_bad_image])
              "out" (init_state ∅)).2
       !! "out/img-1"
     = Some (list_byte_of_string "ABC").
Proof.
  assert (H : image_written sample_world "out" sample_image_again
                (list_byte_of_string "ABC")).
  { exists "data:,ABC". repeat split. discriminate. }
  split; [exact H |].
  apply (save_images_last_wins sample_world "out" [sample_image]
           sample_image_again [sample_bad_image] _ (init_state ∅) H).
  intros i [<- | []]. vm_compute. discriminate.
Defined.

(** ** Failures of a run *)

(** The key is there, the client is built and the document resolves: the
    run gets to the test of [document_url] with the events of
    [locator_events], no OCR call and no [print] among them. *)
Lemma main_resolved w (ns : Namespace) fs d :
  (exists k, environ w MISTRAL_API_KEY_ENV_VAR = Some k /\ mistral_init w k = None) ->
  resolves w ns d ->
  exists t,
    main w ns (init_state fs)
    = main_from_locator w (mk_path w (output_file ns)) d (mkState t fs None)
    /\ locator_events w ns d t
    /\ no_ocr_call t
    /\ Forall not_a_print t.
Proof.
  intros (k & Hk & Hi) Hr. unfold resolves in Hr. unfold locator_events.
  destruct (url ns) eqn:Hu.
  - subst d. exists (url_events ns). split; [| split; [reflexivity | split]].
    + now apply main_url_mode with k.
    + intros m d b. unfold url_events.
      destruct (startswith_http (input_source ns)); cbn; intuition discriminate.
    + unfold url_events. destruct (startswith_http _); repeat constructor.
  - destruct Hr as (He & Hf & c & fid & Ho & Hup & Hs).
    exists (file_events w ns c fid d). split; [| split; [| split]].
    + now apply main_file_mode with k.
    + now exists c, fid.
    + intros m d' b. unfold file_events. cbn. intuition discriminate.
    + repeat constructor.
Qed.

(** A failure of the constructor of the client ends the run with status 1
    before anything is asked of the service or written.  A [KeyError] out of
    the constructor is taken for a missing variable: the handler of the
    lookup in the environment catches it, and the standard error gets the
    request to set the variable although it is set. *)
Theorem client_failure_is_fatal w (ns : Namespace) fs k e :
  environ w MISTRAL_API_KEY_ENV_VAR = Some k ->
  mistral_init w k = Some e ->
  run w ns fs
  = (1%Z,
     mkState
       ([Log INFO MsgStart;
         Log INFO (MsgArgsParsed (input_source ns) (output_file ns) (url ns));
         Log INFO MsgKeyLoaded]
        ++ client_error_events e)
       fs None).
Proof.
  intros Hk Hi. unfold run, main. rewrite Hk. py_eval. rewrite Hi.
  destruct e; py_eval; reflexivity.
Qed.

Lemma client_failure_is_fatal_witness :
  run (world_where (Some KeyError) (inr sample_pdf) (inr "file-1")
         (inr sample_signed_url) (inr sample_response) None None
         (fun _ => None) None (fun _ => None))
      sample_file_args ∅
  = (1%Z,
     mkState
       [Log INFO MsgStart;
        Log INFO (MsgArgsParsed "report.pdf" "out/report.md" false);
        Log INFO MsgKeyLoaded;
        Log ERROR (MsgEnvMissing MISTRAL_API_KEY_ENV_VAR);
        PrintErr (ErrSetEnv MISTRAL_API_KEY_ENV_VAR)]
       ∅ None).
Proof.
  exact (client_failure_is_fatal
           (world_where (Some KeyError) (inr sample_pdf) (inr "file-1")
              (inr sample_signed_url) (inr sample_response) None None
              (fun _ => None) None (fun _ => None))
           sample_file_args ∅ "secret" KeyError eq_refl eq_refl).
Defined.

(** Without [--url], a failure to read the file, to upload it or to get the
    signed URL ends the run with status 1: no OCR call is made and no file
    is written.  The calls made so far are in the trace, followed by what the
    handler reports; an [IOError] of the service is reported as a failure to
    read the input file. *)
Theorem upload_failure_is_fatal w (ns : Namespace) fs k e :
  let p := mk_path w (input_source ns) in
  url ns = false ->
  environ w MISTRAL_API_KEY_ENV_VAR = Some k ->
  mistral_init w k = None ->
  path_exists w p = inr true ->
  path_is_file w p = inr true ->
  (open_rb w p = inl e ->
   run w ns fs
   = (1%Z,
      mkState (file_start_events w ns ++ upload_error_events p e) fs None))
  /\ (forall c,
        open_rb w p = inr c ->
        files_upload w (path_name w p) c = inl e ->
        run w ns fs
        = (1%Z,
           mkState (file_start_events w ns
                    ++ [CallUpload (path_name w p) c]
                    ++ upload_error_events p e) fs None))
  /\ (forall c fid,
        open_rb w p = inr c ->
        files_upload w (path_name w p) c = inr fid ->
        files_get_signed_url w fid = inl e ->
        run w ns fs
        = (1%Z,
           mkState (file_start_events w ns
                    ++ [CallUpload (path_name w p) c;
                        Log INFO (MsgUploaded p fid);
                        Log INFO (MsgGettingSignedUrl fid);
                        CallSignedUrl fid]
                    ++ upload_error_events p e) fs None)).
Proof.
  intros p Hu Hk Hi He Hf. subst p.
  split; [| split].
  - intros Ho. unfold run, main, file_start_events. rewrite Hk. py_eval. rewrite Hi, Hu. py_eval.
    rewrite He, Hf. py_eval. rewrite Ho. destruct e; py_eval; reflexivity.
  - intros c Ho Hup. unfold run, main, file_start_events. rewrite Hk. py_eval.
    rewrite Hi, Hu. py_eval.
    rewrite He, Hf. py_eval. rewrite Ho. py_eval. rewrite Hup.
    destruct e; py_eval; reflexivity.
  - intros c fid Ho Hup Hs. unfold run, main, file_start_events. rewrite Hk. py_eval.
    rewrite Hi, Hu. py_eval. rewrite He, Hf. py_eval. rewrite Ho. py_eval.
    rewrite Hup. py_eval. rewrite Hs. destruct e; py_eval; reflexivity.
Qed.

Lemma upload_failure_is_fatal_witness :
  let w := world_where None (inr sample_pdf) (inl IOError)
             (inr sample_signed_url) (inr sample_response) None None
             (fun _ => None) None (fun _ => None) in
  run w sample_file_args ∅
  = (1%Z,
     mkState (file_start_events w sample_file_args
              ++ [CallUpload "report.pdf" sample_pdf]
              ++ upload_error_events "report.pdf" IOError) ∅ None).
Proof.
  intros w.
  exact (proj1 (proj2 (upload_failure_is_fatal w sample_file_args ∅ "secret"
                         IOError eq_refl eq_refl eq_refl eq_refl eq_refl))
           sample_pdf eq_refl eq_refl).
Defined.

(** An empty locator never reaches the service: when the source given with
    [--url], or the signed URL of the upload, is the empty string, the run
    ends with status 1 after the error of the test [if not document_url],
    with no OCR call and no file written. *)
Theorem empty_locator_is_fatal w (ns : Namespace) fs :
  (exists k, environ w MISTRAL_API_KEY_ENV_VAR = Some k /\ mistral_init w k = None) ->
  resolves w ns "" ->
  exists t,
    run w ns fs = (1%Z, mkState (t ++ [Log ERROR MsgNoDocumentUrl]) fs None)
    /\ no_ocr_call (t ++ [Log ERROR MsgNoDocumentUrl]).
Proof.
  intros Hk Hr. destruct (main_resolved w ns fs "" Hk Hr) as (t & E & _ & Hno & _).
  exists t. split.
  - unfold run. rewrite E. unfold main_from_locator. py_eval. reflexivity.
  - intros m d b Hin. apply in_app_iff in Hin as [Hin | [Hin | []]].
    + exact (Hno m d b Hin).
    + discriminate.
Qed.

Lemma empty_locator_is_fatal_witness :
  resolves sample_world (mkArgs "" "out/report.md" true) ""
  /\ exists t,
       run sample_world (mkArgs "" "out/report.md" true) ∅
       = (1%Z, mkState (t ++ [Log ERROR MsgNoDocumentUrl]) ∅ None)
       /\ no_ocr_call (t ++ [Log ERROR MsgNoDocumentUrl]).
Proof.
  split; [reflexivity |].
  apply (empty_locator_is_fatal sample_world (mkArgs "" "out/report.md" true) ∅).
  - exists "secret". split; reflexivity.
  - reflexivity.
Defined.

(** A failure of the OCR call ends the run with status 1.  The trace is the
    events up to the test of [document_url], then the start of the OCR call
    on the log, the call, and the error on the log: the call is made once
    and not repeated, the error is the last line of the log, the script
    prints nothing (the closing message is not there), and no file is
    written. *)
Theorem ocr_failure_is_fatal w (ns : Namespace) fs d e :
  (exists k, environ w MISTRAL_API_KEY_ENV_VAR = Some k /\ mistral_init w k = None) ->
  resolves w ns d ->
  d <> "" ->
  ocr_process w OCR_MODEL d true = inl e ->
  exists t,
    run w ns fs
    = (1%Z,
       mkState (t ++ [Log INFO (MsgOcrStart OCR_MODEL);
                      CallOcr OCR_MODEL d true;
                      Log ERROR (MsgOcrError e)]) fs None)
    /\ locator_events w ns d t
    /\ no_ocr_call t
    /\ Forall not_a_print (trace (run w ns fs).2).
Proof.
  intros Hk Hr Hd Ho.
  destruct (main_resolved w ns fs d Hk Hr) as (t & E & Hl & Hno & Hp).
  assert (Er : run w ns fs
               = (1%Z,
                  mkState (t ++ [Log INFO (MsgOcrStart OCR_MODEL);
                                 CallOcr OCR_MODEL d true;
                                 Log ERROR (MsgOcrError e)]) fs None)).
  { unfold run. rewrite E. unfold main_from_locator.
    apply String.eqb_neq in Hd. rewrite Hd. py_eval. rewrite Ho. py_eval.
    now rewrite <- !app_assoc. }
  exists t. split; [exact Er |]. split; [exact Hl |]. split; [exact Hno |].
  rewrite Er. cbn [snd trace]. apply Forall_app. split; [exact Hp |].
  repeat constructor.
Qed.

Lemma ocr_failure_is_fatal_witness :
  let w := world_where None (inr sample_pdf) (inr "file-1")
             (inr sample_signed_url) (inl OtherException) None None
             (fun _ => None) None (fun _ => None) in
  resolves w sample_file_args sample_signed_url
  /\ run w sample_file_args ∅
     = (1%Z,
        mkState (file_events w sample_file_args sample_pdf "file-1"
                   sample_signed_url
                 ++ [Log INFO (MsgOcrStart OCR_MODEL);
                     CallOcr OCR_MODEL sample_signed_url true;
                     Log ERROR (MsgOcrError OtherException)]) ∅ None)
  /\ exists t,
       run w sample_file_args ∅
       = (1%Z,
          mkState (t ++ [Log INFO (MsgOcrStart OCR_MODEL);
                         CallOcr OCR_MODEL sample_signed_url true;
                         Log ERROR (MsgOcrError OtherException)]) ∅ None)
       /\ locator_events w sample_file_args sample_signed_url t
       /\ no_ocr_call t
       /\ Forall not_a_print (trace (run w sample_file_args ∅).2).
Proof.
  intros w.
  assert (Hr : resolves w sample_file_args sample_signed_url).
  { split; [reflexivity |]. split; [reflexivity |].
    exists sample_pdf, "file-1". repeat split. }
  split; [exact Hr |]. split; [reflexivity |].
  apply (ocr_failure_is_fatal w sample_file_args ∅ sample_signed_url OtherException).
  - exists "secret". split; reflexivity.
  - exact Hr.
  - discriminate.
  - reflexivity.
Defined.


(** ** Failures while the results are saved *)

Lemma written_cons n i page rest :
  written n i (page :: rest)
  = String.append (page_text n i page) (written n (S i) rest).
Proof. unfold page_text. cbn [written]. now rewrite append_assoc. Qed.

Lemma page_images_eq w dir k page s :
  (if images_truthy (images page)
   then save_images w (images_list (images page)) dir
   else log DEBUG (MsgPageNoImages k)) s
  = save_images w (images_list (images page)) dir s.
Proof. now destruct (images page) as [[| i0 l] |]. Qed.

Lemma open_on_other f p s :
  open_on f s -> p <> f -> forall h, md_handle s = Some h -> p <> f_file h.
Proof.
  intros (h & Hh & Hp) Hne h' Hh'. rewrite Hh in Hh'. injection Hh' as <-.
  now rewrite Hp.
Qed.

(** A write to the text file, whether it returns or raises, leaves the other
    files as they are. *)
Lemma do_write_text_other w x s p :
  (forall h, md_handle s = Some h -> p <> f_file h) ->
  files (do_write_text w x s).2 !! p = files s !! p.
Proof.
  intros Hne. unfold do_write_text.
  destruct (md_handle s) as [h |] eqn:Hh; [| reflexivity]. cbv zeta.
  match goal with
  | |- context [flush_bytes ?fs ?h1 ?k] =>
      pose proof (flush_bytes_other fs h1 k p (Hne h eq_refl)) as Hf;
      destruct (flush_bytes fs h1 k) as [fs2 h2]
  end.
  exact Hf.
Qed.

Lemma byte_prefix_take (k : nat) (b : list byte) : byte_prefix (take k b) b.
Proof. exists (drop k b). now rewrite take_drop. Qed.

Lemma byte_prefix_trans (a b c : list byte) :
  byte_prefix a b -> byte_prefix b c -> byte_prefix a c.
Proof. intros (r1 & ->) (r2 & ->). exists (r1 ++ r2). now rewrite app_assoc. Qed.

Lemma stream_inv_part f s t :
  stream_inv f s t -> stream_part f s (encode_utf8 t).
Proof.
  intros (h & fl & H1 & H2 & H3 & H4 & H5). exists h, fl.
  repeat split; auto. exists []. now rewrite app_nil_r.
Qed.

Lemma stream_part_mono f s B B' :
  stream_part f s B -> byte_prefix B B' -> stream_part f s B'.
Proof.
  intros (h & fl & H1 & H2 & H3 & H4 & H5) HB. exists h, fl.
  repeat split; auto. now apply (byte_prefix_trans _ B).
Qed.

(** Whatever part of the waiting bytes is flushed, the file holds a beginning
    of [B]. *)
Lemma stream_part_flush f s B h k :
  stream_part f s B ->
  md_handle s = Some h ->
  exists b, (flush_bytes (files s) h k).1 !! f = Some b /\ byte_prefix b B.
Proof.
  intros (h' & fl & H1 & H2 & H3 & H4 & H5) Hh.
  rewrite H1 in Hh. injection Hh as <-.
  destruct (flush_bytes_stream (files s) h' k fl)
    as (fl1 & F1 & _ & _ & _ & F5); [now rewrite H2 | exact H4 |].
  rewrite H2 in F1. exists fl1. split; [exact F1 |].
  apply (byte_prefix_trans _ (fl ++ f_pending h')); [| exact H5].
  rewrite F5. destruct (byte_prefix_take k (f_pending h')) as (rest & Hr).
  exists rest. rewrite <- app_assoc. now rewrite <- Hr.
Qed.

(** A write to the open text file goes through, and the text written so far
    has grown by [x]; or the file system refuses it, and the file and the
    buffers hold a beginning of that text.  The text file stays open. *)
Lemma do_write_text_any w f x s :
  open_on f s ->
  exists o s1,
    do_write_text w x s = (o, s1)
    /\ open_on f s1
    /\ (o = Ret tt \/ exists e, o = Raise e /\ write_text w f x = Some e)
    /\ (forall t, stream_inv f s t ->
          stream_part f s1 (encode_utf8 (String.append t x))
          /\ (o = Ret tt -> stream_inv f s1 (String.append t x))).
Proof.
  intros Ho. destruct (write_text w f x) as [e |] eqn:Hw.
  - destruct Ho as (h & Hh & Hp). unfold do_write_text. rewrite Hh. cbv zeta.
    rewrite Hp, Hw. unfold waiting. rewrite Hp.
    set (all := f_pending h ++ encode_utf8 x).
    set (h1 := mkTextFile f (f_pos h) (take (text_kept w f (f_pending h) x) all)).
    set (k := text_flush w f (f_pending h1)).
    destruct (flush_bytes (files s) h1 k) as [fs2 h2] eqn:Ef.
    exists (Raise e), (mkState (trace s) fs2 (Some h2)).
    split; [reflexivity |]. split; [| split; [right; eauto |]].
    + exists h2. split; [reflexivity |]. unfold flush_bytes in Ef.
      destruct (take k (f_pending h1)); inversion Ef; reflexivity.
    + intros t (h' & fl & H1 & H2 & H3 & H4 & H5). split; [| discriminate].
      rewrite Hh in H1. injection H1 as <-.
      destruct (flush_bytes_stream (files s) h1 k fl H3 H4)
        as (fl1 & F1 & F2 & F3 & F4 & _).
      rewrite Ef in F1, F2, F3, F4. cbn [fst snd] in *.
      exists h2, fl1. cbn [md_handle files]. repeat split; auto.
      rewrite F4. subst h1. cbn [f_pending].
      rewrite encode_utf8_app, <- H5, <- app_assoc. fold all.
      destruct (byte_prefix_take (text_kept w f (f_pending h) x) all) as (rest & Hr).
      exists rest. rewrite <- app_assoc. now rewrite <- Hr.
  - destruct (do_write_text_ok w f x s Hw Ho) as (s1 & E & Ho1 & _ & Hs).
    exists (Ret tt), s1. split; [exact E |]. split; [exact Ho1 |].
    split; [now left |]. intros t Ht. split; [| auto].
    now apply stream_inv_part, Hs.
Qed.

(** A page, whatever the file system answers: the loop body returns, or a
    write was refused; the text file stays open; the files of the others are
    as they were; and when no image of the page goes to [f], the file and the
    buffers hold a beginning of the text up to the end of the page, all of it
    if the body returned. *)
Lemma write_page_any w f dir n i page s :
  open_on f s ->
  exists o s1,
    write_page w dir n i page s = (o, s1)
    /\ open_on f s1
    /\ (o = Ret tt \/ exists e x, o = Raise e /\ write_text w f x = Some e)
    /\ (no_clash_images w dir f (images_list (images page)) ->
        forall t, stream_inv f s t ->
          stream_part f s1 (encode_utf8 (String.append t (page_text n i page)))
          /\ (o = Ret tt ->
              stream_inv f s1 (String.append t (page_text n i page))))
    /\ (forall p, p <> f ->
                  no_clash_images w dir p (images_list (images page)) ->
                  files s1 !! p = files s !! p).
Proof.
  intros Ho. unfold write_page.
  rewrite (bind_returns _ _ s tt s) by reflexivity.
  set (sep := if (Z.of_nat i <? Z.of_nat n - 1)%Z then blank_line else "").
  assert (Htext : page_text n i page = String.append (markdown page) sep)
    by reflexivity.
  destruct (do_write_text_any w f (markdown page) s Ho)
    as (o1 & s1 & E1 & Ho1 & Hr1 & Hs1).
  assert (F1 : forall p, p <> f -> files s1 !! p = files s !! p).
  { intros p Hne.
    pose proof (do_write_text_other w (markdown page) s p
                  (open_on_other f p s Ho Hne)) as F.
    now rewrite E1 in F. }
  destruct Hr1 as [-> | (e & -> & He)].
  2:{ exists (Raise e), s1. split; [unfold bind; now rewrite E1 |].
      split; [exact Ho1 |]. split; [right; eauto |].
      split; [| intros p Hne _; exact (F1 p Hne)].
      intros _ t Ht. split; [| discriminate].
      apply (stream_part_mono f s1 _ _ (proj1 (Hs1 t Ht))).
      rewrite Htext, <- append_assoc, (encode_utf8_app _ sep).
      exists (encode_utf8 sep). reflexivity. }
  rewrite (bind_returns _ _ s tt s1 E1).
  (* the separator *)
  assert (exists o2 s2,
            (if (Z.of_nat i <? Z.of_nat n - 1)%Z
             then do_write_text w blank_line else ret tt) s1 = (o2, s2)
            /\ open_on f s2
            /\ (o2 = Ret tt \/ exists e, o2 = Raise e
                                         /\ write_text w f blank_line = Some e)
            /\ (forall t, stream_inv f s1 t ->
                  stream_part f s2 (encode_utf8 (String.append t sep))
                  /\ (o2 = Ret tt -> stream_inv f s2 (String.append t sep)))
            /\ forall p, p <> f -> files s2 !! p = files s1 !! p)
    as (o2 & s2 & E2 & Ho2 & Hr2 & Hs2 & F2).
  { subst sep. destruct (Z.of_nat i <? Z.of_nat n - 1)%Z.
    - destruct (do_write_text_any w f blank_line s1 Ho1)
        as (o2 & s2 & E2 & Ho2 & Hr2 & Hs2).
      exists o2, s2. split; [exact E2 |]. split; [exact Ho2 |].
      split; [exact Hr2 |]. split; [exact Hs2 |]. intros p Hne.
      pose proof (do_write_text_other w blank_line s1 p
                    (open_on_other f p s1 Ho1 Hne)) as F.
      now rewrite E2 in F.
    - exists (Ret tt), s1. split; [reflexivity |]. split; [exact Ho1 |].
      split; [now left |]. split; [| reflexivity].
      intros t Ht. rewrite append_nil_r. split; [now apply stream_inv_part | auto]. }
  assert (Hs12 : forall t, stream_inv f s t ->
            stream_part f s2 (encode_utf8 (String.append t (page_text n i page)))
            /\ (o2 = Ret tt ->
                stream_inv f s2 (String.append t (page_text n i page)))).
  { intros t Ht. rewrite Htext, <- append_assoc.
    apply Hs2. now apply (proj2 (Hs1 t Ht)). }
  destruct Hr2 as [-> | (e & -> & He)].
  2:{ exists (Raise e), s2. split; [unfold bind; now rewrite E2 |].
      split; [exact Ho2 |]. split; [right; eauto |].
      split; [| intros p Hne _; now rewrite F2, F1].
      intros _ t Ht. split; [exact (proj1 (Hs12 t Ht)) | discriminate]. }
  rewrite (bind_returns _ _ s1 tt s2 E2). rewrite page_images_eq.
  destruct (save_images_run w (images_list (images page)) dir s2)
    as (s3 & E3 & Hh3 & _).
  exists (Ret tt), s3. split; [exact E3 |].
  split; [now apply (same_handle_open_on f s2) |]. split; [now left |].
  split.
  - intros Hn t Ht.
    pose proof (save_images_same_file w _ dir f Hn s2) as Hf.
    rewrite E3 in Hf. cbn in Hf.
    assert (Hi : stream_inv f s3 (String.append t (page_text n i page)))
      by (apply (same_file_stream_inv f s2); [exact Hf |];
          now apply (proj2 (Hs12 t Ht))).
    split; [now apply stream_inv_part | auto].
  - intros p Hne Hn.
    pose proof (save_images_same_file w _ dir p Hn s2) as [Hf _].
    rewrite E3 in Hf. cbn in Hf. now rewrite Hf, F2, F1.
Qed.

Lemma write_pages_any w f dir n ps :
  forall i s,
    open_on f s ->
    exists o s1,
      write_pages w dir n i ps s = (o, s1)
      /\ open_on f s1
      /\ (o = Ret tt \/ exists e x, o = Raise e /\ write_text w f x = Some e)
      /\ ((forall page, In page ps ->
             no_clash_images w dir f (images_list (images page))) ->
          forall t, stream_inv f s t ->
            stream_part f s1 (encode_utf8 (String.append t (written n i ps)))
            /\ (o = Ret tt ->
                stream_inv f s1 (String.append t (written n i ps))))
      /\ (forall p, p <> f ->
                    (forall page, In page ps ->
                       no_clash_images w dir p (images_list (images page))) ->
                    files s1 !! p = files s !! p).
Proof.
  induction ps as [| page rest IH]; intros i s Ho.
  - exists (Ret tt), s. split; [reflexivity |]. split; [exact Ho |].
    split; [now left |]. split; [| reflexivity]. intros _ t Ht.
    cbn [written]. rewrite append_nil_r. split; [now apply stream_inv_part | auto].
  - cbn [write_pages].
    destruct (write_page_any w f dir n i page s Ho)
      as (o1 & s1 & E1 & Ho1 & Hr1 & Hs1 & F1).
    destruct Hr1 as [-> | (e & x & -> & Hw)].
    + rewrite (bind_returns _ _ s tt s1 E1).
      destruct (IH (S i) s1 Ho1) as (o & s2 & E2 & Ho2 & Hr2 & Hs2 & F2).
      exists o, s2. split; [exact E2 |]. split; [exact Ho2 |].
      split; [exact Hr2 |]. split.
      * intros Hn t Ht. rewrite written_cons, <- append_assoc.
        apply (Hs2 (fun pg Hin => Hn pg (or_intror Hin))).
        now apply (proj2 (Hs1 (Hn page (or_introl eq_refl)) t Ht)).
      * intros p Hne Hn.
        rewrite (F2 p Hne (fun pg Hin => Hn pg (or_intror Hin))).
        exact (F1 p Hne (Hn page (or_introl eq_refl))).
    + exists (Raise e), s1. split; [unfold bind; now rewrite E1 |].
      split; [exact Ho1 |]. split; [right; eauto |]. split.
      * intros Hn t Ht. split; [| discriminate].
        apply (stream_part_mono f s1 _ _
                 (proj1 (Hs1 (Hn page (or_introl eq_refl)) t Ht))).
        rewrite written_cons, <- append_assoc, (encode_utf8_app (String.append t _)).
        eexists. reflexivity.
      * intros p Hne Hn. exact (F1 p Hne (Hn page (or_introl eq_refl))).
Qed.

(** The [with] block of [create_markdown_file]: it returns, or the file
    system has refused the Markdown file; the files that neither the path of
    the Markdown document nor that of an image names are as they were; and
    if the path could be opened and no image goes to the file it names, that
    file holds a beginning of the text of the pages. *)
Lemma markdown_block w r out s :
  exists o s1,
    with_open_wt w out
      (write_pages w (path_parent w out) (length (pages r)) 0 (pages r)) s
    = (o, s1)
    /\ (o = Ret tt \/ exists e, o = Raise e /\ text_io_failure w out e)
    /\ (open_wt w out = None ->
        no_clash w r out ->
        exists b, files s1 !! file_of w out = Some b
                  /\ byte_prefix b (encode_utf8 (spec_markdown_text (pages r))))
    /\ (forall p, p <> file_of w out ->
                  (forall page, In page (pages r) ->
                     no_clash_images w (path_parent w out) p
                       (images_list (images page))) ->
                  files s1 !! p = files s !! p).
Proof.
  unfold with_open_wt, do_open_wt.
  destruct (open_wt w out) as [e |] eqn:Hop.
  { exists (Raise e), s. split; [reflexivity |].
    split; [| split; [discriminate | reflexivity]].
    right. exists e. split; [reflexivity | now left]. }
  unfold bind at 1. unfold bind at 1. cbn [check ret].
  set (f := file_of w out).
  match goal with
  | |- context [write_pages w ?d ?n 0 ?ps ?s0] =>
      assert (Hinv : stream_inv f s0 "")
        by (exists (mkTextFile f 0 []), []; cbn;
            rewrite lookup_insert_eq; repeat split);
      destruct (write_pages_any w f d n ps 0%nat s0
                  (stream_inv_open_on _ _ _ Hinv))
        as (o & s1 & E1 & Ho1 & Hr1 & Hs1 & F1)
  end.
  rewrite E1. destruct Ho1 as (h1 & Hh1 & Hp1).
  assert (Hfile : no_clash w r out ->
            forall k,
              exists b, (flush_bytes (files s1) h1 k).1 !! f = Some b
                        /\ byte_prefix b (encode_utf8 (spec_markdown_text (pages r)))).
  { intros Hn k. destruct (Hs1 Hn "" Hinv) as [Hpart _].
    change (String.append "" ?x) with x in Hpart.
    rewrite written_spec in Hpart by reflexivity.
    now apply (stream_part_flush f s1). }
  assert (Hother : forall p, p <> f ->
            (forall page, In page (pages r) ->
               no_clash_images w (path_parent w out) p (images_list (images page))) ->
            forall k, (flush_bytes (files s1) h1 k).1 !! p = files s !! p).
  { intros p Hne Hn k. specialize (F1 p Hne Hn). cbn [files] in F1.
    rewrite lookup_insert_ne in F1 by auto.
    rewrite flush_bytes_other by (now rewrite Hp1). exact F1. }
  destruct Hr1 as [-> | (e & x & -> & Hw)].
  - unfold bind, do_close_text. rewrite Hh1, Hp1.
    destruct (close_wt w f) as [e' |] eqn:Hcl.
    + eexists _, _. split; [reflexivity |]. split; [| split].
      * right. exists e'. split; [reflexivity |]. right. now right.
      * intros _ Hn. exact (Hfile Hn _).
      * intros p Hne Hn. exact (Hother p Hne Hn _).
    + eexists _, _. split; [reflexivity |]. split; [| split].
      * now left.
      * intros _ Hn. exact (Hfile Hn _).
      * intros p Hne Hn. exact (Hother p Hne Hn _).
  - unfold do_close_text. rewrite Hh1, Hp1.
    destruct (close_wt w f) as [e' |] eqn:Hcl.
    + eexists _, _. split; [reflexivity |]. split; [| split].
      * right. exists e'. split; [reflexivity |]. right. now right.
      * intros _ Hn. exact (Hfile Hn _).
      * intros p Hne Hn. exact (Hother p Hne Hn _).
    + eexists _, _. split; [reflexivity |]. split; [| split].
      * right. exists e. split; [reflexivity |]. right. left. eauto.
      * intros _ Hn. exact (Hfile Hn _).
      * intros p Hne Hn. exact (Hother p Hne Hn _).
Qed.

(** [create_markdown_file] from the [try] block on, the directory made. *)
Lemma create_markdown_file_block w r out s :
  mkdir_parents w (path_parent w out) = None ->
  exists o s1,
    with_open_wt w out
      (write_pages w (path_parent w out) (length (pages r)) 0 (pages r))
      (mkState (trace s ++ [Log INFO (MsgMarkdownWriting out)]) (files s) (md_handle s))
    = (o, s1)
    /\ ((o = Ret tt
         /\ create_markdown_file w r out s
            = (Ret tt,
               mkState (trace s1 ++ [Log INFO (MsgMarkdownDone out)])
                       (files s1) (md_handle s1)))
        \/ (exists e,
              o = Raise e
              /\ text_io_failure w out e
              /\ create_markdown_file w r out s
                 = (Exit 1%Z,
                    mkState (trace s1 ++ [Log ERROR (markdown_error_msg out e)])
                            (files s1) (md_handle s1))))
    /\ (open_wt w out = None ->
        no_clash w r out ->
        exists b, files s1 !! file_of w out = Some b
                  /\ byte_prefix b (encode_utf8 (spec_markdown_text (pages r))))
    /\ (forall p, p <> file_of w out ->
                  (forall page, In page (pages r) ->
                     no_clash_images w (path_parent w out) p
                       (images_list (images page))) ->
                  files s1 !! p = files s !! p).
Proof.
  intros Hmk.
  destruct (markdown_block w r out
              (mkState (trace s ++ [Log INFO (MsgMarkdownWriting out)])
                       (files s) (md_handle s)))
    as (o & s1 & E & Hr & Hf).
  exists o, s1. split; [exact E |]. split; [| exact Hf].
  unfold create_markdown_file. rewrite Hmk.
  destruct Hr as [-> | (e & -> & He)].
  - left. split; [reflexivity |]. py_eval. rewrite E. reflexivity.
  - right. exists e. split; [reflexivity |]. split; [exact He |].
    py_eval. rewrite E. destruct e; reflexivity.
Qed.

(** The one exception [create_markdown_file] lets out is that of the
    [mkdir] of the output directory, which is outside its [try] block: when
    [mkdir] raises [e], so does [create_markdown_file], with nothing written;
    and whenever [create_markdown_file] raises, it is [mkdir] that did. *)
Theorem create_markdown_file_raises w r out s :
  (forall e,
     mkdir_parents w (path_parent w out) = Some e ->
     create_markdown_file w r out s
     = (Raise e,
        mkState (trace s ++ [Log INFO (MsgMarkdownWriting out)])
                (files s) (md_handle s)))
  /\ (forall e s1,
        create_markdown_file w r out s = (Raise e, s1) ->
        mkdir_parents w (path_parent w out) = Some e).
Proof.
  split.
  - intros e Hmk. unfold create_markdown_file. rewrite Hmk. reflexivity.
  - intros e s1 H. destruct (mkdir_parents w (path_parent w out)) as [e0 |] eqn:Hmk.
    + revert H. unfold create_markdown_file. rewrite Hmk. py_eval.
      intros H. now injection H as -> _.
    + destruct (create_markdown_file_block w r out s Hmk)
        as (o & s2 & _ & [(_ & E) | (e1 & _ & _ & E)] & _ & _);
        rewrite E in H; discriminate.
Qed.

Lemma create_markdown_file_raises_witness :
  create_markdown_file no_dir_world sample_response "out/report.md" (init_state ∅)
  = (Raise IOError,
     mkState [Log INFO (MsgMarkdownWriting "out/report.md")] ∅ None).
Proof.
  exact (proj1 (create_markdown_file_raises no_dir_world sample_response
                  "out/report.md" (init_state ∅)) IOError eq_refl).
Defined.

(** When [create_markdown_file] leaves the process, it is with status 1,
    because the file system refused the Markdown file when it was opened,
    written or closed, and the last line of the log reports that
    exception. *)
Theorem create_markdown_file_exit_reason w r out s c s1 :
  create_markdown_file w r out s = (Exit c, s1) ->
  c = 1%Z
  /\ exists e t,
       text_io_failure w out e
       /\ trace s1 = t ++ [Log ERROR (markdown_error_msg out e)].
Proof.
  intros H. destruct (mkdir_parents w (path_parent w out)) as [e0 |] eqn:Hmk.
  - revert H. unfold create_markdown_file. rewrite Hmk. py_eval. discriminate.
  - destruct (create_markdown_file_block w r out s Hmk)
      as (o & s2 & _ & [(_ & E) | (e & _ & He & E)] & _ & _);
      rewrite E in H; [discriminate |].
    injection H as <- <-. split; [reflexivity |].
    exists e, (trace s2). split; [exact He | reflexivity].
Qed.

Lemma create_markdown_file_exit_reason_witness :
  create_markdown_file read_only_world sample_response "out/report.md" (init_state ∅)
  = (Exit 1%Z,
     mkState [Log INFO (MsgMarkdownWriting "out/report.md");
              Log ERROR (MsgMarkdownIOError "out/report.md" IOError)] ∅ None)
  /\ exists e t,
       text_io_failure read_only_world "out/report.md" e
       /\ [Log INFO (MsgMarkdownWriting "out/report.md");
           Log ERROR (MsgMarkdownIOError "out/report.md" IOError)]
          = t ++ [Log ERROR (markdown_error_msg "out/report.md" e)].
Proof.
  assert (H : create_markdown_file read_only_world sample_response "out/report.md"
                (init_state ∅)
              = (Exit 1%Z,
                 mkState [Log INFO (MsgMarkdownWriting "out/report.md");
                          Log ERROR (MsgMarkdownIOError "out/report.md" IOError)]
                         ∅ None)) by reflexivity.
  split; [exact H |].
  exact (proj2 (create_markdown_file_exit_reason read_only_world sample_response
                  "out/report.md" (init_state ∅) 1%Z _ H)).
Defined.

(** The Markdown file never holds anything but a beginning of the text of
    the pages: once the directory is made and the path opened, and if no
    image goes to the file the path names (under that path or another), what
    [create_markdown_file] leaves in the file is an initial segment of the
    pages joined by blank lines, whether the writes and the close go through
    or raise, and whatever part of the text a write or a close that raises
    lets through. *)
Theorem markdown_is_prefix w r out s :
  mkdir_parents w (path_parent w out) = None ->
  open_wt w out = None ->
  no_clash w r out ->
  exists b,
    files (create_markdown_file w r out s).2 !! file_of w out = Some b
    /\ byte_prefix b (encode_utf8 (spec_markdown_text (pages r))).
Proof.
  intros Hmk Hop Hn.
  destruct (create_markdown_file_block w r out s Hmk)
    as (o & s1 & _ & [(_ & E) | (e & _ & _ & E)] & Hf & _);
    rewrite E; exact (Hf Hop Hn).
Qed.

(** A failure of [mkdir] ends the run with status 1 after the OCR call: the
    exception leaves [create_markdown_file] and is caught by the last [try]
    of [main]; no file is written. *)
Theorem mkdir_failure_is_fatal w (ns : Namespace) fs d r e :
  reaches_ocr w ns d r ->
  mkdir_parents w (path_parent w (mk_path w (output_file ns))) = Some e ->
  exists t,
    run w ns fs
    = (1%Z,
       mkState (t ++ [Log INFO (MsgMarkdownWriting (mk_path w (output_file ns)));
                      Log ERROR (MsgSaveError e)]) fs None).
Proof.
  intros Hr Hmk. destruct (main_reaches_save w ns fs d r Hr) as (t & E).
  exists t. unfold run. rewrite E. unfold main_save, create_markdown_file.
  rewrite Hmk. py_eval. now rewrite <- app_assoc.
Qed.

Lemma full_disk_no_clash : no_clash full_disk_world sample_response "out/report.md".
Proof.
  intros page Hp image Hi. cbn in Hp.
  destruct Hp as [<- | [<- | [<- | []]]]; cbn in Hi;
    repeat (destruct Hi as [<- | Hi]; [vm_compute; discriminate |]); destruct Hi.
Qed.

Lemma markdown_is_prefix_witness :
  files (create_markdown_file full_disk_world sample_response "out/report.md"
           (init_state ∅)).2 !! "out/report.md"
  = Some (encode_utf8 "# Report")
  /\ exists b,
       files (create_markdown_file full_disk_world sample_response "out/report.md"
                (init_state ∅)).2 !! "out/report.md" = Some b
       /\ byte_prefix b (encode_utf8 (spec_markdown_text (pages sample_response))).
Proof.
  split; [reflexivity |].
  exact (markdown_is_prefix full_disk_world sample_response "out/report.md"
           (init_state ∅) eq_refl eq_refl full_disk_no_clash).
Defined.

Lemma no_dir_reaches_ocr :
  reaches_ocr no_dir_world sample_file_args sample_signed_url sample_response.
Proof.
  constructor.
  - exists "secret". split; reflexivity.
  - cbn. split; [reflexivity |]. split; [reflexivity |].
    exists sample_pdf, "file-1". repeat split.
  - discriminate.
  - reflexivity.
Qed.

Lemma mkdir_failure_is_fatal_witness :
  exists t,
    run no_dir_world sample_file_args ∅
    = (1%Z,
       mkState (t ++ [Log INFO (MsgMarkdownWriting "out/report.md");
                      Log ERROR (MsgSaveError IOError)]) ∅ None).
Proof.
  exact (mkdir_failure_is_fatal no_dir_world sample_file_args ∅ sample_signed_url
           sample_response IOError no_dir_reaches_ocr eq_refl).
Defined.

(** ** The images on disk *)

(** The file [f] holds [B] after the images of a page, if it did before or
    one of them goes to [f], when every image that goes to [f] is written
    with [B]. *)
Lemma save_images_keeps_image w dir f B imgs :
  (forall image, In image imgs -> file_of w (path_join w dir (id image)) = f ->
                 image_written w dir image B) ->
  forall s,
    files s !! f = Some B
    \/ (exists image, In image imgs /\ file_of w (path_join w dir (id image)) = f) ->
    files (save_images w imgs dir s).2 !! f = Some B.
Proof.
  induction imgs as [| image rest IH]; intros Hw s Hs.
  - destruct Hs as [Hs | (image & [] & _)]. exact Hs.
  - cbn [save_images].
    assert (Hrest : forall i, In i rest -> file_of w (path_join w dir (id i)) = f ->
                              image_written w dir i B)
      by (intros i Hi; apply Hw; now right).
    destruct (String.eqb_spec (file_of w (path_join w dir (id image))) f)
      as [Heq | Hne].
    + rewrite (bind_returns _ _ s tt _
                 (save_image_written w image dir B s (Hw image (or_introl eq_refl) Heq))).
      apply (IH Hrest). left. cbn. rewrite Heq. apply lookup_insert_eq.
    + pose proof (save_image_returns w image dir s) as E.
      pose proof (save_image_other w image dir s f (not_eq_sym Hne)) as Hf.
      destruct (save_image w image dir s) as [o s1] eqn:E0. cbn in E, Hf. subst o.
      rewrite (bind_returns _ _ s tt s1 E0). apply (IH Hrest).
      destruct Hs as [Hs | (i & [<- | Hi] & Hp)].
      * left. rewrite Hf. exact Hs.
      * contradiction.
      * right. now exists i.
Qed.

Lemma write_page_image w out dir n i page f B s :
  (forall t, write_text w out t = None) ->
  open_on out s ->
  f <> out ->
  (forall image, In image (images_list (images page)) ->
                 file_of w (path_join w dir (id image)) = f ->
                 image_written w dir image B) ->
  exists s1,
    write_page w dir n i page s = (Ret tt, s1)
    /\ open_on out s1
    /\ (files s !! f = Some B
        \/ (exists image, In image (images_list (images page))
                          /\ file_of w (path_join w dir (id image)) = f) ->
        files s1 !! f = Some B).
Proof.
  intros Hwr Ho Hne Hw. unfold write_page.
  rewrite (bind_returns _ _ s tt s) by reflexivity.
  destruct (do_write_text_ok w out (markdown page) s (Hwr _) Ho)
    as (s1 & E1 & Ho1 & _ & _).
  pose proof (do_write_text_other w (markdown page) s f (open_on_other out f s Ho Hne))
    as F1.
  rewrite E1 in F1. cbn [snd] in F1.
  rewrite (bind_returns _ _ s tt s1 E1).
  assert (exists s2,
            (if (Z.of_nat i <? Z.of_nat n - 1)%Z
             then do_write_text w blank_line else ret tt) s1 = (Ret tt, s2)
            /\ open_on out s2
            /\ files s2 !! f = files s1 !! f)
    as (s2 & E2 & Ho2 & F2).
  { destruct (Z.of_nat i <? Z.of_nat n - 1)%Z.
    - destruct (do_write_text_ok w out blank_line s1 (Hwr _) Ho1)
        as (s2 & E2 & Ho2 & _ & _).
      pose proof (do_write_text_other w blank_line s1 f
                    (open_on_other out f s1 Ho1 Hne)) as F2.
      rewrite E2 in F2. now exists s2.
    - now exists s1. }
  rewrite (bind_returns _ _ s1 tt s2 E2), page_images_eq.
  destruct (save_images_run w (images_list (images page)) dir s2)
    as (s3 & E3 & Hh3 & _).
  exists s3. split; [exact E3 |].
  split; [now apply (same_handle_open_on out s2) |].
  intros Hs.
  pose proof (save_images_keeps_image w dir f B _ Hw s2) as K.
  rewrite E3 in K. apply K. rewrite F2, F1. exact Hs.
Qed.

Lemma write_pages_image w out dir n f B ps :
  (forall t, write_text w out t = None) ->
  f <> out ->
  (forall page image,
     In page ps -> In image (images_list (images page)) ->
     file_of w (path_join w dir (id image)) = f -> image_written w dir image B) ->
  forall i s,
    open_on out s ->
    exists s1,
      write_pages w dir n i ps s = (Ret tt, s1)
      /\ open_on out s1
      /\ (files s !! f = Some B
          \/ (exists page image,
                In page ps /\ In image (images_list (images page))
                /\ file_of w (path_join w dir (id image)) = f) ->
          files s1 !! f = Some B).
Proof.
  intros Hwr Hne. induction ps as [| page rest IH]; intros Hw i s Ho.
  - exists s. split; [reflexivity |]. split; [exact Ho |].
    intros [Hs | (page & image & [] & _)]. exact Hs.
  - cbn [write_pages].
    destruct (write_page_image w out dir n i page f B s Hwr Ho Hne
                (fun image => Hw page image (or_introl eq_refl)))
      as (s1 & E1 & Ho1 & K1).
    rewrite (bind_returns _ _ s tt s1 E1).
    destruct (IH (fun pg image Hin => Hw pg image (or_intror Hin)) (S i) s1 Ho1)
      as (s2 & E2 & Ho2 & K2).
    exists s2. split; [exact E2 |]. split; [exact Ho2 |].
    intros [Hs | (pg & image & [<- | Hin] & Hi & Hp)].
    + apply K2. left. apply K1. now left.
    + apply K2. left. apply K1. right. now exists image.
    + apply K2. right. now exists pg, image.
Qed.

(** The images are on disk: when the Markdown file can be written, an image
    of the response whose payload is a data URI for [B] and whose file can be
    written is in the file that its path names, with the bytes [B], once
    [create_markdown_file] is done, provided that file is not the Markdown
    file and the images of the response that go to the same file, under
    whatever path, carry the same bytes. *)
Theorem images_on_disk w r out image B s :
  let dir := path_parent w out in
  let f := file_of w (path_join w dir (id image)) in
  markdown_io_ok w out ->
  has_image r image ->
  f <> file_of w out ->
  (forall image', has_image r image' ->
                  file_of w (path_join w dir (id image')) = f ->
                  image_written w dir image' B) ->
  files (create_markdown_file w r out s).2 !! f = Some B.
Proof.
  intros dir f [Hmk Hop Hwr Hcl] (page & Hpage & Himage) Hne Hw.
  unfold create_markdown_file.
  erewrite bind_returns by reflexivity.
  rewrite Hmk.
  erewrite bind_returns by reflexivity.
  unfold try_except, with_open_wt, do_open_wt. rewrite Hop.
  unfold bind at 1. unfold bind at 1. cbn [check ret bind].
  unfold bind at 1. cbn [ret].
  match goal with
  | |- context [write_pages w ?d ?n 0 ?ps ?s0] =>
      assert (Ho : open_on (file_of w out) s0)
        by (now exists (mkTextFile (file_of w out) 0 []));
      destruct (write_pages_image w (file_of w out) d n f B ps Hwr Hne
                  (fun pg im Hpg Him => Hw im (ex_intro _ pg (conj Hpg Him)))
                  0%nat s0 Ho)
        as (s1 & E1 & Ho1 & K1)
  end.
  rewrite E1. destruct Ho1 as (h1 & Hh1 & Hp1).
  unfold bind at 1, do_close_text. rewrite Hh1, Hp1, Hcl. cbn [ret].
  py_eval. cbn [snd files].
  rewrite flush_bytes_other by (now rewrite Hp1).
  apply K1. right. now exists page, image.
Qed.

Lemma images_on_disk_witness :
  markdown_io_ok sample_world "out/report.md"
  /\ files (create_markdown_file sample_world sample_response "out/report.md"
              (init_state ∅)).2 !! "out/img-1"
     = Some (list_byte_of_string "0123456789").
Proof.
  assert (H : markdown_io_ok sample_world "out/report.md")
    by (constructor; reflexivity).
  split; [exact H |].
  apply (images_on_disk sample_world sample_response "out/report.md" sample_image
           (list_byte_of_string "0123456789") (init_state ∅) H).
  - exists (mkPage "Figure 1" (Some [sample_image; sample_empty_image; sample_bad_image])).
    split; [right; left; reflexivity | left; reflexivity].
  - vm_compute. discriminate.
  - intros image' (page & Hp & Hi) Hpath. cbn in Hp.
    destruct Hp as [<- | [<- | [<- | []]]]; cbn in Hi;
      try (destruct Hi as [<- | [<- | [<- | []]]]); try contradiction;
      try (vm_compute in Hpath; discriminate).
    exists "data:,0123456789". repeat split. discriminate.
Defined.

(** ** The files a run leaves alone *)

Lemma create_markdown_file_other w r out s f :
  f <> file_of w out ->
  (forall page, In page (pages r) ->
     no_clash_images w (path_parent w out) f (images_list (images page))) ->
  files (create_markdown_file w r out s).2 !! f = files s !! f.
Proof.
  intros Hne Hn. destruct (mkdir_parents w (path_parent w out)) as [e |] eqn:Hmk.
  - unfold create_markdown_file. rewrite Hmk. reflexivity.
  - destruct (create_markdown_file_block w r out s Hmk)
      as (o & s1 & _ & [(_ & E) | (e & _ & _ & E)] & _ & F);
      rewrite E; exact (F f Hne Hn).
Qed.

Lemma main_save_files w r out s :
  files (main_save w r out s).2 = files (create_markdown_file w r out s).2.
Proof.
  unfold main_save. py_eval.
  now destruct (create_markdown_file w r out s) as [[[] | e | c] s1].
Qed.

(** A run writes nowhere else: a file that neither the path of the Markdown
    document names nor the path of an image of a response of the service is
    after the run as it was before, whatever the command line is and whatever
    happens in the run.  (The files are compared, not the paths: a path that
    looks different can name the same file.) *)
Theorem run_writes_nowhere_else w (a : Cmdline) fs f :
  (forall ns,
     a = Parsed ns ->
     let out := mk_path w (output_file ns) in
     f <> file_of w out
     /\ forall d r image,
          ocr_process w OCR_MODEL d true = inr r ->
          has_image r image ->
          file_of w (path_join w (path_parent w out) (id image)) <> f) ->
  files (run w a fs).2 !! f = fs !! f.
Proof.
  intros H. rewrite run_state.
  destruct a as [ns | |]; [| reflexivity | reflexivity].
  destruct (H ns eq_refl) as [Hne Himg].
  set (out := mk_path w (output_file ns)) in *.
  destruct (main_cases w ns fs) as [(o & t & E & _) | (d & t & E & _)]; rewrite E;
    [reflexivity |].
  destruct (main_from_locator_cases w out d (mkState t fs None))
    as [(_ & E2) | [(_ & e & _ & E2) | (_ & r & Hocr & E2)]];
    fold out; rewrite E2; [reflexivity | reflexivity |].
  rewrite main_save_files, create_markdown_file_other; [reflexivity | exact Hne |].
  intros page Hp image Hi. apply (Himg d r image Hocr). now exists page.
Qed.

Lemma run_writes_nowhere_else_witness :
  files (run sample_world sample_file_args sample_notes).2 !! "out/notes.txt"
  = Some (list_byte_of_string "keep me").
Proof.
  apply (run_writes_nowhere_else sample_world sample_file_args sample_notes
           "out/notes.txt").
  intros ns E. injection E as <-. split; [vm_compute; discriminate |].
  intros d r image Hocr (page & Hp & Hi). cbn in Hocr. injection Hocr as <-.
  cbn in Hp.
  destruct Hp as [<- | [<- | [<- | []]]]; cbn in Hi;
    repeat (destruct Hi as [<- | Hi]; [vm_compute; discriminate |]); destruct Hi.
Defined.
